(** * vinput: registry of virtual input device types and instances

    A shallow embedding of [vinput.c] (the core of the virtual input
    driver) and the properties of its identifier bitmap, its two
    registries, its create/destroy protocol and its read/write entry
    points.

    Conventions of the embedding.
    - C integers are [Z]; conversions between [size_t], [ssize_t],
      [loff_t] and [int] are written out with [u64] and [s64] (LP64),
      arithmetic on [dev_t] with [u32].
    - The two kernel lists are Rocq lists whose head is the entry that
      [list_add] inserted last; [list_for_each] walks them from the head.
      A provider is found on its list by the address of its list node,
      an instance by its id.
    - Calls that leave the file (allocator, driver core, input core,
      user-space copies, the provider operations) take their outcome from
      an explicit environment and are recorded in a log.
    - A NULL dereference or a use of freed memory ends the run in
      [Fault]. *)

From Stdlib Require Import ZArith List String Ascii Bool Lia.
From Stdlib Require Import Init.Byte.
From Stdlib Require DecimalString.
Import ListNotations.
Open Scope Z_scope.

(** ** Error numbers (linux/errno.h) *)

Module Errno.
Definition ENOMEM  : Z := 12.
Definition EFAULT  : Z := 14.
Definition ENODEV  : Z := 19.
Definition EINVAL  : Z := 22.
Definition ENOBUFS : Z := 105.
End Errno.
Import Errno.

(** ** Machine integers *)

Module Word.
Definition two64 : Z := 2 ^ 64.
Definition two63 : Z := 2 ^ 63.

(** Conversion to a 64-bit unsigned type ([size_t], [unsigned long long]). *)
Definition u64 (z : Z) : Z := z mod two64.

(** Conversion to a 64-bit signed type ([ssize_t], [loff_t]). *)
Definition s64 (z : Z) : Z := (z + two63) mod two64 - two63.

Definition is_size_t (z : Z) : Prop := 0 <= z < two64.
Definition is_loff_t (z : Z) : Prop := - two63 <= z < two63.
Definition is_int (z : Z) : Prop := - 2 ^ 31 <= z < 2 ^ 31.
End Word.
Import Word.

(** ** The identifier bitmap (linux/bitmap.h, linux/bitops.h) *)

Module Bitmap.
(** Scan of [n] bit positions starting at [i]; the first clear one, or
    the position after the last one scanned. *)
Fixpoint ffz_from (bits : Z) (i : Z) (n : nat) : Z :=
  match n with
  | O => i
  | S n' => if Z.testbit bits i then ffz_from bits (i + 1) n' else i
  end.

Definition find_first_zero_bit (bits : Z) (size : Z) : Z :=
  ffz_from bits 0 (Z.to_nat size).

Definition set_bit (nr : Z) (bits : Z) : Z :=
  Z.lor bits (Z.shiftl 1 nr).

Definition clear_bit (nr : Z) (bits : Z) : Z :=
  Z.land bits (Z.lnot (Z.shiftl 1 nr)).

(** Number of set bits among positions [i .. i+n-1]. *)
Fixpoint weight_from (bits : Z) (i : Z) (n : nat) : nat :=
  match n with
  | O => O
  | S n' => ((if Z.testbit bits i then 1 else 0)
             + weight_from bits (i + 1) n')%nat
  end.

Definition bitmap_weight (bits : Z) (size : Z) : nat :=
  weight_from bits 0 (Z.to_nat size).
End Bitmap.
Import Bitmap.

(** ** C strings (linux/string.h)

    A [string] stands for the bytes up to the terminating NUL; reading
    its end yields the NUL byte. *)

Module CString.
Definition byte_at (s : string) : Z :=
  match s with
  | EmptyString => 0
  | String c _ => Z.of_nat (nat_of_ascii c)
  end.

Definition advance (s : string) : string :=
  match s with
  | EmptyString => EmptyString
  | String _ r => r
  end.

Fixpoint strlen (s : string) : nat :=
  match s with
  | EmptyString => O
  | String c r => if byte_at s =? 0 then O else S (strlen r)
  end.

(** Compares at most [n] bytes and stops after a common NUL. *)
Fixpoint strncmp (cs ct : string) (n : nat) : Z :=
  match n with
  | O => 0
  | S n' =>
      let c1 := byte_at cs in
      let c2 := byte_at ct in
      if c1 =? c2
      then if c1 =? 0 then 0 else strncmp (advance cs) (advance ct) n'
      else c1 - c2
  end.

(** The bytes of [s] hold no NUL, so [s] is the whole C string. *)
Fixpoint no_nul (s : string) : bool :=
  match s with
  | EmptyString => true
  | String c r => negb (byte_at s =? 0) && no_nul r
  end.
End CString.
Import CString.

(** ** Data model (vinput.h) *)

(** Modelled from the spec: [vinput.h] is not among the sources.  The
    three provider operations are the ones [vinput.c] calls through
    [type->ops]; the provider is handed the instance and its result is
    taken as a function of the instance's id (and of the staged bytes
    and the count). *)
Record vinput_ops : Type := {
  init : Z -> Z;
  send : Z -> list byte -> Z -> Z;
  read : Z -> Z -> Z
}.

(** Modelled from the spec: [struct vinput_device] of [vinput.h], with
    the fields [vinput.c] uses.  [node] stands for the member [list], the
    node by which the struct is linked into [vinput_devices]: it is the
    address of that node, which is what [list_add] and [list_del] are
    handed and what tells one struct from another. *)
Record vinput_device : Type := {
  name : string;
  node : Z;
  ops : vinput_ops
}.

(** The fields of [struct input_dev] that [vinput_register_vdevice] sets. *)
Record input_dev : Type := {
  in_name : string;
  in_phys : string;
  in_parent : option Z;
  in_bustype : Z;
  in_product : Z;
  in_vendor : Z;
  in_version : Z
}.

(** The fields of [struct device] that [vinput_alloc_vdevice] sets. *)
Record device : Type := {
  dev_class : option string;
  dev_release : bool;
  devt : Z;
  dev_name : string
}.

(** Modelled from the spec: [struct vinput] of [vinput.h], with the
    fields [vinput.c] uses. *)
Record vinput : Type := {
  id : Z;
  type : option vinput_device;
  input : option input_dev;
  dev : device
}.

Definition VINPUT_MINORS : Z := 32.
Definition DRIVER_NAME : string := "vinput".
Definition BUS_VIRTUAL : Z := 6.
Definition MINORBITS : Z := 20.

(** Conversion to [dev_t], an unsigned 32-bit type. *)
Definition u32 (z : Z) : Z := z mod 2 ^ 32.

(** [MKDEV (ma, mi)] is [((ma) << MINORBITS) | (mi)].  Its first argument
    is [vinput_dev], a [dev_t], so the shift is done on 32 bits; the
    second is an [unsigned long]. *)
Definition MKDEV (ma mi : Z) : Z := Z.lor (u32 (Z.shiftl ma MINORBITS)) mi.

(** Calls that leave [vinput.c], as they appear in the log. *)
Inductive event : Type :=
| EvKzalloc
| EvKfree (i : Z)
| EvModuleGet
| EvModulePut
| EvInputAllocate
| EvOpsInit (n : string) (i : Z)
| EvOpsSend (n : string) (i : Z) (buff : list byte) (count : Z)
| EvOpsRead (n : string) (i : Z) (count : Z)
| EvDeviceRegister (i : Z)
| EvInputRegister (i : Z)
| EvDeviceUnregister (i : Z)
| EvInputUnregister (i : Z)
| EvCopyFromUser (count : Z)
| EvCopyToUser (from : Z) (count : Z).

(** The file-scope variables of [vinput.c], and the log of outside calls. *)
Record kstate : Type := {
  vinput_ids : Z;
  vinput_devices : list vinput_device;
  vinput_vdevices : list vinput;
  vinput_dev : Z;
  klog : list event
}.

(** The three structures guarded by [vinput_lock]. *)
Definition registries (s : kstate) : Z * list vinput * list vinput_device :=
  (vinput_ids s, vinput_vdevices s, vinput_devices s).

(** Outcomes of the calls that leave [vinput.c]. *)
Record extern : Type := {
  x_kzalloc_ok : bool;
  x_input_allocate_ok : bool;
  x_device_register : Z;
  x_input_register_device : Z;
  (** whether [device_unregister] on the node of instance [i] drops the
      last reference to it, so that the driver core runs [dev.release] *)
  x_device_unregister_releases : Z -> bool;
  (** the same for [input_unregister_device] on the input device of [i],
      which gives up the reference it holds on its parent *)
  x_input_unregister_releases : Z -> bool
}.

(** ** Runs of kernel code *)

Inductive outcome (A : Type) : Type :=
| Done (a : A)
| Fault.
Arguments Done {A} a.
Arguments Fault {A}.

Definition K (A : Type) : Type := kstate -> outcome (A * kstate).

Definition ret {A} (a : A) : K A := fun s => Done (a, s).

Definition bind {A B} (m : K A) (f : A -> K B) : K B :=
  fun s => match m s with
           | Done (a, s') => f a s'
           | Fault => Fault
           end.

Definition oops {A} : K A := fun _ => Fault.

Definition get : K kstate := fun s => Done (s, s).

Definition modify (f : kstate -> kstate) : K unit := fun s => Done (tt, f s).

Notation "x <- m ;; k" := (bind m (fun x => k))
  (at level 61, m at next level, right associativity).
Notation "m ;;; k" := (bind m (fun _ => k))
  (at level 61, right associativity).

Definition set_ids (f : Z -> Z) (s : kstate) : kstate :=
  {| vinput_ids := f (vinput_ids s);
     vinput_devices := vinput_devices s;
     vinput_vdevices := vinput_vdevices s;
     vinput_dev := vinput_dev s;
     klog := klog s |}.

Definition set_devices (f : list vinput_device -> list vinput_device)
    (s : kstate) : kstate :=
  {| vinput_ids := vinput_ids s;
     vinput_devices := f (vinput_devices s);
     vinput_vdevices := vinput_vdevices s;
     vinput_dev := vinput_dev s;
     klog := klog s |}.

Definition set_vdevices (f : list vinput -> list vinput) (s : kstate) : kstate :=
  {| vinput_ids := vinput_ids s;
     vinput_devices := vinput_devices s;
     vinput_vdevices := f (vinput_vdevices s);
     vinput_dev := vinput_dev s;
     klog := klog s |}.

Definition log (e : event) : K unit :=
  modify (fun s =>
    {| vinput_ids := vinput_ids s;
       vinput_devices := vinput_devices s;
       vinput_vdevices := vinput_vdevices s;
       vinput_dev := vinput_dev s;
       klog := klog s ++ [e] |}).

(** ** The type registry *)

(** The walk of [vinput_get_device_by_type] over [vinput_devices]:
    the first entry whose whole name starts the queried text. *)
Fixpoint scan_by_type (type_ : string) (l : list vinput_device)
    : option vinput_device :=
  match l with
  | [] => None
  | device :: rest =>
      if strncmp type_ (name device) (strlen (name device)) =? 0
      then Some device
      else scan_by_type type_ rest
  end.

(** Result of a function that returns a pointer or [ERR_PTR (err)]. *)
Definition ptr_or_err (A : Type) : Type := (Z + A)%type.
Definition ERR_PTR {A} (err : Z) : ptr_or_err A := inl err.

Definition vinput_get_device_by_type (type_ : string) (s : kstate)
    : ptr_or_err vinput_device :=
  match scan_by_type type_ (vinput_devices s) with
  | Some device => inr device
  | None => ERR_PTR (- ENODEV)
  end.

(** The node of [d] is linked into [vinput_devices]. *)
Definition linked (d : vinput_device) (s : kstate) : bool :=
  existsb (fun x => node x =? node d) (vinput_devices s).

(** [vinput_devices] after [list_del (&d->list)]: the list without the
    entry whose node is the one of [d]. *)
Fixpoint list_del_device (d : vinput_device) (l : list vinput_device)
    : list vinput_device :=
  match l with
  | [] => []
  | x :: rest =>
      if node x =? node d then rest
      else x :: list_del_device d rest
  end.

Definition vinput_register (d : vinput_device) : K Z :=
  modify (set_devices (cons d)) ;;;
  ret 0.

(** ** The instance registry *)

(** The walk of [vinput_get_vdevice_by_id]: [cur] is the loop variable
    [vinput], which starts as NULL and keeps the last entry visited when
    no entry breaks the loop. *)
Fixpoint scan_by_id (i : Z) (l : list vinput) (cur : option vinput)
    : option vinput :=
  match l with
  | [] => cur
  | v :: rest => if id v =? i then Some v else scan_by_id i rest (Some v)
  end.

Definition vinput_get_vdevice_by_id (i : Z) : K (ptr_or_err vinput) :=
  fun s =>
    match scan_by_id i (vinput_vdevices s) None with
    | None => Fault
    | Some v => if id v =? i then Done (inr v, s)
                else Done (ERR_PTR (- ENODEV), s)
    end.

(** An instance is live from its [list_add] to its [kfree], that is,
    while [vinput_vdevices] holds it. *)
Definition live (v : vinput) (s : kstate) : bool :=
  existsb (fun x => id x =? id v) (vinput_vdevices s).

(** [list_del] on a node of [vinput_vdevices]; instances are told apart
    by their id, which no two entries of the list share (see
    [export_store_success_keeps_agreement]). *)
Fixpoint list_del (v : vinput) (l : list vinput) : list vinput :=
  match l with
  | [] => []
  | x :: rest => if id x =? id v then rest else x :: list_del v rest
  end.

(** A store through the pointer [vinput]: the registry holds the
    object itself, so the entry changes with it. *)
Definition store (v : vinput) : K unit :=
  fun s =>
    if live v s
    then Done (tt, set_vdevices
                     (map (fun x => if id x =? id v then v else x)) s)
    else Fault.

Definition with_type (v : vinput) (d : vinput_device) : vinput :=
  {| id := id v; type := Some d; input := input v; dev := dev v |}.

Definition with_input (v : vinput) (i : option input_dev) : vinput :=
  {| id := id v; type := type v; input := i; dev := dev v |}.

Definition with_dev (v : vinput) (d : device) : vinput :=
  {| id := id v; type := type v; input := input v; dev := d |}.

(** ** File operations *)

Record file : Type := {
  private_data : option vinput
}.

Definition vinput_open (minor : Z) (f : file) : K (Z * file) :=
  vinput <- vinput_get_vdevice_by_id minor ;;
  match vinput with
  | inl err => ret (err, f)
  | inr v => ret (0, {| private_data := Some v |})
  end.

Definition vinput_release (f : file) : Z := 0.

(** [copy_to_user] and [copy_from_user] return the number of bytes left
    uncopied: none when the user range is accessible. *)
Definition copy_to_user (writable : Z) (count : Z) : Z :=
  if count <=? writable then 0 else count.

Definition copy_from_user (src : list byte) (count : Z) : Z :=
  if count <=? Z.of_nat (List.length src) then 0 else count.

Record read_result : Type := {
  rd_ret : Z;
  rd_offset : Z;
  rd_log : list event
}.

Record write_result : Type := {
  wr_ret : Z;
  wr_log : list event
}.

Section IO.
(** Modelled from the spec: [VINPUT_MAX_LEN] is defined in [vinput.h],
    which is not among the sources; the spec calls it a small fixed
    constant. *)
Variable VINPUT_MAX_LEN : Z.

(** [writable] is the number of bytes the caller's buffer can take;
    [count] is a [size_t] and [offset] the [loff_t] behind the pointer. *)
Definition vinput_read (f : file) (writable : Z) (count : Z) (offset : Z)
    : outcome read_result :=
  match private_data f with
  | None => Fault
  | Some v =>
      match type v with
      | None => Fault
      | Some t =>
          let len := read (ops t) (id v) count in
          let count1 :=
            if offset >? len then 0
            else if u64 (count + offset) >? u64 VINPUT_MAX_LEN
                 then u64 (len - offset)
                 else count in
          let count2 :=
            if copy_to_user writable count1 =? 0 then count1
            else u64 (- EFAULT) in
          Done {| rd_ret := s64 count2;
                  rd_offset := s64 (offset + count2);
                  rd_log := [EvOpsRead (name t) (id v) count;
                             EvCopyToUser offset count1] |}
      end
  end.

(** The staging buffer after [memset] and [copy_from_user]. *)
Definition staged (src : list byte) (count : Z) : list byte :=
  let n := Z.to_nat count in
  firstn n src ++ repeat x00 (Z.to_nat (VINPUT_MAX_LEN + 1) - n).

(** [src] holds the bytes readable at the caller's buffer. *)
Definition vinput_write (f : file) (src : list byte) (count : Z) (offset : Z)
    : outcome write_result :=
  match private_data f with
  | None => Fault
  | Some v =>
      if count >? u64 VINPUT_MAX_LEN
      then Done {| wr_ret := - EINVAL; wr_log := [] |}
      else if negb (copy_from_user src count =? 0)
      then Done {| wr_ret := - EFAULT; wr_log := [EvCopyFromUser count] |}
      else
        match type v with
        | None => Fault
        | Some t =>
            let buff := staged src count in
            Done {| wr_ret := send (ops t) (id v) buff count;
                    wr_log := [EvCopyFromUser count;
                               EvOpsSend (name t) (id v) buff count] |}
        end
  end.
End IO.

(** ** Instance lifecycle *)

Definition vinput_destroy_vdevice (v : vinput) : K unit :=
  fun s =>
    if live v s
    then (modify (set_vdevices (list_del v)) ;;;
          modify (set_ids (clear_bit (id v))) ;;;
          log EvModulePut ;;;
          log (EvKfree (id v))) s
    else Fault.

Definition vinput_release_dev (v : vinput) : K unit :=
  vinput_destroy_vdevice v.

(** [device_unregister (&vinput->dev)]; the driver core calls the
    [release] hook of the device when its last reference goes. *)
Definition device_unregister (x : extern) (v : vinput) : K unit :=
  fun s =>
    if live v s
    then (log (EvDeviceUnregister (id v)) ;;;
          if x_device_unregister_releases x (id v) && dev_release (dev v)
          then vinput_release_dev v
          else ret tt) s
    else Fault.

(** [input_unregister_device (vinput->input)]; the input device gives
    up its reference on the parent [vinput->dev]. *)
Definition vinput_unregister_vdevice (x : extern) (v : vinput) : K unit :=
  fun s =>
    if live v s
    then (log (EvInputUnregister (id v)) ;;;
          if x_input_unregister_releases x (id v) && dev_release (dev v)
          then vinput_release_dev v
          else ret tt) s
    else Fault.

(** The object after [kzalloc] and [memset]. *)
Definition zeroed_device : device :=
  {| dev_class := None; dev_release := false; devt := 0;
     dev_name := EmptyString |}.

Definition zeroed_vinput : vinput :=
  {| id := 0; type := None; input := None; dev := zeroed_device |}.

Definition with_id (v : vinput) (i : Z) : vinput :=
  {| id := i; type := type v; input := input v; dev := dev v |}.

(** The object [input_allocate_device] returns. *)
Definition fresh_input : input_dev :=
  {| in_name := EmptyString; in_phys := EmptyString; in_parent := None;
     in_bustype := 0; in_product := 0; in_vendor := 0; in_version := 0 |}.

Definition decimal (i : Z) : string :=
  DecimalString.NilZero.string_of_uint (N.to_uint (Z.to_N i)).

Definition vinput_alloc_vdevice (x : extern) : K (ptr_or_err vinput) :=
  log EvKzalloc ;;;
  log EvModuleGet ;;;
  if negb (x_kzalloc_ok x) then oops
  else
    s <- get ;;
    let vinput := with_id zeroed_vinput
                    (find_first_zero_bit (vinput_ids s) VINPUT_MINORS) in
    if id vinput >=? VINPUT_MINORS
    then (* fail_id *)
      log EvModulePut ;;;
      log (EvKfree (id vinput)) ;;;
      ret (ERR_PTR (- ENOBUFS))
    else
      modify (set_ids (set_bit (id vinput))) ;;;
      modify (set_vdevices (cons vinput)) ;;;
      log EvInputAllocate ;;;
      if negb (x_input_allocate_ok x)
      then (* fail_input_dev, then fail_id *)
        modify (set_vdevices (list_del vinput)) ;;;
        log EvModulePut ;;;
        log (EvKfree (id vinput)) ;;;
        ret (ERR_PTR (- ENOMEM))
      else
        let vinput := with_input vinput (Some fresh_input) in
        let vinput :=
          with_dev vinput
            {| dev_class := Some "vinput"%string;
               dev_release := true;
               devt := u32 (MKDEV (vinput_dev s) (id vinput));
               dev_name := (DRIVER_NAME ++ decimal (id vinput))%string |} in
        store vinput ;;;
        ret (inr vinput).

Definition vinput_register_vdevice (v : vinput) : K (Z * vinput) :=
  match input v, type v with
  | Some i, Some t =>
      let v' :=
        with_input v
          (Some {| in_name := "vinput"; in_phys := "vinput";
                   in_parent := Some (id v);
                   in_bustype := BUS_VIRTUAL;
                   in_product := 0; in_vendor := 0; in_version := 0 |}) in
      store v' ;;;
      log (EvOpsInit (name t) (id v)) ;;;
      ret (init (ops t) (id v), v')
  | _, _ => oops
  end.

Definition device_register (x : extern) (v : vinput) : K Z :=
  log (EvDeviceRegister (id v)) ;;;
  ret (x_device_register x).

Definition input_register_device (x : extern) (v : vinput) : K Z :=
  log (EvInputRegister (id v)) ;;;
  ret (x_input_register_device x).

(** ** Control surface *)

Definition export_store (x : extern) (buf : string) (len : Z) : K Z :=
  s <- get ;;
  match vinput_get_device_by_type buf s with
  | inl err => ret err
  | inr device =>
      r <- vinput_alloc_vdevice x ;;
      match r with
      | inl err => ret err
      | inr vinput =>
          let vinput := with_type vinput device in
          store vinput ;;;
          r <- vinput_register_vdevice vinput ;;
          let '(err, vinput) := r in
          if err <? 0
          then (* fail_register_vinput *)
            vinput_destroy_vdevice vinput ;;;
            ret err
          else
            err <- device_register x vinput ;;
            if err <? 0
            then (* fail_register *)
              vinput_unregister_vdevice x vinput ;;;
              vinput_destroy_vdevice vinput ;;;
              ret err
            else
              err <- input_register_device x vinput ;;
              if err <? 0
              then (* fail_register_input *)
                device_unregister x vinput ;;;
                vinput_unregister_vdevice x vinput ;;;
                vinput_destroy_vdevice vinput ;;;
                ret err
              else ret len
      end
  end.

(** [parsed] is what [kstrtol (buf, 10, &id)] makes of the text: [None]
    when it returns an error. *)
Definition unexport_store (x : extern) (parsed : option Z) (len : Z) : K Z :=
  match parsed with
  | None => ret (- EINVAL)
  | Some i =>
      r <- vinput_get_vdevice_by_id i ;;
      match r with
      | inl err => ret err
      | inr vinput =>
          device_unregister x vinput ;;;
          vinput_unregister_vdevice x vinput ;;;
          ret len
      end
  end.

(** The body of the [list_for_each_safe] loop of [vinput_unregister],
    over the entries the list held when the loop began. *)
Fixpoint unregister_each (x : extern) (l : list vinput) : K unit :=
  match l with
  | [] => ret tt
  | vinput :: rest =>
      device_unregister x vinput ;;;
      unregister_each x rest
  end.

(** [list_del] unlinks the node it is handed through the neighbours the
    node points to.  A node that is not on the list (never added, or
    deleted before) points to no neighbours, and the call faults. *)
Definition vinput_unregister (x : extern) (d : vinput_device) : K unit :=
  s <- get ;;
  if negb (linked d s) then oops
  else
    modify (set_devices (list_del_device d)) ;;;
    s <- get ;;
    unregister_each x (vinput_vdevices s).

(** The state before any provider registers: what the zero-initialised
    file-scope variables hold, with [major] the number [register_chrdev]
    gave. *)
Definition boot (major : Z) : kstate :=
  {| vinput_ids := 0; vinput_devices := []; vinput_vdevices := [];
     vinput_dev := major; klog := [] |}.

(** ** Sequences of commands and statements about states *)

(** A run of [export_store] commands that all succeed, that is, return
    the (non-negative) count they were given; the state after the last. *)
Fixpoint creates (reqs : list (extern * string * Z)) (s : kstate)
    : option kstate :=
  match reqs with
  | [] => Some s
  | (x, buf, len) :: rest =>
      match export_store x buf len s with
      | Done (r, s') => if 0 <=? r then creates rest s' else None
      | Fault => None
      end
  end.

(** An instance with id [i] can be reached from [vinput_vdevices]. *)
Definition reachable (i : Z) (s : kstate) : Prop :=
  exists v, In v (vinput_vdevices s) /\ id v = i.

(** Bit [i] of [vinput_ids] is set. *)
Definition allocated (i : Z) (s : kstate) : Prop :=
  Z.testbit (vinput_ids s) i = true.

Definition registry_matches_bitmap (s : kstate) : Prop :=
  forall i, 0 <= i < VINPUT_MINORS -> (allocated i s <-> reachable i s).

(** Two states with the same bitmap and the same providers. *)
Definition frame (s s' : kstate) : Prop :=
  vinput_ids s' = vinput_ids s /\ vinput_devices s' = vinput_devices s.

(** The driver core answers [device_unregister] on [v] by running the
    [release] hook. *)
Definition released (x : extern) (v : vinput) : bool :=
  x_device_unregister_releases x (id v) && dev_release (dev v).

(** What the loop of [vinput_unregister] adds to the log for [l]. *)
Definition teardown_log (x : extern) (l : list vinput) : list event :=
  flat_map (fun v => EvDeviceUnregister (id v)
                     :: if released x v then [EvModulePut; EvKfree (id v)]
                        else []) l.

(** The bitmap after the loop of [vinput_unregister] over [l]. *)
Definition clear_released (x : extern) (l : list vinput) (bits : Z) : Z :=
  fold_left (fun b v => if released x v then clear_bit (id v) b else b) l bits.

(** ** Sample providers and environments *)

Module Sample.
Definition echo_ops : vinput_ops :=
  {| init := fun _ => 0;
     send := fun _ _ count => count;
     read := fun _ _ => 0 |}.

Definition vkbd : vinput_device :=
  {| name := "vkbd"; node := 1; ops := echo_ops |}.
Definition vkbdpro : vinput_device :=
  {| name := "vkbdpro"; node := 2; ops := echo_ops |}.
Definition vts : vinput_device :=
  {| name := "vts"; node := 3; ops := echo_ops |}.

(** Every outside call succeeds; the node of an instance is released
    when its input device, the last holder of a reference, goes. *)
Definition all_ok : extern :=
  {| x_kzalloc_ok := true;
     x_input_allocate_ok := true;
     x_device_register := 0;
     x_input_register_device := 0;
     x_device_unregister_releases := fun _ => false;
     x_input_unregister_releases := fun _ => true |}.

(** [input_allocate_device] returns NULL. *)
Definition no_input : extern :=
  {| x_kzalloc_ok := true;
     x_input_allocate_ok := false;
     x_device_register := 0;
     x_input_register_device := 0;
     x_device_unregister_releases := fun _ => false;
     x_input_unregister_releases := fun _ => true |}.

Definition state_of {A} (o : outcome (A * kstate)) : kstate :=
  match o with
  | Done (_, s) => s
  | Fault => boot 0
  end.

(** [vkbd] registered on a fresh driver. *)
Definition with_vkbd : kstate :=
  Eval vm_compute in
    state_of (vinput_register vkbd (boot 250)).

(** ["vkbd"] registered, then ["vkbdpro"]. *)
Definition vkbd_then_vkbdpro : kstate :=
  Eval vm_compute in
    state_of ((vinput_register vkbd ;;; vinput_register vkbdpro) (boot 250)).


(** Two providers and three live instances: two keyboards and one
    touchscreen. *)
Definition three_live : kstate :=
  Eval vm_compute in
    state_of ((vinput_register vkbd ;;;
               vinput_register vts ;;;
               export_store all_ok "vkbd" 5 ;;;
               export_store all_ok "vts" 4 ;;;
               export_store all_ok "vkbd" 5) (boot 250)).

(** [with_vkbd] after a create during which [input_allocate_device]
    returned NULL. *)
Definition after_failed_create : kstate :=
  Eval vm_compute in
    state_of (export_store no_input "vkbd" 5 with_vkbd).

(** One keyboard created on [with_vkbd]; then destroyed. *)
Definition one_live : kstate :=
  Eval vm_compute in
    state_of (export_store all_ok "vkbd" 5 with_vkbd).

Definition none_live : kstate :=
  Eval vm_compute in
    state_of (unexport_store all_ok (Some 0) 2 one_live).

Definition one_live_again : kstate :=
  Eval vm_compute in
    state_of (export_store all_ok "vkbd" 5 none_live).

(** Two keyboards created on [with_vkbd]; then the first destroyed. *)
Definition two_live : kstate :=
  Eval vm_compute in
    state_of (export_store all_ok "vkbd" 5 one_live).

Definition second_live : kstate :=
  Eval vm_compute in
    state_of (unexport_store all_ok (Some 0) 2 two_live).

(** Thirty-two keyboards created on [with_vkbd]. *)
Definition full_requests : list (extern * string * Z) :=
  repeat (all_ok, "vkbd"%string, 5) 32.

Definition full : kstate :=
  Eval vm_compute in
    match creates full_requests with_vkbd with
    | Some s => s
    | None => boot 0
    end.

Definition an_instance : vinput :=
  with_type (with_id zeroed_vinput 0) vkbd.

Definition a_file : file := {| private_data := Some an_instance |}.
End Sample.

(** ** Module load and unload *)

Inductive module_event : Type :=
| EvRegisterChrdev
| EvClassRegister
| EvClassUnregister
| EvUnregisterChrdev (major : Z).

Definition with_vinput_dev (s : kstate) (d : Z) : kstate :=
  {| vinput_ids := vinput_ids s;
     vinput_devices := vinput_devices s;
     vinput_vdevices := vinput_vdevices s;
     vinput_dev := d;
     klog := klog s |}.

(** [chrdev] is what [register_chrdev] returns (the major number, or a
    negative error) and [class_reg] what [class_register] returns; the
    result is the return value, the state and the outside calls made. *)
Definition vinput_init (chrdev class_reg : Z) (s : kstate)
    : Z * kstate * list module_event :=
  let err := 0 in
  let s := with_vinput_dev s (u32 chrdev) in
  if vinput_dev s <? 0
  then (* failed_alloc *) (err, s, [EvRegisterChrdev])
  else
    let err := class_reg in
    if err <? 0
    then (* failed_class *)
      (err, s, [EvRegisterChrdev; EvClassRegister; EvClassUnregister])
    else (0, s, [EvRegisterChrdev; EvClassRegister]).

Definition vinput_end (s : kstate) : list module_event :=
  [EvUnregisterChrdev (vinput_dev s); EvClassUnregister].

(** ** Commands and what they keep *)

(** The instance [export_store] leaves on the list when every step
    succeeds: id [i], bound to [d], on a driver with major [major]. *)
Definition created (d : vinput_device) (major i : Z) : vinput :=
  {| id := i;
     type := Some d;
     input := Some {| in_name := "vinput"; in_phys := "vinput";
                      in_parent := Some i;
                      in_bustype := BUS_VIRTUAL;
                      in_product := 0; in_vendor := 0; in_version := 0 |};
     dev := {| dev_class := Some "vinput"%string;
               dev_release := true;
               devt := u32 (MKDEV major i);
               dev_name := (DRIVER_NAME ++ decimal i)%string |} |}.

(** The list of ids after [list_del] of the entry with id [i]. *)
Fixpoint remove_first (i : Z) (l : list Z) : list Z :=
  match l with
  | [] => []
  | j :: rest => if j =? i then rest else j :: remove_first i rest
  end.

(** The entry points that change the registries. *)
Inductive command : Type :=
| Register (d : vinput_device)
| Unregister (x : extern) (d : vinput_device)
| Export (x : extern) (buf : string) (len : Z)
| Unexport (x : extern) (parsed : option Z) (len : Z).

Definition run_command (c : command) : K Z :=
  match c with
  | Register d => vinput_register d
  | Unregister x d => vinput_unregister x d ;;; ret 0
  | Export x buf len => export_store x buf len
  | Unexport x parsed len => unexport_store x parsed len
  end.

(** A sequence of commands, with the values they return. *)
Fixpoint run_commands (cs : list command) : K (list Z) :=
  match cs with
  | [] => ret []
  | c :: rest =>
      r <- run_command c ;;
      rs <- run_commands rest ;;
      ret (r :: rs)
  end.

(** [input_allocate_device] does not fail during the command. *)
Definition input_allocated (c : command) : Prop :=
  match c with
  | Export x _ _ => x_input_allocate_ok x = true
  | _ => True
  end.

(** A run from a state where [P] holds ends, if it ends, in a state
    where [P] holds. *)
Definition preserves {A} (P : kstate -> Prop) (m : K A) : Prop :=
  forall s a s', P s -> m s = Done (a, s') -> P s'.

(** Every id on the list is below [VINPUT_MINORS] and marked in the
    bitmap, and no two entries of the list share an id. *)
Definition ids_sound (bits : Z) (l : list Z) : Prop :=
  NoDup l /\
  forall i, In i l -> 0 <= i < VINPUT_MINORS /\ Z.testbit bits i = true.

(** The ids on the list are exactly the ids marked in the bitmap. *)
Definition ids_exact (bits : Z) (l : list Z) : Prop :=
  NoDup l /\
  forall i, 0 <= i < VINPUT_MINORS -> (Z.testbit bits i = true <-> In i l).

Definition on_registry (Q : Z -> list Z -> Prop) (s : kstate) : Prop :=
  Q (vinput_ids s) (map id (vinput_vdevices s)).

(** ** More sample states *)

Module Scenario.
(** A keyboard whose [init] fails with [-EINVAL]. *)
Definition broken_ops : vinput_ops :=
  {| init := fun _ => - EINVAL;
     send := fun _ _ count => count;
     read := fun _ _ => 0 |}.

Definition vbroken : vinput_device :=
  {| name := "vbroken"; node := 4; ops := broken_ops |}.

(** A provider that always has five bytes to read. *)
Definition five_ops : vinput_ops :=
  {| init := fun _ => 0;
     send := fun _ _ count => count;
     read := fun _ _ => 5 |}.

Definition vfive : vinput_device :=
  {| name := "vfive"; node := 5; ops := five_ops |}.

Definition five_file : file :=
  {| private_data := Some (created vfive 250 0) |}.

(** [device_register] fails. *)
Definition no_node : extern :=
  {| x_kzalloc_ok := true;
     x_input_allocate_ok := true;
     x_device_register := - ENOMEM;
     x_input_register_device := 0;
     x_device_unregister_releases := fun _ => false;
     x_input_unregister_releases := fun _ => false |}.

(** [input_register_device] fails and [device_unregister] then drops
    the last reference to the node. *)
Definition no_input_node : extern :=
  {| x_kzalloc_ok := true;
     x_input_allocate_ok := true;
     x_device_register := 0;
     x_input_register_device := - ENOMEM;
     x_device_unregister_releases := fun _ => true;
     x_input_unregister_releases := fun _ => false |}.

Definition with_vbroken : kstate :=
  Eval vm_compute in
    Sample.state_of (vinput_register vbroken Sample.with_vkbd).

(** Register, two creates, a destroy, a failed create, an unregister. *)
Definition a_session : list command :=
  [Register Sample.vkbd;
   Export Sample.all_ok "vkbd" 5;
   Export Sample.all_ok "vkbd" 5;
   Unexport Sample.all_ok (Some 0) 2;
   Export Sample.no_input "vkbd" 5;
   Export Sample.all_ok "vkbd" 5;
   Unregister Sample.all_ok Sample.vkbd].

Definition after_session : kstate :=
  Eval vm_compute in Sample.state_of (run_commands a_session (boot 250)).

(** The same without the failed create. *)
Definition a_clean_session : list command :=
  [Register Sample.vkbd;
   Export Sample.all_ok "vkbd" 5;
   Export Sample.all_ok "vkbd" 5;
   Unexport Sample.all_ok (Some 0) 2;
   Export Sample.all_ok "vkbd" 5].

Definition after_clean_session : kstate :=
  Eval vm_compute in
    Sample.state_of (run_commands a_clean_session (boot 250)).

(** [vkbd] registered after a load during which [register_chrdev]
    failed with [-EBUSY]: [vinput_dev] holds the error as a [dev_t]. *)
Definition after_failed_chrdev : kstate :=
  Eval vm_compute in
    let '(_, s, _) := vinput_init (- 16) 0 (boot 0) in
    Sample.state_of (vinput_register Sample.vkbd s).

(** Thirty-two creates during which [input_allocate_device] fails. *)
Definition failing_creates : list command :=
  repeat (Export Sample.no_input "vkbd"%string 5) 32.
End Scenario.

(** ** Proof support *)

Arguments find_first_zero_bit : simpl never.
Arguments set_bit : simpl never.
Arguments clear_bit : simpl never.
Arguments MKDEV : simpl never.
Arguments u32 : simpl never.
Arguments decimal : simpl never.
Arguments String.append : simpl never.

Ltac kunfold := cbv beta delta [bind ret get modify log oops] iota.

(** * Properties *)

(** ** Machine integers *)

Module WordFacts.
Lemma u64_small z : 0 <= z < two64 -> u64 z = z.
Proof. intros H. unfold u64. apply Z.mod_small. exact H. Qed.

Lemma s64_small z : - two63 <= z < two63 -> s64 z = z.
Proof.
  intros H. unfold s64.
  rewrite Z.mod_small; [lia|].
  unfold two63, two64 in *. lia.
Qed.

Lemma s64_range z : is_loff_t (s64 z).
Proof.
  unfold is_loff_t, s64.
  assert (0 <= (z + two63) mod two64 < two64)
    by (apply Z.mod_pos_bound; unfold two64; lia).
  unfold two63, two64 in *. lia.
Qed.

Lemma s64_u64 z : s64 (u64 z) = s64 z.
Proof.
  unfold s64, u64. f_equal.
  rewrite Zplus_mod_idemp_l. reflexivity.
Qed.

Lemma u64_add_l a b : u64 (u64 a + b) = u64 (a + b).
Proof. unfold u64. apply Zplus_mod_idemp_l. Qed.

Lemma u64_add_r a b : u64 (a + u64 b) = u64 (a + b).
Proof. unfold u64. apply Zplus_mod_idemp_r. Qed.

Lemma s64_add_s64_r a b : s64 (a + s64 b) = s64 (a + b).
Proof.
  unfold s64.
  f_equal.
  replace (a + ((b + two63) mod two64 - two63) + two63)
    with (a + (b + two63) mod two64) by lia.
  rewrite Zplus_mod_idemp_r. f_equal. lia.
Qed.

(** A value that differs from [r] by a multiple of [2^64]. *)
Lemma u64_eq z k r : z = r + k * two64 -> 0 <= r < two64 -> u64 z = r.
Proof.
  intros -> Hr. unfold u64.
  rewrite Z.mod_add by (unfold two64; lia).
  apply Z.mod_small. exact Hr.
Qed.

Lemma s64_eq z k r : z = r + k * two64 -> is_loff_t r -> s64 z = r.
Proof.
  intros -> Hr. unfold s64, is_loff_t in *.
  replace (r + k * two64 + two63) with (r + two63 + k * two64) by lia.
  rewrite Z.mod_add by (unfold two64; lia).
  rewrite Z.mod_small; [lia|].
  unfold two63, two64 in *. lia.
Qed.
End WordFacts.

(** ** The identifier bitmap *)

Module BitmapFacts.
Lemma testbit_set_bit nr bits m :
  0 <= nr ->
  Z.testbit (set_bit nr bits) m = (nr =? m) || Z.testbit bits m.
Proof.
  intros Hnr. unfold set_bit.
  rewrite Z.shiftl_1_l, <- Z.setbit_spec'. apply Z.setbit_eqb. exact Hnr.
Qed.

Lemma testbit_clear_bit nr bits m :
  Z.testbit (clear_bit nr bits) m = Z.testbit bits m && negb (nr =? m).
Proof.
  unfold clear_bit.
  rewrite Z.shiftl_1_l, <- Z.ldiff_land, <- Z.clearbit_spec'.
  apply Z.clearbit_eqb.
Qed.

(** Clearing a bit never sets one. *)
Lemma testbit_clear_bit_mono nr bits m :
  Z.testbit (clear_bit nr bits) m = true -> Z.testbit bits m = true.
Proof.
  unfold clear_bit. rewrite Z.land_spec.
  intros H. apply andb_true_iff in H. tauto.
Qed.

Lemma testbit_clear_bit_same nr bits :
  Z.testbit (clear_bit nr bits) nr = false.
Proof.
  rewrite testbit_clear_bit, Z.eqb_refl. apply andb_false_r.
Qed.

Lemma clear_set_bit nr bits :
  0 <= nr -> Z.testbit bits nr = false ->
  clear_bit nr (set_bit nr bits) = bits.
Proof.
  intros Hnr Hclear. apply Z.bits_inj'. intros m _.
  rewrite testbit_clear_bit, testbit_set_bit by exact Hnr.
  destruct (Z.eqb_spec nr m) as [-> | _]; simpl.
  - symmetry. exact Hclear.
  - apply andb_true_r.
Qed.

Lemma ffz_from_range bits n : forall i,
  i <= ffz_from bits i n <= i + Z.of_nat n.
Proof.
  induction n as [| n IH]; intros i; simpl ffz_from.
  - lia.
  - destruct (Z.testbit bits i); [specialize (IH (i + 1))|]; lia.
Qed.

Lemma ffz_from_clear bits n : forall i,
  ffz_from bits i n < i + Z.of_nat n ->
  Z.testbit bits (ffz_from bits i n) = false.
Proof.
  induction n as [| n IH]; intros i; simpl ffz_from.
  - lia.
  - destruct (Z.testbit bits i) eqn:Hb; intros H.
    + apply IH. lia.
    + exact Hb.
Qed.

Lemma ffz_from_lowest bits n : forall i j,
  i <= j < ffz_from bits i n -> Z.testbit bits j = true.
Proof.
  induction n as [| n IH]; intros i j; simpl ffz_from.
  - lia.
  - destruct (Z.testbit bits i) eqn:Hb; intros H.
    + destruct (Z.eq_dec i j) as [<- | Hne]; [exact Hb|].
      apply (IH (i + 1)). lia.
    + lia.
Qed.

(** [find_first_zero_bit] returns the lowest clear position below
    [size], and [size] when there is none. *)
Lemma find_first_zero_bit_spec bits size :
  0 <= size ->
  let r := find_first_zero_bit bits size in
  0 <= r <= size /\
  (r < size -> Z.testbit bits r = false) /\
  (forall j, 0 <= j < r -> Z.testbit bits j = true).
Proof.
  intros Hsize r. subst r. unfold find_first_zero_bit.
  pose proof (ffz_from_range bits (Z.to_nat size) 0) as Hr.
  rewrite Z2Nat.id in Hr by exact Hsize.
  split; [lia|]. split.
  - intros H. apply ffz_from_clear. rewrite Z2Nat.id by exact Hsize. lia.
  - intros j Hj. apply (ffz_from_lowest bits (Z.to_nat size) 0). exact Hj.
Qed.

Lemma weight_from_le bits n : forall i, (weight_from bits i n <= n)%nat.
Proof.
  induction n as [| n IH]; intros i; simpl.
  - lia.
  - specialize (IH (i + 1)). destruct (Z.testbit bits i); lia.
Qed.

(** A full window has no clear position. *)
Lemma weight_from_full bits n : forall i,
  weight_from bits i n = n -> ffz_from bits i n = i + Z.of_nat n.
Proof.
  induction n as [| n IH]; intros i; simpl.
  - lia.
  - pose proof (weight_from_le bits n (i + 1)) as Hle.
    destruct (Z.testbit bits i); intros H.
    + rewrite IH by lia. lia.
    + lia.
Qed.

Lemma weight_from_set_outside bits n nr : forall i,
  0 <= nr -> nr < i \/ i + Z.of_nat n <= nr ->
  weight_from (set_bit nr bits) i n = weight_from bits i n.
Proof.
  induction n as [| n IH]; intros i Hnr Hout; simpl.
  - reflexivity.
  - rewrite testbit_set_bit by exact Hnr.
    destruct (Z.eqb_spec nr i) as [-> | _]; [lia|].
    simpl orb. rewrite IH by lia. reflexivity.
Qed.

(** Setting a clear position of the window adds one to its weight. *)
Lemma weight_from_set_inside bits n nr : forall i,
  0 <= nr -> i <= nr < i + Z.of_nat n ->
  Z.testbit bits nr = false ->
  weight_from (set_bit nr bits) i n = S (weight_from bits i n).
Proof.
  induction n as [| n IH]; intros i Hnr Hin Hclear; simpl.
  - lia.
  - rewrite testbit_set_bit by exact Hnr.
    destruct (Z.eqb_spec nr i) as [-> | Hne].
    + rewrite Hclear. simpl orb.
      rewrite weight_from_set_outside by lia. reflexivity.
    + simpl orb. rewrite (IH (i + 1) Hnr) by (exact Hclear || lia).
      destruct (Z.testbit bits i); lia.
Qed.

Lemma bitmap_weight_full bits :
  bitmap_weight bits VINPUT_MINORS = 32%nat ->
  find_first_zero_bit bits VINPUT_MINORS = VINPUT_MINORS.
Proof.
  unfold bitmap_weight, find_first_zero_bit.
  change (Z.to_nat VINPUT_MINORS) with 32%nat.
  intros H. rewrite weight_from_full by exact H. reflexivity.
Qed.

Lemma bitmap_weight_set_free bits :
  let i := find_first_zero_bit bits VINPUT_MINORS in
  i < VINPUT_MINORS ->
  bitmap_weight (set_bit i bits) VINPUT_MINORS
  = S (bitmap_weight bits VINPUT_MINORS).
Proof.
  intros i Hi.
  destruct (find_first_zero_bit_spec bits VINPUT_MINORS) as (Hr & Hc & _).
  { unfold VINPUT_MINORS. lia. }
  fold i in Hr, Hc.
  unfold bitmap_weight. apply weight_from_set_inside.
  - lia.
  - change (Z.of_nat (Z.to_nat VINPUT_MINORS)) with VINPUT_MINORS. lia.
  - apply Hc. exact Hi.
Qed.
End BitmapFacts.

(** ** C strings *)

Module CStringFacts.
Lemma byte_at_inj c c' r r' :
  byte_at (String c r) = byte_at (String c' r') -> c = c'.
Proof.
  simpl. intros H. apply Nat2Z.inj in H.
  rewrite <- (ascii_nat_embedding c), <- (ascii_nat_embedding c').
  rewrite H. reflexivity.
Qed.

(** With [n] the length of [ct], [strncmp cs ct n] is zero exactly
    when [cs] starts with the whole of [ct]. *)
Lemma strncmp_strlen_prefix ct : forall cs,
  no_nul ct = true ->
  (strncmp cs ct (strlen ct) =? 0) = String.prefix ct cs.
Proof.
  induction ct as [| c r IH]; intros cs Hnn.
  - destruct cs; reflexivity.
  - cbn [no_nul] in Hnn. apply andb_true_iff in Hnn.
    destruct Hnn as [Hc Hr]. apply negb_true_iff in Hc.
    cbn [strlen]. rewrite Hc. cbn [strncmp].
    destruct cs as [| c' cs'].
    + change (byte_at EmptyString) with 0.
      rewrite (Z.eqb_sym 0), Hc. cbn [String.prefix].
      apply Z.eqb_neq. apply Z.eqb_neq in Hc. lia.
    + cbn [String.prefix advance].
      destruct (ascii_dec c c') as [<- | Hne].
      * change (byte_at (String c cs')) with (byte_at (String c r)).
        rewrite Z.eqb_refl, Hc. apply IH. exact Hr.
      * destruct (Z.eqb_spec (byte_at (String c' cs')) (byte_at (String c r)))
          as [Heq | Hneq].
        -- apply byte_at_inj in Heq. congruence.
        -- apply Z.eqb_neq. lia.
Qed.
End CStringFacts.

(** ** The type registry *)

Section TypeRegistry.
Import CStringFacts.

Lemma scan_by_type_find type_ l :
  Forall (fun d => no_nul (name d) = true) l ->
  scan_by_type type_ l = find (fun d => String.prefix (name d) type_) l.
Proof.
  induction 1 as [| d l Hd _ IH]; simpl.
  - reflexivity.
  - rewrite strncmp_strlen_prefix by exact Hd.
    destruct (String.prefix (name d) type_); [reflexivity | exact IH].
Qed.

Lemma vinput_register_run d s :
  vinput_register d s = Done (0, set_devices (cons d) s).
Proof. reflexivity. Qed.
End TypeRegistry.




(** ** Read and write *)

Section IOFacts.
Import WordFacts.

Variable VINPUT_MAX_LEN : Z.

Lemma staged_length src count :
  0 <= count <= VINPUT_MAX_LEN ->
  count <= Z.of_nat (List.length src) ->
  List.length (staged VINPUT_MAX_LEN src count)
  = Z.to_nat (VINPUT_MAX_LEN + 1).
Proof.
  intros Hc Hsrc. unfold staged.
  rewrite length_app, repeat_length, length_firstn. lia.
Qed.

Lemma staged_payload src count :
  count <= Z.of_nat (List.length src) ->
  firstn (Z.to_nat count) (staged VINPUT_MAX_LEN src count)
  = firstn (Z.to_nat count) src.
Proof.
  intros Hsrc. unfold staged.
  rewrite firstn_app, firstn_firstn, Nat.min_id, length_firstn.
  replace (Z.to_nat count - Nat.min (Z.to_nat count) (List.length src))%nat
    with 0%nat by lia.
  simpl. apply app_nil_r.
Qed.

(** Where [*offset] lands in [loff_t] arithmetic, for any position. *)
Lemma vinput_read_offset_wraps f writable count offset r :
  vinput_read VINPUT_MAX_LEN f writable count offset = Done r ->
  rd_offset r = s64 (offset + rd_ret r).
Proof.
  unfold vinput_read.
  destruct (private_data f) as [v|]; [|discriminate].
  destruct (type v) as [t|]; [|discriminate].
  intros H. injection H as <-. cbn [rd_offset rd_ret].
  rewrite s64_add_s64_r. reflexivity.
Qed.
End IOFacts.

(** C8: a write longer than [VINPUT_MAX_LEN] returns [-EINVAL] and calls
    nothing outside, so the provider's [send] is not invoked; a write
    within the limit whose bytes can be read from the caller is staged
    in a buffer of [VINPUT_MAX_LEN + 1] bytes that starts with the
    payload, [send] is called once on it and its return value is the
    return value of the write.  (When the caller's bytes cannot be
    read, the write returns [-EFAULT] before [send].) *)
Theorem write_rejects_long_and_forwards_send :
  forall (VINPUT_MAX_LEN : Z) (f : file) (v : vinput) (t : vinput_device)
         (src : list byte) (count offset : Z),
    private_data f = Some v ->
    type v = Some t ->
    0 <= VINPUT_MAX_LEN < two64 ->
    is_size_t count ->
    (VINPUT_MAX_LEN < count ->
       vinput_write VINPUT_MAX_LEN f src count offset
       = Done {| wr_ret := - EINVAL; wr_log := [] |})
    /\ (count <= VINPUT_MAX_LEN ->
        count <= Z.of_nat (List.length src) ->
        let buff := staged VINPUT_MAX_LEN src count in
        vinput_write VINPUT_MAX_LEN f src count offset
        = Done {| wr_ret := send (ops t) (id v) buff count;
                  wr_log := [EvCopyFromUser count;
                             EvOpsSend (name t) (id v) buff count] |}
        /\ List.length buff = Z.to_nat (VINPUT_MAX_LEN + 1)
        /\ firstn (Z.to_nat count) buff = firstn (Z.to_nat count) src)
    /\ (count <= VINPUT_MAX_LEN ->
        Z.of_nat (List.length src) < count ->
        vinput_write VINPUT_MAX_LEN f src count offset
        = Done {| wr_ret := - EFAULT; wr_log := [EvCopyFromUser count] |}).
Proof.
  intros M f v t src count offset Hf Ht HM Hcount.
  unfold vinput_write. rewrite Hf.
  rewrite (WordFacts.u64_small M) by exact HM.
  unfold copy_from_user, is_size_t in *.
  split; [|split].
  - intros Hlong.
    destruct (Z.gtb_spec count M); [reflexivity | lia].
  - intros Hfit Hsrc.
    destruct (Z.gtb_spec count M); [lia|].
    destruct (Z.leb_spec count (Z.of_nat (List.length src))); [|lia].
    rewrite Z.eqb_refl. cbn [negb]. rewrite Ht.
    split; [reflexivity|]. split.
    + apply staged_length; lia.
    + apply staged_payload; lia.
  - intros Hfit Hsrc.
    destruct (Z.gtb_spec count M); [lia|].
    destruct (Z.leb_spec count (Z.of_nat (List.length src))); [lia|].
    destruct (Z.eqb_spec count 0); [lia|]. reflexivity.
Qed.

Lemma write_rejects_long_and_forwards_send_witness :
  vinput_write 8 Sample.a_file [x61; x62; x63; x64; x65; x66; x67; x68; x69] 9 0
  = Done {| wr_ret := - EINVAL; wr_log := [] |}
  /\ vinput_write 8 Sample.a_file [x61; x62; x63] 2 0
     = Done {| wr_ret := 2;
               wr_log := [EvCopyFromUser 2;
                          EvOpsSend "vkbd" 0
                            [x61; x62; x00; x00; x00; x00; x00; x00; x00] 2] |}.
Proof.
  assert (HM : 0 <= 8 < two64) by (unfold two64; lia).
  assert (H9 : is_size_t 9) by (unfold is_size_t, two64; lia).
  assert (H2 : is_size_t 2) by (unfold is_size_t, two64; lia).
  split.
  - apply (proj1 (write_rejects_long_and_forwards_send
                    8 Sample.a_file Sample.an_instance Sample.vkbd
                    [x61; x62; x63; x64; x65; x66; x67; x68; x69] 9 0
                    eq_refl eq_refl HM H9)).
    lia.
  - refine (proj1 (proj1 (proj2 (write_rejects_long_and_forwards_send
                    8 Sample.a_file Sample.an_instance Sample.vkbd
                    [x61; x62; x63] 2 0 eq_refl eq_refl HM H2)) _ _)).
    + lia.
    + simpl. lia.
Defined.

(** C10: [*offset] moves by the value [vinput_read] returns.  In
    [loff_t] arithmetic this holds for every position; for the positions
    a file can have (none is negative) it holds of the integers.  When
    [copy_to_user] fails the return value is [-EFAULT] and the position
    goes back by [EFAULT]. *)
Theorem read_moves_offset_by_return :
  forall (VINPUT_MAX_LEN : Z) (f : file) (v : vinput) (t : vinput_device)
         (writable count offset : Z),
    private_data f = Some v ->
    type v = Some t ->
    0 <= VINPUT_MAX_LEN < two63 ->
    is_size_t count ->
    is_loff_t offset ->
    is_int (read (ops t) (id v) count) ->
    exists r,
      vinput_read VINPUT_MAX_LEN f writable count offset = Done r
      /\ rd_offset r = s64 (offset + rd_ret r)
      /\ (0 <= offset -> rd_offset r = offset + rd_ret r)
      /\ (forall c,
            In (EvCopyToUser offset c) (rd_log r) ->
            copy_to_user writable c <> 0 ->
            rd_ret r = - EFAULT /\ rd_offset r = s64 (offset - EFAULT)).
Proof.
  intros M f v t writable count offset Hf Ht HM Hcount Hoff Hlen.
  eexists. split; [|split; [|split]].
  - unfold vinput_read. rewrite Hf, Ht. reflexivity.
  - cbn [rd_offset rd_ret]. rewrite WordFacts.s64_add_s64_r. reflexivity.
  - intros Hpos. cbn [rd_offset rd_ret].
    unfold is_size_t, is_loff_t, is_int in *.
    set (len := read (ops t) (id v) count) in *.
    rewrite (WordFacts.u64_small M) by (unfold two63, two64 in *; lia).
    destruct (Z.eqb_spec (copy_to_user writable
               (if offset >? len then 0
                else if u64 (count + offset) >? M then u64 (len - offset)
                     else count)) 0) as [_ | _].
    + destruct (Z.gtb_spec offset len) as [Hpast | Hin].
      * rewrite Z.add_0_r.
        rewrite !WordFacts.s64_small by (unfold two63 in *; lia). lia.
      * destruct (Z.gtb_spec (u64 (count + offset)) M) as [Hbig | Hfit].
        -- rewrite (WordFacts.u64_small (len - offset))
             by (unfold two63, two64 in *; lia).
           rewrite !WordFacts.s64_small by (unfold two63, two64 in *; lia).
           lia.
        -- destruct (Z_lt_le_dec (count + offset) two64) as [Hlow | Hwrap].
           ++ rewrite WordFacts.u64_small in Hfit by lia.
              rewrite !WordFacts.s64_small by (unfold two63, two64 in *; lia).
              lia.
           ++ rewrite (WordFacts.u64_eq _ 1 (count + offset - two64)) in Hfit
                by (unfold two63, two64 in *; lia).
              rewrite (WordFacts.s64_eq count 1 (count - two64))
                by (unfold is_loff_t, two63, two64 in *; lia).
              rewrite (WordFacts.s64_eq (offset + count) 1
                         (offset + count - two64))
                by (unfold is_loff_t, two63, two64 in *; lia).
              lia.
    + rewrite (WordFacts.u64_eq (- EFAULT) (-1) (two64 - EFAULT))
        by (unfold EFAULT, two64; lia).
      rewrite (WordFacts.s64_eq (two64 - EFAULT) 1 (- EFAULT))
        by (unfold is_loff_t, EFAULT, two63, two64; lia).
      rewrite (WordFacts.s64_eq (offset + (two64 - EFAULT)) 1
                 (offset - EFAULT))
        by (unfold is_loff_t, EFAULT, two63, two64 in *; lia).
      lia.
  - intros c Hin Hfault. cbn [rd_log rd_offset rd_ret] in *.
    destruct Hin as [Hin | [Hin | []]]; [discriminate Hin|].
    injection Hin as Hc. rewrite Hc.
    destruct (Z.eqb_spec (copy_to_user writable c) 0) as [Hz | _];
      [contradiction|].
    rewrite (WordFacts.u64_eq (- EFAULT) (-1) (two64 - EFAULT))
      by (unfold EFAULT, two64; lia).
    split.
    + apply (WordFacts.s64_eq _ 1).
      * lia.
      * unfold is_loff_t, EFAULT, two63, two64. lia.
    + rewrite <- (WordFacts.s64_u64 (offset - EFAULT)),
              <- (WordFacts.s64_u64 (offset + _)).
      f_equal. unfold u64.
      replace (offset + (two64 - EFAULT)) with (offset - EFAULT + 1 * two64)
        by lia.
      apply Z.mod_add. unfold two64. lia.
Qed.

Lemma read_moves_offset_by_return_witness :
  exists r,
    vinput_read 8 Sample.a_file 0 4 0 = Done r
    /\ rd_offset r = s64 (0 + rd_ret r)
    /\ (0 <= 0 -> rd_offset r = 0 + rd_ret r)
    /\ (forall c,
          In (EvCopyToUser 0 c) (rd_log r) ->
          copy_to_user 0 c <> 0 ->
          rd_ret r = - EFAULT /\ rd_offset r = s64 (0 - EFAULT)).
Proof.
  apply (read_moves_offset_by_return
           8 Sample.a_file Sample.an_instance Sample.vkbd 0 4 0
           eq_refl eq_refl).
  - unfold two63. lia.
  - unfold is_size_t, two64. lia.
  - unfold is_loff_t, two63. lia.
  - unfold is_int. simpl. lia.
Defined.

(** What the clamp of [vinput_read] does achieve: for a position that
    is not negative, a count below [2^63] and a provider that stays
    within [VINPUT_MAX_LEN], the range handed to [copy_to_user] ends at
    or before [VINPUT_MAX_LEN]. *)
Lemma read_window_within_max :
  forall (VINPUT_MAX_LEN : Z) (f : file) (v : vinput) (t : vinput_device)
         (writable count offset : Z) (r : read_result) (c : Z),
    private_data f = Some v ->
    type v = Some t ->
    0 <= VINPUT_MAX_LEN < two63 ->
    0 <= count < two63 ->
    0 <= offset < two63 ->
    read (ops t) (id v) count <= VINPUT_MAX_LEN ->
    vinput_read VINPUT_MAX_LEN f writable count offset = Done r ->
    In (EvCopyToUser offset c) (rd_log r) ->
    c = 0 \/ (0 <= c /\ offset + c <= VINPUT_MAX_LEN).
Proof.
  intros M f v t writable count offset r c Hf Ht HM Hcount Hoff Hlen Hrun Hin.
  unfold vinput_read in Hrun. rewrite Hf, Ht in Hrun.
  injection Hrun as <-. cbn [rd_log] in Hin.
  destruct Hin as [Hin | [Hin | []]]; [discriminate Hin|].
  injection Hin as <-.
  set (len := read (ops t) (id v) count) in *.
  rewrite (WordFacts.u64_small M) by (unfold two63, two64 in *; lia).
  rewrite (WordFacts.u64_small (count + offset))
    by (unfold two63, two64 in *; lia).
  destruct (Z.gtb_spec offset len); [left; reflexivity|].
  destruct (Z.gtb_spec (count + offset) M).
  - right. rewrite WordFacts.u64_small by (unfold two63, two64 in *; lia).
    lia.
  - right. lia.
Qed.

(** C3, evaluated: the provider produced no byte ([read] returned 0),
    the position is 0 (so it is not below the produced length) and one
    byte is asked for.  Whatever the value of [VINPUT_MAX_LEN] (at least
    1), [vinput_read] hands the range [0, 1) of its buffer to
    [copy_to_user] and returns 1, not 0. *)
Theorem read_at_produced_length_returns_bytes :
  forall VINPUT_MAX_LEN : Z,
    1 <= VINPUT_MAX_LEN < two64 ->
    read (ops Sample.vkbd) (id Sample.an_instance) 1 = 0
    /\ vinput_read VINPUT_MAX_LEN Sample.a_file 1 1 0
       = Done {| rd_ret := 1;
                 rd_offset := 1;
                 rd_log := [EvOpsRead "vkbd" 0 1; EvCopyToUser 0 1] |}.
Proof.
  intros M HM. split; [reflexivity|].
  unfold vinput_read. cbn [private_data Sample.a_file Sample.an_instance
    with_type with_id type id Sample.vkbd ops name read Sample.echo_ops
    zeroed_vinput].
  rewrite (WordFacts.u64_small M) by (unfold two64 in *; lia).
  change (u64 (1 + 0)) with 1.
  destruct (Z.gtb_spec 1 M); [lia|]. reflexivity.
Qed.

Lemma read_at_produced_length_returns_bytes_witness :
  1 <= 8 < two64
  /\ vinput_read 8 Sample.a_file 1 1 0
     = Done {| rd_ret := 1;
               rd_offset := 1;
               rd_log := [EvOpsRead "vkbd" 0 1; EvCopyToUser 0 1] |}.
Proof.
  assert (H : 1 <= 8 < two64) by (unfold two64; lia).
  split.
  - exact H.
  - exact (proj2 (read_at_produced_length_returns_bytes 8 H)).
Defined.

(** ** Runs of the lifecycle code *)

Section Runs.
Lemma bind_inv {A B} (m : K A) (k : A -> K B) s b s' :
  bind m k s = Done (b, s') ->
  exists a s1, m s = Done (a, s1) /\ k a s1 = Done (b, s').
Proof.
  unfold bind. destruct (m s) as [[a s1]|]; [|discriminate].
  intros H. exists a, s1. split; [reflexivity | exact H].
Qed.

Lemma ret_inv {A} (a b : A) s s' :
  ret a s = Done (b, s') -> b = a /\ s' = s.
Proof. unfold ret. intros H. injection H as <- <-. split; reflexivity. Qed.

Lemma frame_refl s : frame s s.
Proof. split; reflexivity. Qed.

Lemma frame_trans s1 s2 s3 : frame s1 s2 -> frame s2 s3 -> frame s1 s3.
Proof. unfold frame. intros [-> ->] [-> ->]. split; reflexivity. Qed.

Lemma log_run e s a s' : log e s = Done (a, s') -> frame s s'.
Proof.
  unfold log, modify. intros H. injection H as _ <-. split; reflexivity.
Qed.

Lemma store_frame v s a s' : store v s = Done (a, s') -> frame s s'.
Proof.
  unfold store. destruct (live v s); [|discriminate].
  intros H. injection H as _ <-. split; reflexivity.
Qed.

Lemma vinput_register_vdevice_frame v s err v' s' :
  vinput_register_vdevice v s = Done ((err, v'), s') -> frame s s'.
Proof.
  unfold vinput_register_vdevice.
  destruct (input v); [|discriminate]. destruct (type v); [|discriminate].
  intros H.
  apply bind_inv in H. destruct H as (? & s1 & Hstore & H).
  apply bind_inv in H. destruct H as (? & s2 & Hlog & H).
  apply ret_inv in H. destruct H as [_ ->].
  apply store_frame in Hstore. apply log_run in Hlog.
  eapply frame_trans; eassumption.
Qed.

Lemma device_register_frame x v s err s' :
  device_register x v s = Done (err, s') -> frame s s'.
Proof.
  unfold device_register. intros H.
  apply bind_inv in H. destruct H as (? & s1 & Hlog & H).
  apply ret_inv in H. destruct H as [_ ->]. eapply log_run, Hlog.
Qed.

Lemma input_register_device_frame x v s err s' :
  input_register_device x v s = Done (err, s') -> frame s s'.
Proof.
  unfold input_register_device. intros H.
  apply bind_inv in H. destruct H as (? & s1 & Hlog & H).
  apply ret_inv in H. destruct H as [_ ->]. eapply log_run, Hlog.
Qed.

(** The value a run returns when its last command is [ret err]. *)
Lemma then_ret_inv {A} (m : K A) (err : Z) s r s' :
  (m ;;; ret err) s = Done (r, s') -> r = err.
Proof.
  intros H. apply bind_inv in H. destruct H as (? & ? & _ & H).
  apply ret_inv in H. tauto.
Qed.

(** What [vinput_alloc_vdevice] returns and leaves behind. *)
Lemma vinput_alloc_vdevice_run x s r s' :
  vinput_alloc_vdevice x s = Done (r, s') ->
  let i := find_first_zero_bit (vinput_ids s) VINPUT_MINORS in
  vinput_devices s' = vinput_devices s /\
  match r with
  | inl err => err < 0
  | inr v =>
      id v = i /\ i < VINPUT_MINORS /\
      dev_release (dev v) = true /\ type v = None /\ input v <> None /\
      vinput_ids s' = set_bit i (vinput_ids s) /\
      vinput_vdevices s'
      = v :: map (fun x => if id x =? i then v else x) (vinput_vdevices s)
  end.
Proof.
  unfold vinput_alloc_vdevice. kunfold. cbn.
  destruct (x_kzalloc_ok x); cbn; [|discriminate].
  destruct (Z.geb_spec (find_first_zero_bit (vinput_ids s) VINPUT_MINORS)
                       VINPUT_MINORS) as [Hfull | Hfree].
  - intros H. injection H as <- <-. cbn.
    split; [reflexivity|]. unfold ENOBUFS. lia.
  - destruct (x_input_allocate_ok x); cbn.
    + unfold store, live. cbn. rewrite Z.eqb_refl. cbn.
      intros H. injection H as <- <-. cbn. rewrite Z.eqb_refl.
      repeat split; try reflexivity; try lia. discriminate.
    + intros H. injection H as <- <-. cbn.
      split; [reflexivity|]. unfold ENOMEM. lia.
Qed.

(** A full bitmap: [fail_id]. *)
Lemma vinput_alloc_vdevice_exhausted x s :
  x_kzalloc_ok x = true ->
  find_first_zero_bit (vinput_ids s) VINPUT_MINORS = VINPUT_MINORS ->
  exists s',
    vinput_alloc_vdevice x s = Done (ERR_PTR (- ENOBUFS), s')
    /\ registries s' = registries s.
Proof.
  intros Hk Hfull. unfold vinput_alloc_vdevice. kunfold. cbn.
  rewrite Hk. cbn. rewrite Hfull. cbn. eexists. split; reflexivity.
Qed.

(** A failed lookup returns a negative error. *)
Lemma vinput_get_device_by_type_err buf s err :
  vinput_get_device_by_type buf s = inl err -> err = - ENODEV.
Proof.
  unfold vinput_get_device_by_type.
  destruct (scan_by_type buf (vinput_devices s)); [discriminate|].
  intros H. injection H as <-. reflexivity.
Qed.

(** An [export_store] that returns a count has taken the lowest clear
    bit and has left the providers alone. *)
Lemma export_store_success x buf len s r s' :
  export_store x buf len s = Done (r, s') ->
  0 <= r ->
  let i := find_first_zero_bit (vinput_ids s) VINPUT_MINORS in
  r = len /\ i < VINPUT_MINORS /\
  vinput_ids s' = set_bit i (vinput_ids s) /\
  vinput_devices s' = vinput_devices s.
Proof.
  unfold export_store. intros Hrun Hr.
  apply bind_inv in Hrun. destruct Hrun as (s0 & s1 & Hget & Hrun).
  injection Hget as <- <-.
  destruct (vinput_get_device_by_type buf s) as [e | d] eqn:Hlook.
  { apply vinput_get_device_by_type_err in Hlook.
    apply ret_inv in Hrun. unfold ENODEV in *. lia. }
  apply bind_inv in Hrun. destruct Hrun as (a & s1 & Halloc & Hrun).
  apply vinput_alloc_vdevice_run in Halloc. destruct Halloc as (Hdevs & Ha).
  destruct a as [e | v].
  { apply ret_inv in Hrun. lia. }
  destruct Ha as (Hid & Hfree & _ & _ & _ & Hids & _).
  apply bind_inv in Hrun. destruct Hrun as (? & s2 & Hst & Hrun).
  apply store_frame in Hst.
  apply bind_inv in Hrun. destruct Hrun as ([err v'] & s3 & Hreg & Hrun).
  apply vinput_register_vdevice_frame in Hreg.
  destruct (Z.ltb_spec err 0) as [Herr | _].
  { apply then_ret_inv in Hrun. lia. }
  apply bind_inv in Hrun. destruct Hrun as (err1 & s4 & Hdr & Hrun).
  apply device_register_frame in Hdr.
  destruct (Z.ltb_spec err1 0) as [Herr1 | _].
  { apply bind_inv in Hrun. destruct Hrun as (? & ? & _ & Hrun).
    apply then_ret_inv in Hrun. lia. }
  apply bind_inv in Hrun. destruct Hrun as (err2 & s5 & Hir & Hrun).
  apply input_register_device_frame in Hir.
  destruct (Z.ltb_spec err2 0) as [Herr2 | _].
  { apply bind_inv in Hrun. destruct Hrun as (? & ? & _ & Hrun).
    apply bind_inv in Hrun. destruct Hrun as (? & ? & _ & Hrun).
    apply then_ret_inv in Hrun. lia. }
  apply ret_inv in Hrun. destruct Hrun as [-> ->].
  pose proof (frame_trans _ _ _ Hst
               (frame_trans _ _ _ Hreg (frame_trans _ _ _ Hdr Hir)))
    as [Hf1 Hf2].
  repeat split; try assumption.
  - rewrite Hf1. exact Hids.
  - rewrite Hf2. exact Hdevs.
Qed.

(** With a full bitmap [export_store] fails and changes no registry. *)
Lemma export_store_exhausted x buf len s :
  x_kzalloc_ok x = true ->
  find_first_zero_bit (vinput_ids s) VINPUT_MINORS = VINPUT_MINORS ->
  exists s',
    export_store x buf len s
    = Done (match vinput_get_device_by_type buf s with
            | inr _ => - ENOBUFS
            | inl err => err
            end, s')
    /\ registries s' = registries s.
Proof.
  intros Hk Hfull. unfold export_store, bind at 1, get.
  destruct (vinput_get_device_by_type buf s) as [e | d].
  - exists s. split; reflexivity.
  - destruct (vinput_alloc_vdevice_exhausted x s Hk Hfull) as (s' & Hrun & Hreg).
    exists s'. unfold bind. rewrite Hrun. split; [reflexivity | exact Hreg].
Qed.

(** Each successful create adds one to the weight of the bitmap. *)
Lemma creates_weight reqs : forall s s',
  creates reqs s = Some s' ->
  bitmap_weight (vinput_ids s') VINPUT_MINORS
  = (bitmap_weight (vinput_ids s) VINPUT_MINORS + List.length reqs)%nat.
Proof.
  induction reqs as [| [[x buf] len] reqs IH]; intros s s'; simpl.
  - intros H. injection H as <-. lia.
  - destruct (export_store x buf len s) as [[r s1]|] eqn:Hrun; [|discriminate].
    destruct (Z.leb_spec 0 r) as [Hr | _]; [|discriminate].
    intros Hrest. apply IH in Hrest.
    apply export_store_success in Hrun; [|exact Hr].
    destruct Hrun as (_ & Hfree & Hids & _).
    rewrite Hrest, Hids, BitmapFacts.bitmap_weight_set_free by exact Hfree.
    lia.
Qed.
End Runs.

(** C7: after 32 creates that all succeeded, with no destroy between
    them, the next create (whose memory allocation succeeds) fails: with
    [-ENOBUFS] when the type name resolves to a provider (and with the
    lookup's own [-ENODEV] when it does not), and the bitmap, the
    instance list and the provider list are what they were. *)
Theorem create_beyond_capacity_fails_unchanged :
  forall (reqs : list (extern * string * Z)) (s0 s : kstate)
         (x : extern) (buf : string) (len : Z),
    List.length reqs = 32%nat ->
    creates reqs s0 = Some s ->
    x_kzalloc_ok x = true ->
    exists s',
      export_store x buf len s
      = Done (match vinput_get_device_by_type buf s with
              | inr _ => - ENOBUFS
              | inl err => err
              end, s')
      /\ registries s' = registries s.
Proof.
  intros reqs s0 s x buf len Hlen Hruns Hk.
  apply export_store_exhausted; [exact Hk|].
  apply BitmapFacts.bitmap_weight_full.
  apply creates_weight in Hruns. rewrite Hlen in Hruns.
  pose proof (BitmapFacts.weight_from_le (vinput_ids s) 32 0) as Hle.
  unfold bitmap_weight in *.
  change (Z.to_nat VINPUT_MINORS) with 32%nat in *. lia.
Qed.

Lemma create_beyond_capacity_fails_unchanged_witness :
  List.length Sample.full_requests = 32%nat
  /\ creates Sample.full_requests Sample.with_vkbd = Some Sample.full
  /\ x_kzalloc_ok Sample.all_ok = true
  /\ exists s',
       export_store Sample.all_ok "vkbd" 5 Sample.full
       = Done (match vinput_get_device_by_type "vkbd" Sample.full with
               | inr _ => - ENOBUFS
               | inl err => err
               end, s')
       /\ registries s' = registries Sample.full.
Proof.
  assert (Hlen : List.length Sample.full_requests = 32%nat) by reflexivity.
  assert (Hruns : creates Sample.full_requests Sample.with_vkbd
                  = Some Sample.full) by (vm_compute; reflexivity).
  split; [exact Hlen|]. split; [exact Hruns|]. split; [reflexivity|].
  exact (create_beyond_capacity_fails_unchanged
           Sample.full_requests Sample.with_vkbd Sample.full
           Sample.all_ok "vkbd" 5 Hlen Hruns eq_refl).
Defined.

(** ** Teardown *)

Section Teardown.
Lemma live_In v s : In v (vinput_vdevices s) -> live v s = true.
Proof.
  intros Hin. unfold live. apply existsb_exists.
  exists v. split; [exact Hin | apply Z.eqb_refl].
Qed.

(** [list_del] takes out the entry itself when no earlier entry has
    its id. *)
Lemma list_del_middle v kept rest :
  ~ In (id v) (map id kept) ->
  list_del v (kept ++ v :: rest) = kept ++ rest.
Proof.
  induction kept as [| k kept IH]; simpl; intros Hnot.
  - rewrite Z.eqb_refl. reflexivity.
  - destruct (Z.eqb_spec (id k) (id v)) as [Heq | _].
    + exfalso. apply Hnot. left. exact Heq.
    + rewrite IH; [reflexivity | tauto].
Qed.

Lemma vinput_destroy_vdevice_run v s :
  live v s = true ->
  vinput_destroy_vdevice v s
  = Done (tt, {| vinput_ids := clear_bit (id v) (vinput_ids s);
                 vinput_devices := vinput_devices s;
                 vinput_vdevices := list_del v (vinput_vdevices s);
                 vinput_dev := vinput_dev s;
                 klog := klog s ++ [EvModulePut; EvKfree (id v)] |}).
Proof.
  intros Hlive. unfold vinput_destroy_vdevice. rewrite Hlive.
  kunfold. cbn. rewrite <- app_assoc. reflexivity.
Qed.

Lemma device_unregister_run x v s :
  live v s = true ->
  device_unregister x v s
  = Done (tt,
          if released x v
          then {| vinput_ids := clear_bit (id v) (vinput_ids s);
                  vinput_devices := vinput_devices s;
                  vinput_vdevices := list_del v (vinput_vdevices s);
                  vinput_dev := vinput_dev s;
                  klog := klog s ++ [EvDeviceUnregister (id v);
                                     EvModulePut; EvKfree (id v)] |}
          else {| vinput_ids := vinput_ids s;
                  vinput_devices := vinput_devices s;
                  vinput_vdevices := vinput_vdevices s;
                  vinput_dev := vinput_dev s;
                  klog := klog s ++ [EvDeviceUnregister (id v)] |}).
Proof.
  intros Hlive. unfold device_unregister. rewrite Hlive.
  unfold bind at 1, log, modify. fold (released x v).
  destruct (released x v).
  - unfold vinput_release_dev.
    rewrite vinput_destroy_vdevice_run by exact Hlive.
    cbn. rewrite <- app_assoc. reflexivity.
  - reflexivity.
Qed.

(** The loop of [vinput_unregister], started on a list whose entries
    [kept] have been visited and stayed, and whose entries [l] are
    still to be visited. *)
Lemma unregister_each_run x l : forall kept s,
  vinput_vdevices s = kept ++ l ->
  NoDup (map id (kept ++ l)) ->
  exists s',
    unregister_each x l s = Done (tt, s')
    /\ vinput_vdevices s'
       = kept ++ filter (fun v => negb (released x v)) l
    /\ vinput_ids s' = clear_released x l (vinput_ids s)
    /\ vinput_devices s' = vinput_devices s
    /\ klog s' = klog s ++ teardown_log x l.
Proof.
  induction l as [| v l IH]; intros kept s Hlist Hnodup.
  - exists s. cbn. rewrite app_nil_r in Hlist.
    repeat split; rewrite ?app_nil_r; auto.
  - cbn [unregister_each]. unfold bind.
    rewrite device_unregister_run
      by (apply live_In; rewrite Hlist; apply in_elt).
    cbn [teardown_log flat_map filter clear_released fold_left].
    destruct (released x v) eqn:Hrel; cbn [negb].
    + edestruct (IH kept) as (s' & Hrun & Hvd & Hids & Hdevs & Hlog);
        [| | exists s'; rewrite Hrun; repeat split; try eassumption].
      * cbn. rewrite Hlist. apply list_del_middle.
        rewrite map_app in Hnodup. cbn in Hnodup.
        apply NoDup_remove_2 in Hnodup.
        intros Hin. apply Hnodup. apply in_or_app. left. exact Hin.
      * rewrite map_app in *. cbn in Hnodup.
        apply NoDup_remove_1 in Hnodup. exact Hnodup.
      * rewrite Hlog. cbn. rewrite <- app_assoc. reflexivity.
    + edestruct (IH (kept ++ [v])) as (s' & Hrun & Hvd & Hids & Hdevs & Hlog);
        [| | exists s'; rewrite Hrun; repeat split; try eassumption].
      * cbn. rewrite Hlist, <- app_assoc. reflexivity.
      * rewrite <- app_assoc. exact Hnodup.
      * rewrite Hvd, <- app_assoc. reflexivity.
      * rewrite Hlog. cbn. rewrite <- app_assoc. reflexivity.
Qed.

(** When the driver core releases no node during the loop, the loop
    changes nothing but the log. *)
Lemma filter_all {A} (f : A -> bool) l :
  (forall a, In a l -> f a = true) -> filter f l = l.
Proof.
  induction l as [| a l IH]; cbn; intros H.
  - reflexivity.
  - rewrite (H a) by (left; reflexivity). f_equal. apply IH.
    intros b Hb. apply H. right. exact Hb.
Qed.

Lemma clear_released_none x l : forall bits,
  (forall v, In v l -> released x v = false) ->
  clear_released x l bits = bits.
Proof.
  induction l as [| v l IH]; intros bits H; [reflexivity|].
  unfold clear_released. cbn [fold_left].
  rewrite (H v) by (left; reflexivity).
  apply IH. intros w Hw. apply H. right. exact Hw.
Qed.

Lemma teardown_log_none x l :
  (forall v, In v l -> released x v = false) ->
  teardown_log x l = map (fun v => EvDeviceUnregister (id v)) l.
Proof.
  induction l as [| v l IH]; intros H; [reflexivity|].
  unfold teardown_log. cbn [flat_map map].
  rewrite (H v) by (left; reflexivity). cbn [app]. f_equal.
  apply IH. intros w Hw. apply H. right. exact Hw.
Qed.

(** [vinput_unregister] of a provider that is on the list is the
    [list_del] followed by the loop. *)
Lemma vinput_unregister_linked x d s :
  linked d s = true ->
  vinput_unregister x d s
  = unregister_each x (vinput_vdevices s) (set_devices (list_del_device d) s).
Proof.
  intros Hl. unfold vinput_unregister. unfold bind at 1, get.
  rewrite Hl. reflexivity.
Qed.

(** [list_del] of a node that is not on the list faults. *)
Lemma vinput_unregister_unlinked x d s :
  linked d s = false -> vinput_unregister x d s = Fault.
Proof.
  intros Hl. unfold vinput_unregister. unfold bind at 1, get.
  rewrite Hl. reflexivity.
Qed.

(** Two entries of a list without repeated keys that have the same key
    are the same entry. *)
Lemma same_key_same_entry {A B} (f : A -> B) l : forall a b,
  NoDup (map f l) -> In a l -> In b l -> f a = f b -> a = b.
Proof.
  induction l as [| c l IH]; intros a b Hnd Ha Hb Heq; [destruct Ha|].
  cbn in Hnd. apply NoDup_cons_iff in Hnd. destruct Hnd as [Hnot Hnd].
  destruct Ha as [-> | Ha], Hb as [-> | Hb].
  - reflexivity.
  - exfalso. apply Hnot. rewrite Heq. apply in_map. exact Hb.
  - exfalso. apply Hnot. rewrite <- Heq. apply in_map. exact Ha.
  - apply IH; assumption.
Qed.

(** After [list_del] no entry of the list has the id of the entry that
    went. *)
Lemma list_del_not_live v l :
  NoDup (map id l) -> In v l ->
  existsb (fun w => id w =? id v) (list_del v l) = false.
Proof.
  induction l as [| c l IH]; intros Hnd Hin; [destruct Hin|].
  cbn in Hnd. apply NoDup_cons_iff in Hnd. destruct Hnd as [Hnot Hnd].
  cbn [list_del]. destruct (Z.eqb_spec (id c) (id v)) as [Heq | Hne].
  - destruct (existsb (fun w => id w =? id v) l) eqn:Hex; [|reflexivity].
    exfalso. apply existsb_exists in Hex. destruct Hex as (w & Hw & Hid).
    apply Z.eqb_eq in Hid. apply Hnot. rewrite Heq, <- Hid.
    apply in_map. exact Hw.
  - cbn [existsb]. apply Z.eqb_neq in Hne as Hb. rewrite Hb. cbn [orb].
    destruct Hin as [-> | Hin]; [contradiction|].
    apply IH; assumption.
Qed.
End Teardown.

(** ** Lookup by id *)

Section LookupById.
(** The loop leaves the first entry with the id, when there is one. *)
Lemma scan_by_id_found i l : forall cur v,
  In v l -> id v = i ->
  exists w, scan_by_id i l cur = Some w /\ In w l /\ id w = i.
Proof.
  induction l as [| x l IH]; intros cur v Hin Hid; [destruct Hin|].
  cbn [scan_by_id]. destruct (Z.eqb_spec (id x) i) as [Heq | Hne].
  - exists x. repeat split; [left; reflexivity | exact Heq].
  - destruct Hin as [-> | Hin]; [contradiction|].
    destruct (IH (Some x) v Hin Hid) as (w & Hw & Hwin & Hwid).
    exists w. repeat split; [exact Hw | right; exact Hwin | exact Hwid].
Qed.

(** Otherwise it leaves the last entry visited. *)
Lemma scan_by_id_missing i l : forall cur,
  (forall v, In v l -> id v <> i) ->
  scan_by_id i l cur = match l with
                       | [] => cur
                       | _ :: _ => Some (last l zeroed_vinput)
                       end.
Proof.
  induction l as [| x l IH]; intros cur Hno; [reflexivity|].
  cbn [scan_by_id]. destruct (Z.eqb_spec (id x) i) as [Heq | _].
  - exfalso. apply (Hno x); [left; reflexivity | exact Heq].
  - rewrite IH by (intros v Hv; apply Hno; right; exact Hv).
    destruct l; reflexivity.
Qed.

(** On a registry that is not empty the lookup is right. *)
Lemma vinput_get_vdevice_by_id_nonempty i s :
  vinput_vdevices s <> [] ->
  (exists v, In v (vinput_vdevices s) /\ id v = i
             /\ vinput_get_vdevice_by_id i s = Done (inr v, s))
  \/ ((forall v, In v (vinput_vdevices s) -> id v <> i)
      /\ vinput_get_vdevice_by_id i s = Done (ERR_PTR (- ENODEV), s)).
Proof.
  intros Hne. unfold vinput_get_vdevice_by_id.
  destruct (existsb (fun v => id v =? i) (vinput_vdevices s)) eqn:Hex.
  - left. apply existsb_exists in Hex. destruct Hex as (v & Hin & Hid).
    apply Z.eqb_eq in Hid.
    destruct (scan_by_id_found i _ None v Hin Hid) as (w & Hw & Hwin & Hwid).
    exists w. rewrite Hw. apply Z.eqb_eq in Hwid as Hb. rewrite Hb.
    repeat split; assumption.
  - right.
    assert (Hno : forall v, In v (vinput_vdevices s) -> id v <> i).
    { intros v Hin Hid.
      assert (existsb (fun v => id v =? i) (vinput_vdevices s) = true).
      { apply existsb_exists. exists v. split; [exact Hin|].
        apply Z.eqb_eq. exact Hid. }
      congruence. }
    split; [exact Hno|].
    rewrite scan_by_id_missing by exact Hno.
    destruct (vinput_vdevices s) as [| x l] eqn:Hl; [contradiction|].
    assert (Hlast : In (last (x :: l) zeroed_vinput) (x :: l)).
    { destruct (exists_last (l := x :: l)) as (l' & a & Heq);
        [discriminate|].
      rewrite Heq, last_last. apply in_or_app. right. left. reflexivity. }
    apply Hno in Hlast. apply Z.eqb_neq in Hlast. rewrite Hlast.
    reflexivity.
Qed.
End LookupById.

(** ** Unregistering a provider while instances are live *)

Section UnregisterLive.
(** The lookup finds an instance that is on a list without repeated ids. *)
Lemma vinput_get_vdevice_by_id_In v s :
  NoDup (map id (vinput_vdevices s)) -> In v (vinput_vdevices s) ->
  vinput_get_vdevice_by_id (id v) s = Done (inr v, s).
Proof.
  intros Hnd Hin.
  destruct (vinput_get_vdevice_by_id_nonempty (id v) s)
    as [(w & Hw & Hid & Hrun) | (Hno & _)].
  - intros Hnil. rewrite Hnil in Hin. destruct Hin.
  - rewrite (same_key_same_entry id _ w v Hnd Hw Hin Hid) in Hrun.
    exact Hrun.
  - exfalso. exact (Hno v Hin eq_refl).
Qed.

(** [unexport_store] calls [device_unregister] and then goes on using
    the instance, so it returns only when the driver core does not
    release the node of the instance on that call. *)
Lemma unexport_store_returns_late_release x v len s r s1 :
  NoDup (map id (vinput_vdevices s)) -> In v (vinput_vdevices s) ->
  unexport_store x (Some (id v)) len s = Done (r, s1) ->
  released x v = false.
Proof.
  intros Hnd Hin Hrun.
  destruct (released x v) eqn:Hrel; [|reflexivity].
  exfalso. revert Hrun.
  unfold unexport_store. unfold bind at 1.
  rewrite (vinput_get_vdevice_by_id_In v s Hnd Hin).
  unfold bind at 1.
  rewrite (device_unregister_run x v s (live_In v s Hin)), Hrel.
  unfold bind at 1, vinput_unregister_vdevice, live.
  cbn [vinput_vdevices].
  rewrite (list_del_not_live v _ Hnd Hin). discriminate.
Qed.
End UnregisterLive.

(** C6, evaluated: [vinput_unregister] takes the provider out of its
    list and calls [device_unregister] on every instance in
    [vinput_vdevices], whatever provider the instance is bound to, and
    that is all it does: unlike [unexport_store] it never calls
    [input_unregister_device].  Under a driver core with which every
    live instance can be destroyed through [unexport_store] (the call
    returns), the [release] hook therefore does not run for any of
    them: after [vinput_unregister] every instance is still on
    [vinput_vdevices] and every id bit is still set. *)
Theorem unregister_leaves_instances_listed :
  forall (x : extern) (d : vinput_device) (s : kstate),
    NoDup (map id (vinput_vdevices s)) ->
    linked d s = true ->
    (forall v, In v (vinput_vdevices s) ->
       exists len r s1, unexport_store x (Some (id v)) len s = Done (r, s1)) ->
    exists s',
      vinput_unregister x d s = Done (tt, s')
      /\ vinput_devices s' = list_del_device d (vinput_devices s)
      /\ klog s'
         = klog s ++ map (fun v => EvDeviceUnregister (id v))
                         (vinput_vdevices s)
      /\ vinput_vdevices s' = vinput_vdevices s
      /\ vinput_ids s' = vinput_ids s.
Proof.
  intros x d s Hnodup Hlinked Hsibling.
  assert (Hlate : forall v, In v (vinput_vdevices s) -> released x v = false).
  { intros v Hin. destruct (Hsibling v Hin) as (len & r & s1 & Hrun).
    exact (unexport_store_returns_late_release x v len s r s1 Hnodup Hin Hrun). }
  rewrite (vinput_unregister_linked x d s Hlinked).
  destruct (unregister_each_run x (vinput_vdevices s) []
              (set_devices (list_del_device d) s) eq_refl Hnodup)
    as (s' & Hrun & Hvd & Hids & Hdevs & Hlog).
  exists s'. cbn in Hvd, Hids, Hdevs, Hlog.
  split; [exact Hrun|]. split; [exact Hdevs|].
  split; [|split].
  - rewrite Hlog, (teardown_log_none x _ Hlate). reflexivity.
  - rewrite Hvd. apply filter_all.
    intros v Hin. rewrite (Hlate v Hin). reflexivity.
  - rewrite Hids. apply clear_released_none. exact Hlate.
Qed.

Lemma unregister_leaves_instances_listed_witness :
  map (fun v => (id v, option_map name (type v)))
      (vinput_vdevices Sample.three_live)
  = [(2, Some "vkbd"); (1, Some "vts"); (0, Some "vkbd")]%string
  /\ vinput_ids Sample.three_live = 7
  /\ exists s',
       vinput_unregister Sample.all_ok Sample.vts Sample.three_live
       = Done (tt, s')
       /\ map name (vinput_devices s') = ["vkbd"%string]
       /\ map id (vinput_vdevices s') = [2; 1; 0]
       /\ vinput_ids s' = 7
       /\ klog s' = klog Sample.three_live
                    ++ [EvDeviceUnregister 2; EvDeviceUnregister 1;
                        EvDeviceUnregister 0].
Proof.
  split; [reflexivity|]. split; [reflexivity|].
  assert (Hnodup : NoDup (map id (vinput_vdevices Sample.three_live))).
  { vm_compute. repeat constructor; simpl; intuition discriminate. }
  assert (Hsibling : forall v, In v (vinput_vdevices Sample.three_live) ->
            exists len r s1,
              unexport_store Sample.all_ok (Some (id v)) len Sample.three_live
              = Done (r, s1)).
  { intros v Hin. vm_compute in Hin.
    destruct Hin as [<- | [<- | [<- | []]]];
      exists 2; eexists; eexists; vm_compute; reflexivity. }
  destruct (unregister_leaves_instances_listed
              Sample.all_ok Sample.vts Sample.three_live
              Hnodup eq_refl Hsibling)
    as (s' & Hrun & Hdevs & Hlog & Hvd & Hids).
  exists s'. split; [exact Hrun|].
  split; [rewrite Hdevs; reflexivity|].
  split; [rewrite Hvd; reflexivity|].
  split; [rewrite Hids; reflexivity|].
  rewrite Hlog. reflexivity.
Defined.

(** C4, evaluated: on an empty instance list the loop of
    [vinput_get_vdevice_by_id] leaves [vinput] NULL and the test after
    it reads [vinput->id]: the lookup faults, it does not return
    [-ENODEV]; [vinput_open] faults with it. *)
Theorem lookup_in_empty_registry_faults :
  forall (i : Z) (f : file) (s : kstate),
    vinput_vdevices s = [] ->
    vinput_get_vdevice_by_id i s = Fault
    /\ vinput_open i f s = Fault.
Proof.
  intros i f s Hempty.
  assert (H : vinput_get_vdevice_by_id i s = Fault).
  { unfold vinput_get_vdevice_by_id. rewrite Hempty. reflexivity. }
  split; [exact H|].
  unfold vinput_open, bind. rewrite H. reflexivity.
Qed.

Lemma lookup_in_empty_registry_faults_witness :
  vinput_vdevices Sample.with_vkbd = []
  /\ vinput_get_vdevice_by_id 0 Sample.with_vkbd = Fault
  /\ vinput_open 0 {| private_data := None |} Sample.with_vkbd = Fault.
Proof.
  split; [reflexivity|].
  exact (lookup_in_empty_registry_faults
           0 {| private_data := None |} Sample.with_vkbd eq_refl).
Defined.

(** ** Creation that fails half-way *)

Section Unwinding.
(** [fail_input_dev] takes the instance off the list and leaves its
    bit set, whatever the state. *)
Lemma export_store_input_failure x buf len s d :
  vinput_get_device_by_type buf s = inr d ->
  x_kzalloc_ok x = true ->
  x_input_allocate_ok x = false ->
  let i := find_first_zero_bit (vinput_ids s) VINPUT_MINORS in
  i < VINPUT_MINORS ->
  exists s',
    export_store x buf len s = Done (- ENOMEM, s')
    /\ vinput_vdevices s' = vinput_vdevices s
    /\ vinput_devices s' = vinput_devices s
    /\ vinput_ids s' = set_bit i (vinput_ids s)
    /\ Z.testbit (vinput_ids s) i = false
    /\ Z.testbit (vinput_ids s') i = true.
Proof.
  intros Hlook Hk Hin i Hfree.
  destruct (BitmapFacts.find_first_zero_bit_spec (vinput_ids s) VINPUT_MINORS)
    as (Hrange & Hclear & _); [unfold VINPUT_MINORS; lia|].
  fold i in Hrange, Hclear.
  unfold export_store, bind at 1, get. rewrite Hlook.
  unfold bind at 1, vinput_alloc_vdevice. kunfold. cbn.
  rewrite Hk. cbn. fold i.
  destruct (Z.geb_spec i VINPUT_MINORS) as [Hfull | _]; [lia|].
  rewrite Hin. cbn. rewrite Z.eqb_refl.
  eexists. split; [reflexivity|]. cbn.
  repeat split; try reflexivity.
  - apply Hclear. exact Hfree.
  - rewrite BitmapFacts.testbit_set_bit by lia.
    rewrite Z.eqb_refl. reflexivity.
Qed.

(** The sibling path: when the provider's [init] fails,
    [vinput_destroy_vdevice] undoes both the list entry and the bit. *)
Lemma export_store_init_failure x buf len s d :
  vinput_get_device_by_type buf s = inr d ->
  x_kzalloc_ok x = true ->
  x_input_allocate_ok x = true ->
  let i := find_first_zero_bit (vinput_ids s) VINPUT_MINORS in
  i < VINPUT_MINORS ->
  (forall v, In v (vinput_vdevices s) -> id v <> i) ->
  init (ops d) i < 0 ->
  exists s',
    export_store x buf len s = Done (init (ops d) i, s')
    /\ registries s' = registries s.
Proof.
  intros Hlook Hk Hin i Hfree Hfresh Hinit.
  destruct (BitmapFacts.find_first_zero_bit_spec (vinput_ids s) VINPUT_MINORS)
    as (Hrange & Hclear & _); [unfold VINPUT_MINORS; lia|].
  fold i in Hrange, Hclear.
  assert (Hmap : forall w : vinput,
             map (fun x0 => if id x0 =? i then w else x0) (vinput_vdevices s)
             = vinput_vdevices s).
  { intros w. rewrite <- (map_id (vinput_vdevices s)) at 2.
    apply map_ext_in. intros a Ha. apply Hfresh in Ha.
    apply Z.eqb_neq in Ha. rewrite Ha. reflexivity. }
  unfold export_store, bind at 1, get. rewrite Hlook.
  unfold bind at 1, vinput_alloc_vdevice. kunfold. cbn.
  rewrite Hk. cbn. fold i.
  destruct (Z.geb_spec i VINPUT_MINORS) as [Hfull | _]; [lia|].
  rewrite Hin. cbn. unfold store, live. cbn. rewrite ?Z.eqb_refl. cbn.
  rewrite ?Z.eqb_refl. cbn.
  unfold vinput_register_vdevice. cbn. kunfold.
  unfold store, live. cbn. rewrite ?Z.eqb_refl. cbn.
  destruct (Z.ltb_spec (init (ops d) i) 0) as [_ | Hge]; [|lia].
  unfold vinput_destroy_vdevice, live. cbn. rewrite ?Z.eqb_refl. cbn.
  kunfold. cbn. rewrite ?Z.eqb_refl.
  eexists. split; [reflexivity|].
  unfold registries. cbn.
  rewrite BitmapFacts.clear_set_bit by (try apply Hclear; lia).
  rewrite !map_map.
  rewrite (map_ext_in _ (fun x0 => x0)).
  - rewrite map_id. reflexivity.
  - intros a Ha. apply Hfresh in Ha. apply Z.eqb_neq in Ha.
    cbn. rewrite Ha. cbn. rewrite Ha. cbn. rewrite Ha. reflexivity.
Qed.
End Unwinding.

(** C1, evaluated: a create during which [input_allocate_device] returns
    NULL reports [-ENOMEM] and takes the instance off the list, but the
    bit of its id stays set: the bitmap is not what it was. *)
Theorem failed_input_allocation_keeps_id :
  export_store Sample.no_input "vkbd" 5 Sample.with_vkbd
  = Done (- ENOMEM, Sample.after_failed_create)
  /\ vinput_vdevices Sample.after_failed_create
     = vinput_vdevices Sample.with_vkbd
  /\ vinput_devices Sample.after_failed_create
     = vinput_devices Sample.with_vkbd
  /\ vinput_ids Sample.with_vkbd = 0
  /\ vinput_ids Sample.after_failed_create = 1
  /\ registries Sample.after_failed_create <> registries Sample.with_vkbd.
Proof.
  repeat split; try (vm_compute; reflexivity).
  intros H. vm_compute in H. discriminate H.
Qed.

(** C2, evaluated: before that failed create the bitmap and the
    instance list agree; after it id 0 is marked in the bitmap and no
    instance with id 0 is on the list. *)
Theorem failed_input_allocation_breaks_agreement :
  registry_matches_bitmap Sample.with_vkbd
  /\ export_store Sample.no_input "vkbd" 5 Sample.with_vkbd
     = Done (- ENOMEM, Sample.after_failed_create)
  /\ allocated 0 Sample.after_failed_create
  /\ ~ reachable 0 Sample.after_failed_create
  /\ ~ registry_matches_bitmap Sample.after_failed_create.
Proof.
  assert (Hno : ~ reachable 0 Sample.after_failed_create).
  { intros (v & Hin & _). vm_compute in Hin. exact Hin. }
  assert (Hbit : allocated 0 Sample.after_failed_create)
    by (vm_compute; reflexivity).
  split; [|split; [|split; [|split]]].
  - intros i Hi. unfold allocated, reachable.
    change (vinput_ids Sample.with_vkbd) with 0.
    change (vinput_vdevices Sample.with_vkbd) with (@nil vinput).
    rewrite Z.bits_0. split; [discriminate|].
    intros (v & [] & _).
  - vm_compute. reflexivity.
  - exact Hbit.
  - exact Hno.
  - intros Hinv. apply Hno. apply Hinv; [|exact Hbit].
    unfold VINPUT_MINORS. lia.
Qed.

(** C9, evaluated: the scenario of the claim.  The create takes id 0;
    the destroy of 0 succeeds and empties the list; the second destroy
    of 0 then runs the lookup on an empty list and faults, it does not
    return [-ENODEV]; a create after the first destroy takes id 0
    again. *)
Theorem second_destroy_of_only_instance_faults :
  export_store Sample.all_ok "vkbd" 5 Sample.with_vkbd
  = Done (5, Sample.one_live)
  /\ map id (vinput_vdevices Sample.one_live) = [0]
  /\ unexport_store Sample.all_ok (Some 0) 2 Sample.one_live
     = Done (2, Sample.none_live)
  /\ vinput_vdevices Sample.none_live = []
  /\ vinput_ids Sample.none_live = 0
  /\ unexport_store Sample.all_ok (Some 0) 2 Sample.none_live = Fault
  /\ export_store Sample.all_ok "vkbd" 5 Sample.none_live
     = Done (5, Sample.one_live_again)
  /\ map id (vinput_vdevices Sample.one_live_again) = [0].
Proof.
  repeat split; vm_compute; reflexivity.
Qed.

(** With another instance still on the list the second destroy does
    return [-ENODEV], and the next create takes the freed id 0. *)
Lemma second_destroy_with_other_instance :
  map id (vinput_vdevices Sample.two_live) = [1; 0]
  /\ unexport_store Sample.all_ok (Some 0) 2 Sample.two_live
     = Done (2, Sample.second_live)
  /\ map id (vinput_vdevices Sample.second_live) = [1]
  /\ (exists s', unexport_store Sample.all_ok (Some 0) 2 Sample.second_live
                 = Done (- ENODEV, s')
                 /\ registries s' = registries Sample.second_live)
  /\ find_first_zero_bit (vinput_ids Sample.second_live) VINPUT_MINORS = 0.
Proof.
  repeat split; try (vm_compute; reflexivity).
  eexists. split; vm_compute; reflexivity.
Qed.

(** ** Agreement of the bitmap and the instance list on the other paths *)

Section Agreement.
Lemma reachable_ids i s :
  reachable i s <-> In i (map id (vinput_vdevices s)).
Proof.
  unfold reachable. rewrite in_map_iff.
  split; intros (v & H1 & H2); exists v; tauto.
Qed.

Lemma store_ids v s a s' :
  store v s = Done (a, s') ->
  map id (vinput_vdevices s') = map id (vinput_vdevices s).
Proof.
  unfold store. destruct (live v s); [|discriminate].
  intros H. injection H as _ <-. cbn. rewrite map_map.
  apply map_ext. intros w.
  destruct (Z.eqb_spec (id w) (id v)) as [Heq | _]; congruence.
Qed.

Lemma log_ids e s a s' :
  log e s = Done (a, s') -> vinput_vdevices s' = vinput_vdevices s.
Proof. unfold log, modify. intros H. injection H as _ <-. reflexivity. Qed.

Lemma vinput_register_vdevice_ids v s err v' s' :
  vinput_register_vdevice v s = Done ((err, v'), s') ->
  map id (vinput_vdevices s') = map id (vinput_vdevices s).
Proof.
  unfold vinput_register_vdevice.
  destruct (input v); [|discriminate]. destruct (type v); [|discriminate].
  intros H.
  apply bind_inv in H. destruct H as (? & s1 & Hstore & H).
  apply bind_inv in H. destruct H as (? & s2 & Hlog & H).
  apply ret_inv in H. destruct H as [_ ->].
  apply store_ids in Hstore. apply log_ids in Hlog. congruence.
Qed.

(** A successful create puts the id it took in front of the ids on
    the list. *)
Lemma export_store_success_ids x buf len s r s' :
  export_store x buf len s = Done (r, s') ->
  0 <= r ->
  map id (vinput_vdevices s')
  = find_first_zero_bit (vinput_ids s) VINPUT_MINORS
    :: map id (vinput_vdevices s).
Proof.
  unfold export_store. intros Hrun Hr.
  apply bind_inv in Hrun. destruct Hrun as (s0 & s1 & Hget & Hrun).
  injection Hget as <- <-.
  destruct (vinput_get_device_by_type buf s) as [e | d] eqn:Hlook.
  { apply vinput_get_device_by_type_err in Hlook.
    apply ret_inv in Hrun. unfold ENODEV in *. lia. }
  apply bind_inv in Hrun. destruct Hrun as (a & s1 & Halloc & Hrun).
  apply vinput_alloc_vdevice_run in Halloc. destruct Halloc as (_ & Ha).
  destruct a as [e | v].
  { apply ret_inv in Hrun. lia. }
  destruct Ha as (Hid & _ & _ & _ & _ & _ & Hvd).
  assert (Hids1 : map id (vinput_vdevices s1)
                  = find_first_zero_bit (vinput_ids s) VINPUT_MINORS
                    :: map id (vinput_vdevices s)).
  { rewrite Hvd. cbn. rewrite Hid. f_equal. rewrite map_map.
    apply map_ext. intros w.
    destruct (Z.eqb_spec (id w)
                (find_first_zero_bit (vinput_ids s) VINPUT_MINORS));
      congruence. }
  apply bind_inv in Hrun. destruct Hrun as (? & s2 & Hst & Hrun).
  apply store_ids in Hst.
  apply bind_inv in Hrun. destruct Hrun as ([err v'] & s3 & Hreg & Hrun).
  apply vinput_register_vdevice_ids in Hreg.
  destruct (Z.ltb_spec err 0) as [Herr | _].
  { apply then_ret_inv in Hrun. lia. }
  apply bind_inv in Hrun. destruct Hrun as (err1 & s4 & Hdr & Hrun).
  unfold device_register in Hdr.
  apply bind_inv in Hdr. destruct Hdr as (? & s4' & Hlog1 & Hdr).
  apply ret_inv in Hdr. destruct Hdr as [_ ->]. apply log_ids in Hlog1.
  destruct (Z.ltb_spec err1 0) as [Herr1 | _].
  { apply bind_inv in Hrun. destruct Hrun as (? & ? & _ & Hrun).
    apply then_ret_inv in Hrun. lia. }
  apply bind_inv in Hrun. destruct Hrun as (err2 & s5 & Hir & Hrun).
  unfold input_register_device in Hir.
  apply bind_inv in Hir. destruct Hir as (? & s5' & Hlog2 & Hir).
  apply ret_inv in Hir. destruct Hir as [_ ->]. apply log_ids in Hlog2.
  destruct (Z.ltb_spec err2 0) as [Herr2 | _].
  { apply bind_inv in Hrun. destruct Hrun as (? & ? & _ & Hrun).
    apply bind_inv in Hrun. destruct Hrun as (? & ? & _ & Hrun).
    apply then_ret_inv in Hrun. lia. }
  apply ret_inv in Hrun. destruct Hrun as [_ ->].
  rewrite Hlog2, Hlog1, Hreg, Hst. exact Hids1.
Qed.

(** A successful create keeps the bitmap and the list in agreement,
    and the ids on the list distinct. *)
Lemma export_store_success_keeps_agreement x buf len s r s' :
  registry_matches_bitmap s ->
  NoDup (map id (vinput_vdevices s)) ->
  export_store x buf len s = Done (r, s') ->
  0 <= r ->
  registry_matches_bitmap s' /\ NoDup (map id (vinput_vdevices s')).
Proof.
  intros Hinv Hnodup Hrun Hr.
  pose proof (export_store_success_ids _ _ _ _ _ _ Hrun Hr) as Hl.
  apply export_store_success in Hrun; [|exact Hr].
  destruct Hrun as (_ & Hfree & Hids & _).
  destruct (BitmapFacts.find_first_zero_bit_spec (vinput_ids s) VINPUT_MINORS)
    as (Hrange & Hclear & _); [unfold VINPUT_MINORS; lia|].
  set (i := find_first_zero_bit (vinput_ids s) VINPUT_MINORS) in *.
  specialize (Hclear Hfree).
  assert (Hfresh : ~ In i (map id (vinput_vdevices s))).
  { rewrite <- reachable_ids. intros Hreach.
    apply Hinv in Hreach; [|lia]. unfold allocated in Hreach. congruence. }
  split.
  - intros j Hj. unfold allocated. rewrite reachable_ids, Hl, Hids.
    rewrite BitmapFacts.testbit_set_bit by lia.
    rewrite orb_true_iff, Z.eqb_eq. cbn [In].
    specialize (Hinv j Hj). unfold allocated in Hinv.
    rewrite reachable_ids in Hinv. tauto.
  - rewrite Hl. constructor; assumption.
Qed.

(** [vinput_destroy_vdevice] keeps them in agreement too. *)
Lemma vinput_destroy_vdevice_keeps_agreement v s :
  registry_matches_bitmap s ->
  NoDup (map id (vinput_vdevices s)) ->
  In v (vinput_vdevices s) ->
  exists s',
    vinput_destroy_vdevice v s = Done (tt, s')
    /\ registry_matches_bitmap s'
    /\ NoDup (map id (vinput_vdevices s'))
    /\ ~ reachable (id v) s'.
Proof.
  intros Hinv Hnodup Hin.
  rewrite vinput_destroy_vdevice_run by (apply live_In; exact Hin).
  eexists. split; [reflexivity|].
  destruct (in_split _ _ Hin) as (l1 & l2 & Hsplit).
  rewrite Hsplit, map_app in Hnodup. cbn [map] in Hnodup.
  pose proof (NoDup_remove_1 _ _ _ Hnodup) as Hnd'.
  pose proof (NoDup_remove_2 _ _ _ Hnodup) as Hnot.
  assert (Hdel : list_del v (vinput_vdevices s) = l1 ++ l2).
  { rewrite Hsplit. apply list_del_middle.
    intros H. apply Hnot. apply in_or_app. left. exact H. }
  assert (Hids : forall j, In j (map id (l1 ++ l2))
                   <-> In j (map id (vinput_vdevices s)) /\ j <> id v).
  { intros j. rewrite Hsplit, !map_app. cbn [map].
    rewrite !in_app_iff. cbn [In]. rewrite in_app_iff in Hnot.
    split.
    - intros H. split; [tauto|]. intros ->. tauto.
    - intros [[H | [H | H]] Hne]; [tauto | congruence | tauto]. }
  split; [|split].
  - intros j Hj. unfold allocated. rewrite reachable_ids. cbn.
    rewrite Hdel, Hids, BitmapFacts.testbit_clear_bit.
    rewrite andb_true_iff, negb_true_iff, Z.eqb_neq.
    specialize (Hinv j Hj). unfold allocated in Hinv.
    rewrite reachable_ids in Hinv. split; intros [H1 H2]; split;
      try tauto; congruence.
  - cbn. rewrite Hdel, map_app. exact Hnd'.
  - rewrite reachable_ids. cbn. rewrite Hdel, Hids. tauto.
Qed.
End Agreement.

(** ** Destroying the only instance twice *)

Section DestroyTwice.
(** On a list whose only entry is [v], a destroy of its id faults
    (when the driver core releases the node already at
    [device_unregister]), or succeeds and leaves the list empty, or
    succeeds and leaves the entry (when nothing releases the node). *)
Lemma unexport_store_only_instance x v s len :
  vinput_vdevices s = [v] ->
  unexport_store x (Some (id v)) len s = Fault
  \/ exists s',
       unexport_store x (Some (id v)) len s = Done (len, s')
       /\ (vinput_vdevices s' = [] \/ vinput_vdevices s' = [v]).
Proof.
  intros Hl.
  assert (Hlive : live v s = true)
    by (apply live_In; rewrite Hl; left; reflexivity).
  assert (Hlook : vinput_get_vdevice_by_id (id v) s = Done (inr v, s)).
  { unfold vinput_get_vdevice_by_id. rewrite Hl. cbn [scan_by_id].
    rewrite !Z.eqb_refl. reflexivity. }
  unfold unexport_store, bind. rewrite Hlook.
  rewrite device_unregister_run by exact Hlive.
  destruct (released x v).
  - left. unfold vinput_unregister_vdevice, live. cbn.
    rewrite Hl. cbn. rewrite Z.eqb_refl. reflexivity.
  - right. unfold vinput_unregister_vdevice, live. cbn.
    rewrite Hl. cbn. rewrite Z.eqb_refl. cbn.
    destruct (x_input_unregister_releases x (id v) && dev_release (dev v)).
    + unfold vinput_release_dev, vinput_destroy_vdevice, live.
      kunfold. cbn. rewrite ?Z.eqb_refl. cbn.
      eexists. split; [reflexivity|]. left. cbn.
      rewrite ?Z.eqb_refl. reflexivity.
    + kunfold. cbn. eexists. split; [reflexivity|]. right. reflexivity.
Qed.

(** Whatever the driver core does, the second destroy of the only
    instance does not report [-ENODEV]. *)
Lemma second_destroy_never_reports_enodev x1 x2 v s len r1 s1 r2 s2 :
  0 <= len ->
  vinput_vdevices s = [v] ->
  unexport_store x1 (Some (id v)) len s = Done (r1, s1) ->
  unexport_store x2 (Some (id v)) len s1 = Done (r2, s2) ->
  r2 <> - ENODEV.
Proof.
  intros Hlen Hl H1 H2.
  destruct (unexport_store_only_instance x1 v s len Hl)
    as [Hf | (s' & Hrun & Hcases)]; [congruence|].
  rewrite Hrun in H1. injection H1 as <- <-.
  destruct Hcases as [Hempty | Hstill].
  - unfold unexport_store, bind, vinput_get_vdevice_by_id in H2.
    rewrite Hempty in H2. discriminate.
  - destruct (unexport_store_only_instance x2 v s' len Hstill)
      as [Hf | (s'' & Hrun2 & _)]; [congruence|].
    rewrite Hrun2 in H2. injection H2 as <- _. unfold ENODEV. lia.
Qed.
End DestroyTwice.


(** ** Rejected commands *)

Section Rejections.
Lemma find_all_false {A} (f : A -> bool) l :
  (forall a, In a l -> f a = false) -> find f l = None.
Proof.
  induction l as [| a l IH]; cbn; intros H; [reflexivity|].
  rewrite (H a) by (left; reflexivity).
  apply IH. intros b Hb. apply H. right. exact Hb.
Qed.

Lemma prefix_refl s : String.prefix s s = true.
Proof.
  induction s as [| c s IH]; cbn; [reflexivity|].
  destruct (ascii_dec c c); [exact IH | contradiction].
Qed.
End Rejections.

(** X1: [export_store] with a text that starts with the name of no
    registered provider (in particular when no provider is registered)
    returns [-ENODEV] and leaves the whole state as it was: nothing is
    allocated and nothing outside is called. *)
Theorem export_store_unknown_type :
  forall (x : extern) (buf : string) (len : Z) (s : kstate),
    Forall (fun d => no_nul (name d) = true) (vinput_devices s) ->
    (forall d, In d (vinput_devices s) -> String.prefix (name d) buf = false) ->
    export_store x buf len s = Done (- ENODEV, s).
Proof.
  intros x buf len s Hnames Hnone.
  assert (Hlook : vinput_get_device_by_type buf s = ERR_PTR (- ENODEV)).
  { unfold vinput_get_device_by_type.
    rewrite scan_by_type_find by exact Hnames.
    rewrite find_all_false by exact Hnone. reflexivity. }
  unfold export_store, bind, get. cbv beta iota. rewrite Hlook. reflexivity.
Qed.

Lemma export_store_unknown_type_witness :
  Forall (fun d => no_nul (name d) = true) (vinput_devices Sample.with_vkbd)
  /\ (forall d, In d (vinput_devices Sample.with_vkbd) ->
        String.prefix (name d) "vmouse" = false)
  /\ export_store Sample.all_ok "vmouse" 7 Sample.with_vkbd
     = Done (- ENODEV, Sample.with_vkbd).
Proof.
  assert (H1 : Forall (fun d => no_nul (name d) = true)
                      (vinput_devices Sample.with_vkbd))
    by (repeat constructor).
  assert (H2 : forall d, In d (vinput_devices Sample.with_vkbd) ->
                 String.prefix (name d) "vmouse" = false).
  { intros d [<- | []]. reflexivity. }
  split; [exact H1|]. split; [exact H2|].
  exact (export_store_unknown_type Sample.all_ok "vmouse" 7
           Sample.with_vkbd H1 H2).
Defined.

(** X2: [unexport_store] returns [-EINVAL] when the text is no number,
    and [-ENODEV] when instances are live but none has the id; in both
    cases the whole state is as it was and nothing outside is called. *)
Theorem unexport_store_rejects_without_change :
  forall (x : extern) (len : Z) (s : kstate),
    unexport_store x None len s = Done (- EINVAL, s)
    /\ (forall i,
          vinput_vdevices s <> [] ->
          (forall v, In v (vinput_vdevices s) -> id v <> i) ->
          unexport_store x (Some i) len s = Done (- ENODEV, s)).
Proof.
  intros x len s. split; [reflexivity|].
  intros i Hne Hno.
  destruct (vinput_get_vdevice_by_id_nonempty i s Hne)
    as [(v & Hin & Hid & _) | [_ Hrun]].
  - exfalso. exact (Hno v Hin Hid).
  - unfold unexport_store, bind. rewrite Hrun. reflexivity.
Qed.

Lemma unexport_store_rejects_without_change_witness :
  vinput_vdevices Sample.two_live <> []
  /\ (forall v, In v (vinput_vdevices Sample.two_live) -> id v <> 7)
  /\ unexport_store Sample.all_ok (Some 7) 2 Sample.two_live
     = Done (- ENODEV, Sample.two_live).
Proof.
  assert (H1 : vinput_vdevices Sample.two_live <> []) by discriminate.
  assert (H2 : forall v, In v (vinput_vdevices Sample.two_live) -> id v <> 7).
  { intros v [<- | [<- | []]]; discriminate. }
  split; [exact H1|]. split; [exact H2|].
  exact (proj2 (unexport_store_rejects_without_change
                  Sample.all_ok 2 Sample.two_live) 7 H1 H2).
Defined.

(** X3: on an instance list that is not empty,
    [vinput_get_vdevice_by_id] returns an instance of the list that has
    the id when there is one and [ERR_PTR (-ENODEV)] when there is none,
    and it changes nothing. *)
Theorem lookup_by_id_on_live_registry :
  forall (i : Z) (s : kstate),
    vinput_vdevices s <> [] ->
    exists r,
      vinput_get_vdevice_by_id i s = Done (r, s)
      /\ match r with
         | inr v => In v (vinput_vdevices s) /\ id v = i
         | inl err =>
             err = - ENODEV
             /\ forall v, In v (vinput_vdevices s) -> id v <> i
         end.
Proof.
  intros i s Hne.
  destruct (vinput_get_vdevice_by_id_nonempty i s Hne)
    as [(v & Hin & Hid & Hrun) | [Hno Hrun]].
  - exists (inr v). split; [exact Hrun|]. split; assumption.
  - exists (inl (- ENODEV)). split; [exact Hrun|]. split; [reflexivity|exact Hno].
Qed.

Lemma lookup_by_id_on_live_registry_witness :
  vinput_vdevices Sample.two_live <> []
  /\ exists r,
       vinput_get_vdevice_by_id 0 Sample.two_live = Done (r, Sample.two_live)
       /\ match r with
          | inr v => In v (vinput_vdevices Sample.two_live) /\ id v = 0
          | inl err =>
              err = - ENODEV
              /\ forall v, In v (vinput_vdevices Sample.two_live) -> id v <> 0
          end.
Proof.
  assert (H1 : vinput_vdevices Sample.two_live <> []) by discriminate.
  split; [exact H1|].
  exact (lookup_by_id_on_live_registry 0 Sample.two_live H1).
Defined.

(** X4: on an instance list that is not empty, [vinput_open] of a minor
    some instance has returns 0 and leaves that instance in
    [file->private_data]; of a minor no instance has it returns [-ENODEV]
    and leaves the file as it was. *)
Theorem open_binds_instance_of_minor :
  forall (minor : Z) (f : file) (s : kstate),
    vinput_vdevices s <> [] ->
    (exists v, In v (vinput_vdevices s) /\ id v = minor
               /\ vinput_open minor f s
                  = Done ((0, {| private_data := Some v |}), s))
    \/ ((forall v, In v (vinput_vdevices s) -> id v <> minor)
        /\ vinput_open minor f s = Done ((- ENODEV, f), s)).
Proof.
  intros minor f s Hne. unfold vinput_open, bind.
  destruct (vinput_get_vdevice_by_id_nonempty minor s Hne)
    as [(v & Hin & Hid & Hrun) | [Hno Hrun]]; rewrite Hrun.
  - left. exists v. repeat split; assumption.
  - right. split; [exact Hno | reflexivity].
Qed.

Lemma open_binds_instance_of_minor_witness :
  vinput_vdevices Sample.two_live <> []
  /\ ((exists v, In v (vinput_vdevices Sample.two_live) /\ id v = 1
                 /\ vinput_open 1 {| private_data := None |} Sample.two_live
                    = Done ((0, {| private_data := Some v |}), Sample.two_live))
      \/ ((forall v, In v (vinput_vdevices Sample.two_live) -> id v <> 1)
          /\ vinput_open 1 {| private_data := None |} Sample.two_live
             = Done ((- ENODEV, {| private_data := None |}), Sample.two_live))).
Proof.
  assert (H1 : vinput_vdevices Sample.two_live <> []) by discriminate.
  split; [exact H1|].
  exact (open_binds_instance_of_minor 1 {| private_data := None |}
           Sample.two_live H1).
Defined.

(** ** More on read and write *)

(** X5: for a position that is not negative, a count below [2^63] and
    a provider that returns at most [VINPUT_MAX_LEN], [vinput_read]
    returns, and the range of its buffer that it hands to
    [copy_to_user] is empty or lies within the first [VINPUT_MAX_LEN]
    bytes of the [VINPUT_MAX_LEN + 1] the buffer has. *)
Theorem read_copy_stays_within_buffer :
  forall (VINPUT_MAX_LEN : Z) (f : file) (v : vinput) (t : vinput_device)
         (writable count offset : Z),
    private_data f = Some v ->
    type v = Some t ->
    0 <= VINPUT_MAX_LEN < two63 ->
    0 <= count < two63 ->
    0 <= offset < two63 ->
    read (ops t) (id v) count <= VINPUT_MAX_LEN ->
    exists r,
      vinput_read VINPUT_MAX_LEN f writable count offset = Done r
      /\ forall c, In (EvCopyToUser offset c) (rd_log r) ->
           c = 0 \/ (0 <= c /\ offset + c <= VINPUT_MAX_LEN).
Proof.
  intros M f v t writable count offset Hf Ht HM Hcount Hoff Hlen.
  assert (Hrun : exists r, vinput_read M f writable count offset = Done r).
  { unfold vinput_read. rewrite Hf, Ht. eexists. reflexivity. }
  destruct Hrun as (r & Hrun). exists r. split; [exact Hrun|].
  intros c Hin.
  exact (read_window_within_max M f v t writable count offset r c
           Hf Ht HM Hcount Hoff Hlen Hrun Hin).
Qed.

Lemma read_copy_stays_within_buffer_witness :
  exists r,
    vinput_read 8 Scenario.five_file 100 6 4 = Done r
    /\ forall c, In (EvCopyToUser 4 c) (rd_log r) ->
         c = 0 \/ (0 <= c /\ 4 + c <= 8).
Proof.
  apply (read_copy_stays_within_buffer
           8 Scenario.five_file (created Scenario.vfive 250 0)
           Scenario.vfive 100 6 4 eq_refl eq_refl).
  - unfold two63. lia.
  - unfold two63. lia.
  - unfold two63. lia.
  - simpl. lia.
Defined.

(** X6: with [len] what the provider's [read] returned: a read at a
    position beyond [len] returns 0, hands nothing to the caller and
    leaves the position, whether or not the caller's buffer is
    writable; a read at a position up to [len] whose end
    [count + offset] lies beyond [VINPUT_MAX_LEN] is cut to the
    [len - offset] bytes up to [len], returns that number and moves the
    position to [len]. *)
Theorem read_past_data_and_cut :
  forall (VINPUT_MAX_LEN : Z) (f : file) (v : vinput) (t : vinput_device)
         (writable count offset : Z),
    private_data f = Some v ->
    type v = Some t ->
    0 <= VINPUT_MAX_LEN < two63 ->
    0 <= count < two63 ->
    0 <= offset < two63 ->
    is_int (read (ops t) (id v) count) ->
    (read (ops t) (id v) count < offset ->
       vinput_read VINPUT_MAX_LEN f writable count offset
       = Done {| rd_ret := 0;
                 rd_offset := offset;
                 rd_log := [EvOpsRead (name t) (id v) count;
                            EvCopyToUser offset 0] |})
    /\ (offset <= read (ops t) (id v) count ->
        VINPUT_MAX_LEN < count + offset ->
        read (ops t) (id v) count - offset <= writable ->
        vinput_read VINPUT_MAX_LEN f writable count offset
        = Done {| rd_ret := read (ops t) (id v) count - offset;
                  rd_offset := read (ops t) (id v) count;
                  rd_log := [EvOpsRead (name t) (id v) count;
                             EvCopyToUser offset
                               (read (ops t) (id v) count - offset)] |}).
Proof.
  intros M f v t writable count offset Hf Ht HM Hcount Hoff Hlen.
  unfold vinput_read. rewrite Hf, Ht.
  set (len := read (ops t) (id v) count) in *.
  unfold is_int in Hlen.
  rewrite (WordFacts.u64_small M) by (unfold two63, two64 in *; lia).
  rewrite (WordFacts.u64_small (count + offset))
    by (unfold two63, two64 in *; lia).
  split.
  - intros Hpast.
    destruct (Z.gtb_spec offset len) as [_ | Hle]; [|lia].
    assert (Hcopy : copy_to_user writable 0 = 0).
    { unfold copy_to_user. destruct (0 <=? writable); reflexivity. }
    rewrite Hcopy. cbn [Z.eqb]. rewrite Z.add_0_r.
    rewrite !WordFacts.s64_small by (unfold two63 in *; lia).
    reflexivity.
  - intros Hin Hbeyond Hroom.
    destruct (Z.gtb_spec offset len) as [Hgt | _]; [lia|].
    destruct (Z.gtb_spec (count + offset) M) as [_ | Hle]; [|lia].
    rewrite (WordFacts.u64_small (len - offset))
      by (unfold two63, two64 in *; lia).
    assert (Hcopy : copy_to_user writable (len - offset) = 0).
    { unfold copy_to_user.
      destruct (Z.leb_spec (len - offset) writable); [reflexivity | lia]. }
    rewrite Hcopy. cbn [Z.eqb].
    replace (offset + (len - offset)) with len by lia.
    rewrite !WordFacts.s64_small by (unfold two63 in *; lia).
    reflexivity.
Qed.

Lemma read_past_data_and_cut_witness :
  vinput_read 8 Scenario.five_file 0 3 6
  = Done {| rd_ret := 0; rd_offset := 6;
            rd_log := [EvOpsRead "vfive" 0 3; EvCopyToUser 6 0] |}
  /\ vinput_read 8 Scenario.five_file 100 7 2
     = Done {| rd_ret := 3; rd_offset := 5;
               rd_log := [EvOpsRead "vfive" 0 7; EvCopyToUser 2 3] |}.
Proof.
  assert (HM : 0 <= 8 < two63) by (unfold two63; lia).
  assert (Hint : forall c, is_int (read (ops Scenario.vfive)
                                     (id (created Scenario.vfive 250 0)) c)).
  { intros c. unfold is_int. simpl. lia. }
  split.
  - refine (proj1 (read_past_data_and_cut
             8 Scenario.five_file (created Scenario.vfive 250 0)
             Scenario.vfive 0 3 6 eq_refl eq_refl HM _ _ (Hint 3)) _).
    + unfold two63. lia.
    + unfold two63. lia.
    + simpl. lia.
  - refine (proj2 (read_past_data_and_cut
             8 Scenario.five_file (created Scenario.vfive 250 0)
             Scenario.vfive 100 7 2 eq_refl eq_refl HM _ _ (Hint 7)) _ _ _).
    + unfold two63. lia.
    + unfold two63. lia.
    + simpl. lia.
    + lia.
    + simpl. lia.
Defined.

(** X7: for a write within the limit whose bytes can be read, the
    buffer handed to the provider's [send] holds the payload in its
    first [count] bytes and NUL in every byte from [count] to
    [VINPUT_MAX_LEN]: the provider always gets a terminated string. *)
Theorem write_stages_terminated_string :
  forall (VINPUT_MAX_LEN : Z) (f : file) (v : vinput) (t : vinput_device)
         (src : list byte) (count offset : Z),
    private_data f = Some v ->
    type v = Some t ->
    0 <= VINPUT_MAX_LEN < two64 ->
    0 <= count <= VINPUT_MAX_LEN ->
    count <= Z.of_nat (List.length src) ->
    exists buff,
      vinput_write VINPUT_MAX_LEN f src count offset
      = Done {| wr_ret := send (ops t) (id v) buff count;
                wr_log := [EvCopyFromUser count;
                           EvOpsSend (name t) (id v) buff count] |}
      /\ (forall k, 0 <= k < count ->
            nth (Z.to_nat k) buff x00 = nth (Z.to_nat k) src x00)
      /\ (forall k, count <= k <= VINPUT_MAX_LEN ->
            nth (Z.to_nat k) buff x01 = x00).
Proof.
  intros M f v t src count offset Hf Ht HM Hcount Hsrc.
  exists (staged M src count). split; [|split].
  - unfold vinput_write. rewrite Hf.
    rewrite (WordFacts.u64_small M) by exact HM.
    destruct (Z.gtb_spec count M); [lia|].
    unfold copy_from_user.
    destruct (Z.leb_spec count (Z.of_nat (List.length src))); [|lia].
    cbn [Z.eqb negb]. rewrite Ht. reflexivity.
  - intros k Hk. unfold staged.
    rewrite app_nth1 by (rewrite length_firstn; lia).
    rewrite nth_firstn.
    destruct (Nat.ltb_spec (Z.to_nat k) (Z.to_nat count)); [reflexivity | lia].
  - intros k Hk. unfold staged.
    rewrite app_nth2 by (rewrite length_firstn; lia).
    apply nth_repeat_lt. rewrite length_firstn. lia.
Qed.

Lemma write_stages_terminated_string_witness :
  exists buff,
    vinput_write 8 Sample.a_file [x61; x62; x63] 3 0
    = Done {| wr_ret := send (ops Sample.vkbd) (id Sample.an_instance) buff 3;
              wr_log := [EvCopyFromUser 3;
                         EvOpsSend (name Sample.vkbd) (id Sample.an_instance)
                           buff 3] |}
    /\ (forall k, 0 <= k < 3 ->
          nth (Z.to_nat k) buff x00 = nth (Z.to_nat k) [x61; x62; x63] x00)
    /\ (forall k, 3 <= k <= 8 -> nth (Z.to_nat k) buff x01 = x00).
Proof.
  apply (write_stages_terminated_string
           8 Sample.a_file Sample.an_instance Sample.vkbd
           [x61; x62; x63] 3 0 eq_refl eq_refl).
  - unfold two64. lia.
  - lia.
  - simpl. lia.
Defined.

(** ** Providers coming and going *)

(** X8: right after [vinput_register d], a lookup for any text that
    starts with the name of [d] (the name itself, or the name followed
    by a newline) returns [d], whatever other providers are registered;
    the registration itself returns 0 and touches no instance and no
    id. *)
Theorem registered_provider_is_found :
  forall (d : vinput_device) (s : kstate) (query : string),
    no_nul (name d) = true ->
    String.prefix (name d) query = true ->
    exists s',
      vinput_register d s = Done (0, s')
      /\ vinput_ids s' = vinput_ids s
      /\ vinput_vdevices s' = vinput_vdevices s
      /\ vinput_get_device_by_type query s' = inr d
      /\ vinput_get_device_by_type (name d) s' = inr d.
Proof.
  intros d s query Hnn Hpre.
  exists (set_devices (cons d) s). rewrite vinput_register_run.
  repeat split.
  - unfold vinput_get_device_by_type. cbn [set_devices vinput_devices scan_by_type].
    rewrite CStringFacts.strncmp_strlen_prefix by exact Hnn.
    rewrite Hpre. reflexivity.
  - unfold vinput_get_device_by_type. cbn [set_devices vinput_devices scan_by_type].
    rewrite CStringFacts.strncmp_strlen_prefix by exact Hnn.
    rewrite prefix_refl. reflexivity.
Qed.

Lemma registered_provider_is_found_witness :
  no_nul (name Sample.vkbd) = true
  /\ String.prefix (name Sample.vkbd) "vkbd
" = true
  /\ exists s',
       vinput_register Sample.vkbd Sample.vkbd_then_vkbdpro = Done (0, s')
       /\ vinput_ids s' = vinput_ids Sample.vkbd_then_vkbdpro
       /\ vinput_vdevices s' = vinput_vdevices Sample.vkbd_then_vkbdpro
       /\ vinput_get_device_by_type "vkbd
" s' = inr Sample.vkbd
       /\ vinput_get_device_by_type (name Sample.vkbd) s' = inr Sample.vkbd.
Proof.
  split; [reflexivity|]. split; [reflexivity|].
  exact (registered_provider_is_found Sample.vkbd Sample.vkbd_then_vkbdpro
           "vkbd
" eq_refl eq_refl).
Defined.



(** ** Module load *)

(** X10: [vinput_init] stores what [register_chrdev] returned in the
    unsigned [vinput_dev], so its test for a negative value never
    fires: [class_register] is always attempted, the return value is 0
    or the error of [class_register], never an error of
    [register_chrdev], and the char device is never unregistered by
    [vinput_init].  After a load with major [chrdev], [vinput_end]
    unregisters that major. *)
Theorem module_load_ignores_chrdev_failure :
  forall (chrdev class_reg : Z) (s : kstate),
    let '(r, s', calls) := vinput_init chrdev class_reg s in
    r = (if class_reg <? 0 then class_reg else 0)
    /\ In EvClassRegister calls
    /\ (forall m, ~ In (EvUnregisterChrdev m) calls)
    /\ registries s' = registries s
    /\ (0 <= chrdev < 2 ^ 32 ->
        vinput_end s' = [EvUnregisterChrdev chrdev; EvClassUnregister]).
Proof.
  intros chrdev class_reg s. unfold vinput_init.
  cbn [with_vinput_dev vinput_dev].
  assert (Hpos : 0 <= u32 chrdev).
  { unfold u32. apply Z.mod_pos_bound. lia. }
  destruct (Z.ltb_spec (u32 chrdev) 0) as [Hneg | _]; [lia|].
  assert (Hend : 0 <= chrdev < 2 ^ 32 ->
                 vinput_end (with_vinput_dev s (u32 chrdev))
                 = [EvUnregisterChrdev chrdev; EvClassUnregister]).
  { intros Hr. unfold vinput_end, u32. cbn.
    rewrite Z.mod_small by exact Hr. reflexivity. }
  destruct (class_reg <? 0); repeat split; try exact Hend;
    try (cbn; tauto);
    intros m Hin; cbn in Hin; intuition discriminate.
Qed.

Lemma module_load_ignores_chrdev_failure_witness :
  let '(r, s', calls) := vinput_init 250 0 (boot 0) in
  r = 0
  /\ (0 <= 250 < 2 ^ 32 ->
      vinput_end s' = [EvUnregisterChrdev 250; EvClassUnregister]).
Proof.
  pose proof (module_load_ignores_chrdev_failure 250 0 (boot 0)) as H.
  cbv beta iota delta [vinput_init u32] in H |- *.
  cbn in H |- *. tauto.
Defined.

(** ** Creation step by step *)

Section Creation.
Lemma map_replace_fresh (w : vinput) (i : Z) (l : list vinput) :
  (forall v, In v l -> id v <> i) ->
  map (fun x0 => if id x0 =? i then w else x0) l = l.
Proof.
  intros Hfresh. rewrite <- (map_id l) at 2.
  apply map_ext_in. intros a Ha. apply Hfresh in Ha.
  apply Z.eqb_neq in Ha. rewrite Ha. reflexivity.
Qed.

(** A free id is the id of no entry when the ids on the list are
    marked in the bitmap. *)
Lemma ids_sound_fresh s :
  on_registry ids_sound s ->
  find_first_zero_bit (vinput_ids s) VINPUT_MINORS < VINPUT_MINORS ->
  forall v, In v (vinput_vdevices s) ->
    id v <> find_first_zero_bit (vinput_ids s) VINPUT_MINORS.
Proof.
  intros [_ Hbits] Hfree v Hin Heq.
  destruct (BitmapFacts.find_first_zero_bit_spec (vinput_ids s) VINPUT_MINORS)
    as (_ & Hclear & _); [unfold VINPUT_MINORS; lia|].
  specialize (Hclear Hfree).
  destruct (Hbits (id v)) as [_ Hset]; [apply in_map; exact Hin|].
  rewrite Heq in Hset. congruence.
Qed.

Lemma ids_sound_add bits l :
  ids_sound bits l ->
  let i := find_first_zero_bit bits VINPUT_MINORS in
  i < VINPUT_MINORS ->
  ids_sound (set_bit i bits) (i :: l).
Proof.
  intros [Hnd Hbits] i Hfree.
  destruct (BitmapFacts.find_first_zero_bit_spec bits VINPUT_MINORS)
    as (Hrange & Hclear & _); [unfold VINPUT_MINORS; lia|].
  fold i in Hrange, Hclear. specialize (Hclear Hfree).
  split.
  - constructor; [|exact Hnd].
    intros Hin. apply Hbits in Hin. destruct Hin as [_ Hset]. congruence.
  - intros j [<- | Hj].
    + split; [lia|]. rewrite BitmapFacts.testbit_set_bit by lia.
      rewrite Z.eqb_refl. reflexivity.
    + destruct (Hbits j Hj) as [Hr Hset]. split; [exact Hr|].
      rewrite BitmapFacts.testbit_set_bit by lia.
      rewrite Hset. apply orb_true_r.
Qed.

Lemma bind_run {A B} (m : K A) (k : A -> K B) s a s1 :
  m s = Done (a, s1) -> bind m k s = k a s1.
Proof. intros H. unfold bind. rewrite H. reflexivity. Qed.

(** [vinput_alloc_vdevice] when the allocations succeed and an id is
    free. *)
Lemma vinput_alloc_vdevice_ok x s :
  x_kzalloc_ok x = true ->
  x_input_allocate_ok x = true ->
  let i := find_first_zero_bit (vinput_ids s) VINPUT_MINORS in
  i < VINPUT_MINORS ->
  (forall v, In v (vinput_vdevices s) -> id v <> i) ->
  let v0 :=
    {| id := i; type := None; input := Some fresh_input;
       dev := {| dev_class := Some "vinput"%string;
                 dev_release := true;
                 devt := u32 (MKDEV (vinput_dev s) i);
                 dev_name := (DRIVER_NAME ++ decimal i)%string |} |} in
  vinput_alloc_vdevice x s
  = Done (inr v0,
          {| vinput_ids := set_bit i (vinput_ids s);
             vinput_devices := vinput_devices s;
             vinput_vdevices := v0 :: vinput_vdevices s;
             vinput_dev := vinput_dev s;
             klog := klog s ++ [EvKzalloc; EvModuleGet; EvInputAllocate] |}).
Proof.
  intros Hk Hin i Hfree Hfresh v0.
  pose proof (fun w => map_replace_fresh w i _ Hfresh) as Hmap.
  unfold vinput_alloc_vdevice. kunfold. cbn.
  rewrite Hk. cbn. fold i.
  destruct (Z.geb_spec i VINPUT_MINORS) as [Hfull | _]; [lia|].
  rewrite Hin. cbn. unfold store, live. cbn. rewrite ?Z.eqb_refl. cbn.
  unfold set_vdevices. cbn. rewrite ?Z.eqb_refl. rewrite Hmap.
  repeat rewrite <- app_assoc. reflexivity.
Qed.

(** A store through the pointer to the head of the list. *)
Lemma store_head v w l s :
  vinput_vdevices s = w :: l ->
  id w = id v ->
  (forall u, In u l -> id u <> id v) ->
  store v s = Done (tt, set_vdevices (fun _ => v :: l) s).
Proof.
  intros Hl Hid Hfresh. unfold store, live. rewrite Hl. cbn [existsb].
  rewrite Hid, Z.eqb_refl. cbn [orb].
  f_equal. f_equal. unfold set_vdevices. rewrite Hl. cbn [map].
  rewrite Hid, Z.eqb_refl, map_replace_fresh by exact Hfresh. reflexivity.
Qed.

(** [export_store] up to the call of the provider's [init]: the state
    then, and what is left to run. *)
Lemma export_store_up_to_init x buf len s d :
  vinput_get_device_by_type buf s = inr d ->
  x_kzalloc_ok x = true ->
  x_input_allocate_ok x = true ->
  let i := find_first_zero_bit (vinput_ids s) VINPUT_MINORS in
  i < VINPUT_MINORS ->
  (forall v, In v (vinput_vdevices s) -> id v <> i) ->
  let vinput := created d (vinput_dev s) i in
  export_store x buf len s
  = (if init (ops d) i <? 0
     then vinput_destroy_vdevice vinput ;;; ret (init (ops d) i)
     else
       err <- device_register x vinput ;;
       if err <? 0
       then
         vinput_unregister_vdevice x vinput ;;;
         vinput_destroy_vdevice vinput ;;;
         ret err
       else
         err <- input_register_device x vinput ;;
         if err <? 0
         then
           device_unregister x vinput ;;;
           vinput_unregister_vdevice x vinput ;;;
           vinput_destroy_vdevice vinput ;;;
           ret err
         else ret len)
      {| vinput_ids := set_bit i (vinput_ids s);
         vinput_devices := vinput_devices s;
         vinput_vdevices := vinput :: vinput_vdevices s;
         vinput_dev := vinput_dev s;
         klog := klog s ++ [EvKzalloc; EvModuleGet; EvInputAllocate;
                            EvOpsInit (name d) i] |}.
Proof.
  intros Hlook Hk Hin i Hfree Hfresh vinput.
  unfold export_store.
  rewrite (bind_run _ _ s s s eq_refl). rewrite Hlook.
  rewrite (bind_run _ _ _ _ _
             (vinput_alloc_vdevice_ok x s Hk Hin Hfree Hfresh)).
  fold i.
  erewrite bind_run
    by (eapply store_head; [reflexivity | reflexivity | exact Hfresh]).
  erewrite bind_run.
  2:{ unfold vinput_register_vdevice. cbn [with_type input type].
      erewrite bind_run
        by (eapply store_head; [reflexivity | reflexivity | exact Hfresh]).
      unfold bind, log, modify, ret. reflexivity. }
  cbn [set_vdevices vinput_ids vinput_devices vinput_vdevices vinput_dev klog
       with_type with_input id type input dev name].
  repeat rewrite <- app_assoc. reflexivity.
Qed.

(** The run of [export_store] when every step succeeds. *)
Lemma export_store_all_steps x buf len s d :
  vinput_get_device_by_type buf s = inr d ->
  x_kzalloc_ok x = true ->
  x_input_allocate_ok x = true ->
  let i := find_first_zero_bit (vinput_ids s) VINPUT_MINORS in
  i < VINPUT_MINORS ->
  (forall v, In v (vinput_vdevices s) -> id v <> i) ->
  0 <= init (ops d) i ->
  0 <= x_device_register x ->
  0 <= x_input_register_device x ->
  export_store x buf len s
  = Done (len,
          {| vinput_ids := set_bit i (vinput_ids s);
             vinput_devices := vinput_devices s;
             vinput_vdevices := created d (vinput_dev s) i :: vinput_vdevices s;
             vinput_dev := vinput_dev s;
             klog := klog s ++ [EvKzalloc; EvModuleGet; EvInputAllocate;
                                EvOpsInit (name d) i;
                                EvDeviceRegister i; EvInputRegister i] |}).
Proof.
  intros Hlook Hk Hin i Hfree Hfresh Hinit Hdr Hir.
  rewrite (export_store_up_to_init x buf len s d Hlook Hk Hin Hfree Hfresh).
  fold i.
  destruct (Z.ltb_spec (init (ops d) i) 0) as [Hneg | _]; [lia|].
  unfold device_register, input_register_device. kunfold. cbn.
  destruct (Z.ltb_spec (x_device_register x) 0) as [Hneg | _]; [lia|].
  destruct (Z.ltb_spec (x_input_register_device x) 0) as [Hneg | _]; [lia|].
  cbn. repeat rewrite <- app_assoc. reflexivity.
Qed.
End Creation.

(** ** Unwinding and destruction step by step *)

Section Unwinding2.
Lemma vinput_unregister_vdevice_run x v s :
  live v s = true ->
  vinput_unregister_vdevice x v s
  = Done (tt,
          if x_input_unregister_releases x (id v) && dev_release (dev v)
          then {| vinput_ids := clear_bit (id v) (vinput_ids s);
                  vinput_devices := vinput_devices s;
                  vinput_vdevices := list_del v (vinput_vdevices s);
                  vinput_dev := vinput_dev s;
                  klog := klog s ++ [EvInputUnregister (id v);
                                     EvModulePut; EvKfree (id v)] |}
          else {| vinput_ids := vinput_ids s;
                  vinput_devices := vinput_devices s;
                  vinput_vdevices := vinput_vdevices s;
                  vinput_dev := vinput_dev s;
                  klog := klog s ++ [EvInputUnregister (id v)] |}).
Proof.
  intros Hlive. unfold vinput_unregister_vdevice. rewrite Hlive.
  unfold bind at 1, log, modify.
  destruct (x_input_unregister_releases x (id v) && dev_release (dev v)).
  - unfold vinput_release_dev.
    rewrite vinput_destroy_vdevice_run by exact Hlive.
    cbn. rewrite <- app_assoc. reflexivity.
  - reflexivity.
Qed.

Lemma not_live v s :
  (forall u, In u (vinput_vdevices s) -> id u <> id v) -> live v s = false.
Proof.
  intros Hfresh. unfold live.
  destruct (existsb (fun x => id x =? id v) (vinput_vdevices s)) eqn:Hex;
    [|reflexivity].
  apply existsb_exists in Hex. destruct Hex as (u & Hin & Hid).
  apply Z.eqb_eq in Hid. exfalso. exact (Hfresh u Hin Hid).
Qed.

Lemma list_del_ids v l :
  map id (list_del v l) = remove_first (id v) (map id l).
Proof.
  induction l as [| u l IH]; cbn; [reflexivity|].
  destruct (id u =? id v); [reflexivity|]. cbn. rewrite IH. reflexivity.
Qed.

Lemma remove_first_In i j l : In j (remove_first i l) -> In j l.
Proof.
  induction l as [| k l IH]; cbn; [tauto|].
  destruct (k =? i); cbn; tauto.
Qed.

Lemma remove_first_other i j l :
  In j l -> j <> i -> In j (remove_first i l).
Proof.
  induction l as [| k l IH]; cbn; [tauto|].
  intros [-> | Hin] Hne.
  - destruct (Z.eqb_spec j i); [contradiction | left; reflexivity].
  - destruct (k =? i); [exact Hin | right; apply IH; assumption].
Qed.

Lemma remove_first_NoDup i l : NoDup l -> NoDup (remove_first i l).
Proof.
  induction 1 as [| k l Hk Hnd IH]; cbn; [constructor|].
  destruct (k =? i); [exact Hnd|].
  constructor; [|exact IH].
  intros Hin. apply Hk. eapply remove_first_In, Hin.
Qed.

Lemma remove_first_gone i l : NoDup l -> ~ In i (remove_first i l).
Proof.
  induction 1 as [| k l Hk Hnd IH]; cbn; [tauto|].
  destruct (Z.eqb_spec k i) as [-> | Hne]; [exact Hk|].
  cbn. intros [Heq | Hin]; [contradiction | exact (IH Hin)].
Qed.

Lemma ids_sound_del bits l i :
  ids_sound bits l -> ids_sound (clear_bit i bits) (remove_first i l).
Proof.
  intros [Hnd Hbits]. split; [apply remove_first_NoDup; exact Hnd|].
  intros j Hj.
  assert (Hne : j <> i).
  { intros ->. exact (remove_first_gone i l Hnd Hj). }
  apply remove_first_In in Hj. destruct (Hbits j Hj) as [Hr Hset].
  split; [exact Hr|].
  rewrite BitmapFacts.testbit_clear_bit, Hset.
  destruct (Z.eqb_spec i j); [congruence | reflexivity].
Qed.

Lemma ids_sound_leak bits l i :
  0 <= i -> ids_sound bits l -> ids_sound (set_bit i bits) l.
Proof.
  intros Hi [Hnd Hbits]. split; [exact Hnd|].
  intros j Hj. destruct (Hbits j Hj) as [Hr Hset]. split; [exact Hr|].
  rewrite BitmapFacts.testbit_set_bit by exact Hi.
  rewrite Hset. apply orb_true_r.
Qed.
End Unwinding2.

(** ** The device number of a new instance *)

Section DeviceNumber.
Lemma lor_disjoint_add h i :
  0 <= i < 2 ^ 20 -> Z.lor (h * 2 ^ 20) i = h * 2 ^ 20 + i.
Proof.
  intros Hi.
  assert (Hland : Z.land (h * 2 ^ 20) i = 0).
  { apply Z.bits_inj'. intros n Hn.
    rewrite Z.land_spec, Z.bits_0.
    destruct (Z.lt_ge_cases n 20) as [Hlow | Hhigh].
    - rewrite Z.mul_pow2_bits_low by lia. reflexivity.
    - replace (Z.testbit i n) with false; [apply andb_false_r|].
      symmetry. destruct (Z.eq_dec i 0) as [-> | Hnz]; [apply Z.bits_0|].
      apply Z.bits_above_log2; [lia|].
      apply Z.log2_lt_pow2; [lia|].
      apply Z.lt_le_trans with (2 ^ 20); [lia|].
      apply Z.pow_le_mono_r; lia. }
  rewrite <- (Z.lxor_lor _ _ Hland).
  symmetry. apply Z.add_nocarry_lxor. exact Hland.
Qed.

(** The 32-bit shift keeps the low 12 bits of the major; the id fills
    the minor. *)
Lemma device_number ma mi :
  0 <= mi < VINPUT_MINORS ->
  u32 (MKDEV ma mi) = (ma mod 2 ^ 12) * 2 ^ 20 + mi.
Proof.
  intros Hmi. unfold VINPUT_MINORS in Hmi.
  unfold MKDEV, MINORBITS. unfold u32 at 2.
  rewrite Z.shiftl_mul_pow2 by lia.
  change (2 ^ 32) with (2 ^ 12 * 2 ^ 20) at 1.
  rewrite Z.mul_mod_distr_r by lia.
  rewrite lor_disjoint_add by lia.
  unfold u32. apply Z.mod_small.
  pose proof (Z.mod_pos_bound ma (2 ^ 12) ltac:(lia)) as Hh.
  lia.
Qed.
End DeviceNumber.

(** X11: when a provider matches, memory and the input device can be
    allocated, an id is free, and [init], [device_register] and
    [input_register_device] report no error, [export_store] returns
    the count it was given (a count that fits [ssize_t]); the new
    instance heads the list, has the lowest free id, is bound to the
    provider found and names its node [vinput<id>]; its device number,
    made by [MKDEV] on the 32 bits of [dev_t], has the low 12 bits of
    [vinput_dev] as major and the id as minor; the bit of the id is
    set; the outside calls are, in this order, the allocations, the
    provider's [init], [device_register], [input_register_device]. *)
Theorem export_store_creates_instance :
  forall (x : extern) (buf : string) (len : Z) (s : kstate)
         (d : vinput_device),
    0 <= len < two63 ->
    on_registry ids_sound s ->
    vinput_get_device_by_type buf s = inr d ->
    x_kzalloc_ok x = true ->
    x_input_allocate_ok x = true ->
    0 <= x_device_register x ->
    0 <= x_input_register_device x ->
    find_first_zero_bit (vinput_ids s) VINPUT_MINORS < VINPUT_MINORS ->
    0 <= init (ops d) (find_first_zero_bit (vinput_ids s) VINPUT_MINORS) ->
    exists s',
      export_store x buf len s = Done (len, s')
      /\ vinput_vdevices s'
         = created d (vinput_dev s)
             (find_first_zero_bit (vinput_ids s) VINPUT_MINORS)
           :: vinput_vdevices s
      /\ dev_name (dev (created d (vinput_dev s)
                          (find_first_zero_bit (vinput_ids s) VINPUT_MINORS)))
         = ("vinput" ++ decimal
              (find_first_zero_bit (vinput_ids s) VINPUT_MINORS))%string
      /\ devt (dev (created d (vinput_dev s)
                      (find_first_zero_bit (vinput_ids s) VINPUT_MINORS)))
         = (vinput_dev s mod 2 ^ 12) * 2 ^ 20
           + find_first_zero_bit (vinput_ids s) VINPUT_MINORS
      /\ vinput_ids s'
         = set_bit (find_first_zero_bit (vinput_ids s) VINPUT_MINORS)
             (vinput_ids s)
      /\ vinput_devices s' = vinput_devices s
      /\ klog s'
         = klog s
           ++ [EvKzalloc; EvModuleGet; EvInputAllocate;
               EvOpsInit (name d)
                 (find_first_zero_bit (vinput_ids s) VINPUT_MINORS);
               EvDeviceRegister
                 (find_first_zero_bit (vinput_ids s) VINPUT_MINORS);
               EvInputRegister
                 (find_first_zero_bit (vinput_ids s) VINPUT_MINORS)]
      /\ on_registry ids_sound s'.
Proof.
  intros x buf len s d Hlen Hsound Hlook Hk Hin Hdr Hir Hfree Hinit.
  eexists. split.
  - apply (export_store_all_steps x buf len s d Hlook Hk Hin Hfree
             (ids_sound_fresh s Hsound Hfree) Hinit Hdr Hir).
  - cbn [vinput_vdevices vinput_ids vinput_devices klog].
    do 2 (split; [reflexivity|]).
    split.
    { cbn [created dev devt]. apply device_number.
      destruct (BitmapFacts.find_first_zero_bit_spec
                  (vinput_ids s) VINPUT_MINORS)
        as (Hrange & _); [unfold VINPUT_MINORS; lia|].
      lia. }
    do 3 (split; [reflexivity|]).
    unfold on_registry. cbn [vinput_vdevices vinput_ids map created id].
    apply (ids_sound_add _ _ Hsound Hfree).
Qed.

Lemma export_store_creates_instance_witness :
  0 <= 5 < two63
  /\ on_registry ids_sound Scenario.after_failed_chrdev
  /\ vinput_dev Scenario.after_failed_chrdev = 4294967280
  /\ exists s',
       export_store Sample.all_ok "vkbd" 5 Scenario.after_failed_chrdev
       = Done (5, s')
       /\ map id (vinput_vdevices s') = [0]
       /\ map (fun v => devt (dev v)) (vinput_vdevices s') = [4278190080]
       /\ vinput_ids s' = 1.
Proof.
  assert (Hlen : 0 <= 5 < two63) by (unfold two63; lia).
  assert (Hsound : on_registry ids_sound Scenario.after_failed_chrdev).
  { split; [constructor | intros i []]. }
  split; [exact Hlen|]. split; [exact Hsound|]. split; [reflexivity|].
  destruct (export_store_creates_instance
              Sample.all_ok "vkbd" 5 Scenario.after_failed_chrdev Sample.vkbd
              Hlen Hsound eq_refl eq_refl eq_refl)
    as (s' & Hrun & Hvd & _ & _ & Hids & _).
  - simpl. lia.
  - simpl. lia.
  - vm_compute. reflexivity.
  - vm_compute. discriminate.
  - exists s'. split; [exact Hrun|]. split; [|split].
    + rewrite Hvd. reflexivity.
    + rewrite Hvd. vm_compute. reflexivity.
    + rewrite Hids. reflexivity.
Defined.

(** X12: an [export_store] that returns a count has put an instance
    at the head of the list whose id is the lowest id that was clear in
    the bitmap: the bit of the id was clear, the bits of all lower ids
    were set, and the bit of the id is set afterwards. *)
Theorem successful_create_takes_lowest_free_id :
  forall (x : extern) (buf : string) (len : Z) (s : kstate)
         (r : Z) (s' : kstate),
    export_store x buf len s = Done (r, s') ->
    0 <= r ->
    exists i,
      0 <= i < VINPUT_MINORS
      /\ r = len
      /\ map id (vinput_vdevices s') = i :: map id (vinput_vdevices s)
      /\ Z.testbit (vinput_ids s) i = false
      /\ (forall j, 0 <= j < i -> Z.testbit (vinput_ids s) j = true)
      /\ vinput_ids s' = set_bit i (vinput_ids s).
Proof.
  intros x buf len s r s' Hrun Hr.
  exists (find_first_zero_bit (vinput_ids s) VINPUT_MINORS).
  pose proof (export_store_success_ids _ _ _ _ _ _ Hrun Hr) as Hl.
  destruct (export_store_success _ _ _ _ _ _ Hrun Hr)
    as (Hlen & Hfree & Hids & _).
  destruct (BitmapFacts.find_first_zero_bit_spec (vinput_ids s) VINPUT_MINORS)
    as (Hrange & Hclear & Hlow); [unfold VINPUT_MINORS; lia|].
  repeat split; try assumption; try lia.
  apply Hclear. exact Hfree.
Qed.

Lemma successful_create_takes_lowest_free_id_witness :
  export_store Sample.all_ok "vkbd" 5 Sample.second_live
  = Done (5, Sample.state_of
               (export_store Sample.all_ok "vkbd" 5 Sample.second_live))
  /\ exists i,
       0 <= i < VINPUT_MINORS
       /\ 5 = 5
       /\ map id (vinput_vdevices
                    (Sample.state_of
                       (export_store Sample.all_ok "vkbd" 5 Sample.second_live)))
          = i :: map id (vinput_vdevices Sample.second_live)
       /\ Z.testbit (vinput_ids Sample.second_live) i = false
       /\ (forall j, 0 <= j < i ->
             Z.testbit (vinput_ids Sample.second_live) j = true)
       /\ vinput_ids (Sample.state_of
                        (export_store Sample.all_ok "vkbd" 5 Sample.second_live))
          = set_bit i (vinput_ids Sample.second_live).
Proof.
  assert (Hrun : export_store Sample.all_ok "vkbd" 5 Sample.second_live
                 = Done (5, Sample.state_of
                              (export_store Sample.all_ok "vkbd" 5
                                 Sample.second_live)))
    by (vm_compute; reflexivity).
  split; [exact Hrun|].
  apply (successful_create_takes_lowest_free_id _ _ _ _ _ _ Hrun). lia.
Defined.

(** X13: [unexport_store] of the id of a live instance, on a driver
    core that releases the node when the input device gives up its
    reference, returns the count it was given; the instance is off the
    list, the bit of its id is clear, the other ids stay on the list
    and the providers are untouched; the outside calls are
    [device_unregister], then [input_unregister_device], then the
    release of the module reference and of the memory. *)
Theorem unexport_store_destroys_instance :
  forall (x : extern) (i len : Z) (s : kstate),
    on_registry ids_sound s ->
    reachable i s ->
    (forall v, In v (vinput_vdevices s) -> dev_release (dev v) = true) ->
    x_device_unregister_releases x i = false ->
    x_input_unregister_releases x i = true ->
    exists s',
      unexport_store x (Some i) len s = Done (len, s')
      /\ map id (vinput_vdevices s')
         = remove_first i (map id (vinput_vdevices s))
      /\ ~ reachable i s'
      /\ vinput_ids s' = clear_bit i (vinput_ids s)
      /\ Z.testbit (vinput_ids s') i = false
      /\ vinput_devices s' = vinput_devices s
      /\ klog s'
         = klog s ++ [EvDeviceUnregister i; EvInputUnregister i;
                      EvModulePut; EvKfree i]
      /\ on_registry ids_sound s'.
Proof.
  intros x i len s Hsound (v0 & Hin0 & Hid0) Hhook Hdev Hinp.
  assert (Hne : vinput_vdevices s <> []).
  { intros Hnil. rewrite Hnil in Hin0. exact Hin0. }
  destruct (vinput_get_vdevice_by_id_nonempty i s Hne)
    as [(v & Hin & Hid & Hlook) | [Hno _]];
    [|exfalso; exact (Hno v0 Hin0 Hid0)].
  unfold unexport_store.
  rewrite (bind_run _ _ _ _ _ Hlook).
  rewrite (bind_run _ _ _ _ _
             (device_unregister_run x v s (live_In v s Hin))).
  unfold released. rewrite Hid, Hdev. cbn [andb].
  erewrite bind_run.
  2:{ apply vinput_unregister_vdevice_run. apply live_In. exact Hin. }
  rewrite Hid, Hinp, (Hhook v Hin). cbn [andb].
  cbn [vinput_ids vinput_devices vinput_vdevices vinput_dev klog].
  eexists. split; [reflexivity|].
  cbn [vinput_ids vinput_devices vinput_vdevices vinput_dev klog].
  destruct Hsound as [Hnd Hbits].
  split; [rewrite list_del_ids, Hid; reflexivity|].
  split.
  { rewrite reachable_ids. cbn [vinput_vdevices].
    rewrite list_del_ids, Hid. apply remove_first_gone. exact Hnd. }
  split; [reflexivity|].
  split; [apply BitmapFacts.testbit_clear_bit_same|].
  split; [reflexivity|].
  split; [rewrite <- app_assoc; reflexivity|].
  unfold on_registry. cbn [vinput_ids vinput_vdevices].
  rewrite list_del_ids, Hid. apply ids_sound_del. split; assumption.
Qed.

Lemma unexport_store_destroys_instance_witness :
  on_registry ids_sound Sample.two_live
  /\ reachable 0 Sample.two_live
  /\ exists s',
       unexport_store Sample.all_ok (Some 0) 2 Sample.two_live = Done (2, s')
       /\ map id (vinput_vdevices s') = [1]
       /\ Z.testbit (vinput_ids s') 0 = false.
Proof.
  assert (Hsound : on_registry ids_sound Sample.two_live).
  { split.
    - vm_compute. repeat constructor; simpl; intuition discriminate.
    - intros i Hi. vm_compute in Hi. destruct Hi as [<- | [<- | []]];
        (split; [unfold VINPUT_MINORS; lia | reflexivity]). }
  assert (Hreach : reachable 0 Sample.two_live).
  { eexists. split; [right; left; reflexivity | reflexivity]. }
  split; [exact Hsound|]. split; [exact Hreach|].
  destruct (unexport_store_destroys_instance
              Sample.all_ok 0 2 Sample.two_live Hsound Hreach)
    as (s' & Hrun & Hl & _ & _ & Hbit & _).
  - intros v Hv. vm_compute in Hv.
    destruct Hv as [<- | [<- | []]]; reflexivity.
  - reflexivity.
  - reflexivity.
  - exists s'. split; [exact Hrun|]. split; [|exact Hbit].
    rewrite Hl. reflexivity.
Defined.

(** X14: a create that succeeds, followed by the destroy of the id it
    took, leaves the bitmap, the instance list and the provider list as
    they were before the create. *)
Theorem create_then_destroy_restores_registries :
  forall (x1 x2 : extern) (buf : string) (len len2 : Z) (s : kstate)
         (d : vinput_device),
    on_registry ids_sound s ->
    vinput_get_device_by_type buf s = inr d ->
    x_kzalloc_ok x1 = true ->
    x_input_allocate_ok x1 = true ->
    0 <= x_device_register x1 ->
    0 <= x_input_register_device x1 ->
    find_first_zero_bit (vinput_ids s) VINPUT_MINORS < VINPUT_MINORS ->
    0 <= init (ops d) (find_first_zero_bit (vinput_ids s) VINPUT_MINORS) ->
    x_device_unregister_releases x2
      (find_first_zero_bit (vinput_ids s) VINPUT_MINORS) = false ->
    x_input_unregister_releases x2
      (find_first_zero_bit (vinput_ids s) VINPUT_MINORS) = true ->
    exists s1 s2,
      export_store x1 buf len s = Done (len, s1)
      /\ unexport_store x2
           (Some (find_first_zero_bit (vinput_ids s) VINPUT_MINORS)) len2 s1
         = Done (len2, s2)
      /\ registries s2 = registries s.
Proof.
  intros x1 x2 buf len len2 s d Hsound Hlook Hk Hin Hdr Hir Hfree Hinit
         Hdev Hinp.
  set (i := find_first_zero_bit (vinput_ids s) VINPUT_MINORS) in *.
  pose proof (ids_sound_fresh s Hsound Hfree) as Hfresh. fold i in Hfresh.
  destruct (BitmapFacts.find_first_zero_bit_spec (vinput_ids s) VINPUT_MINORS)
    as (Hrange & Hclear & _); [unfold VINPUT_MINORS; lia|].
  fold i in Hrange, Hclear.
  eexists. eexists. split.
  { apply (export_store_all_steps x1 buf len s d Hlook Hk Hin Hfree
             Hfresh Hinit Hdr Hir). }
  fold i. set (v := created d (vinput_dev s) i).
  set (s1 := {| vinput_ids := set_bit i (vinput_ids s);
                vinput_devices := vinput_devices s;
                vinput_vdevices := v :: vinput_vdevices s;
                vinput_dev := vinput_dev s;
                klog := _ |}).
  assert (Hlive : live v s1 = true).
  { apply live_In. left. reflexivity. }
  assert (Hlook1 : vinput_get_vdevice_by_id i s1 = Done (inr v, s1)).
  { unfold vinput_get_vdevice_by_id. cbn [s1 vinput_vdevices scan_by_id v
      created id]. rewrite !Z.eqb_refl. reflexivity. }
  unfold unexport_store.
  rewrite (bind_run _ _ _ _ _ Hlook1).
  rewrite (bind_run _ _ _ _ _ (device_unregister_run x2 v s1 Hlive)).
  unfold released.
  change (id v) with i. rewrite Hdev. cbn [andb].
  erewrite bind_run by (apply vinput_unregister_vdevice_run; exact Hlive).
  change (id v) with i. rewrite Hinp. cbn [andb v created dev dev_release].
  split; [reflexivity|].
  unfold registries.
  cbn [s1 vinput_ids vinput_devices vinput_vdevices list_del v created id].
  rewrite Z.eqb_refl.
  rewrite BitmapFacts.clear_set_bit by (try apply Hclear; lia).
  reflexivity.
Qed.

Lemma create_then_destroy_restores_registries_witness :
  on_registry ids_sound Sample.one_live
  /\ exists s1 s2,
       export_store Sample.all_ok "vkbd" 5 Sample.one_live = Done (5, s1)
       /\ unexport_store Sample.all_ok
            (Some (find_first_zero_bit (vinput_ids Sample.one_live)
                     VINPUT_MINORS)) 2 s1
          = Done (2, s2)
       /\ registries s2 = registries Sample.one_live.
Proof.
  assert (Hsound : on_registry ids_sound Sample.one_live).
  { split.
    - repeat constructor. intros [].
    - intros i Hi. vm_compute in Hi. destruct Hi as [<- | []].
      split; [unfold VINPUT_MINORS; lia | reflexivity]. }
  split; [exact Hsound|].
  apply (create_then_destroy_restores_registries
           Sample.all_ok Sample.all_ok "vkbd" 5 2 Sample.one_live Sample.vkbd
           Hsound eq_refl eq_refl eq_refl).
  - simpl. lia.
  - simpl. lia.
  - vm_compute. reflexivity.
  - vm_compute. discriminate.
  - reflexivity.
  - reflexivity.
Defined.

(** X15: when the provider's [init] reports an error,
    [export_store] returns that error and the bitmap, the instance list
    and the provider list are as before the call: the id is free
    again. *)
Theorem failed_init_rolls_back :
  forall (x : extern) (buf : string) (len : Z) (s : kstate)
         (d : vinput_device),
    on_registry ids_sound s ->
    vinput_get_device_by_type buf s = inr d ->
    x_kzalloc_ok x = true ->
    x_input_allocate_ok x = true ->
    find_first_zero_bit (vinput_ids s) VINPUT_MINORS < VINPUT_MINORS ->
    init (ops d) (find_first_zero_bit (vinput_ids s) VINPUT_MINORS) < 0 ->
    exists s',
      export_store x buf len s
      = Done (init (ops d)
                (find_first_zero_bit (vinput_ids s) VINPUT_MINORS), s')
      /\ registries s' = registries s
      /\ klog s'
         = klog s
           ++ [EvKzalloc; EvModuleGet; EvInputAllocate;
               EvOpsInit (name d)
                 (find_first_zero_bit (vinput_ids s) VINPUT_MINORS);
               EvModulePut;
               EvKfree (find_first_zero_bit (vinput_ids s) VINPUT_MINORS)].
Proof.
  intros x buf len s d Hsound Hlook Hk Hin Hfree Hinit.
  set (i := find_first_zero_bit (vinput_ids s) VINPUT_MINORS) in *.
  pose proof (ids_sound_fresh s Hsound Hfree) as Hfresh. fold i in Hfresh.
  destruct (BitmapFacts.find_first_zero_bit_spec (vinput_ids s) VINPUT_MINORS)
    as (Hrange & Hclear & _); [unfold VINPUT_MINORS; lia|].
  fold i in Hrange, Hclear.
  rewrite (export_store_up_to_init x buf len s d Hlook Hk Hin Hfree Hfresh).
  fold i.
  destruct (Z.ltb_spec (init (ops d) i) 0) as [_ | Hge]; [|lia].
  erewrite bind_run
    by (apply vinput_destroy_vdevice_run; apply live_In; left; reflexivity).
  eexists. split; [reflexivity|].
  unfold registries.
  cbn [vinput_ids vinput_devices vinput_vdevices klog list_del created id].
  rewrite Z.eqb_refl.
  rewrite BitmapFacts.clear_set_bit by (try apply Hclear; lia).
  split; [reflexivity|]. rewrite <- app_assoc. reflexivity.
Qed.

Lemma failed_init_rolls_back_witness :
  on_registry ids_sound Scenario.with_vbroken
  /\ exists s',
       export_store Sample.all_ok "vbroken" 8 Scenario.with_vbroken
       = Done (init (ops Scenario.vbroken)
                 (find_first_zero_bit (vinput_ids Scenario.with_vbroken)
                    VINPUT_MINORS), s')
       /\ registries s' = registries Scenario.with_vbroken
       /\ klog s'
          = klog Scenario.with_vbroken
            ++ [EvKzalloc; EvModuleGet; EvInputAllocate;
                EvOpsInit (name Scenario.vbroken)
                  (find_first_zero_bit (vinput_ids Scenario.with_vbroken)
                     VINPUT_MINORS);
                EvModulePut;
                EvKfree (find_first_zero_bit (vinput_ids Scenario.with_vbroken)
                           VINPUT_MINORS)].
Proof.
  assert (Hsound : on_registry ids_sound Scenario.with_vbroken).
  { split; [constructor | intros i []]. }
  split; [exact Hsound|].
  apply (failed_init_rolls_back Sample.all_ok "vbroken" 8
           Scenario.with_vbroken Scenario.vbroken Hsound
           eq_refl eq_refl eq_refl).
  - vm_compute. reflexivity.
  - vm_compute. reflexivity.
Defined.

(** X16: when [device_register] or [input_register_device] reports an
    error and the driver core releases nothing while [export_store]
    unwinds, [export_store] returns that error and the bitmap, the
    instance list and the provider list are as before the call. *)
Theorem failed_registration_rolls_back :
  forall (x : extern) (buf : string) (len : Z) (s : kstate)
         (d : vinput_device),
    on_registry ids_sound s ->
    vinput_get_device_by_type buf s = inr d ->
    x_kzalloc_ok x = true ->
    x_input_allocate_ok x = true ->
    find_first_zero_bit (vinput_ids s) VINPUT_MINORS < VINPUT_MINORS ->
    0 <= init (ops d) (find_first_zero_bit (vinput_ids s) VINPUT_MINORS) ->
    x_device_register x < 0 \/ x_input_register_device x < 0 ->
    x_device_unregister_releases x
      (find_first_zero_bit (vinput_ids s) VINPUT_MINORS) = false ->
    x_input_unregister_releases x
      (find_first_zero_bit (vinput_ids s) VINPUT_MINORS) = false ->
    exists s',
      export_store x buf len s
      = Done (if x_device_register x <? 0 then x_device_register x
              else x_input_register_device x, s')
      /\ registries s' = registries s.
Proof.
  intros x buf len s d Hsound Hlook Hk Hin Hfree Hinit Hfail Hdev Hinp.
  set (i := find_first_zero_bit (vinput_ids s) VINPUT_MINORS) in *.
  pose proof (ids_sound_fresh s Hsound Hfree) as Hfresh. fold i in Hfresh.
  destruct (BitmapFacts.find_first_zero_bit_spec (vinput_ids s) VINPUT_MINORS)
    as (Hrange & Hclear & _); [unfold VINPUT_MINORS; lia|].
  fold i in Hrange, Hclear.
  rewrite (export_store_up_to_init x buf len s d Hlook Hk Hin Hfree Hfresh).
  fold i. set (v := created d (vinput_dev s) i).
  destruct (Z.ltb_spec (init (ops d) i) 0) as [Hneg | _]; [lia|].
  rewrite (bind_run _ _ _ _ _ eq_refl). cbv beta.
  destruct (Z.ltb_spec (x_device_register x) 0) as [Hdr | Hdr].
  - erewrite bind_run
      by (apply vinput_unregister_vdevice_run; apply live_In; left; reflexivity).
    change (id v) with i. rewrite Hinp. cbn [andb].
    erewrite bind_run
      by (apply vinput_destroy_vdevice_run; apply live_In; left; reflexivity).
    eexists. split; [reflexivity|].
    unfold registries.
    cbn [vinput_ids vinput_devices vinput_vdevices list_del v created id].
    rewrite Z.eqb_refl.
    rewrite BitmapFacts.clear_set_bit by (try apply Hclear; lia).
    reflexivity.
  - rewrite (bind_run _ _ _ _ _ eq_refl). cbv beta.
    destruct (Z.ltb_spec (x_input_register_device x) 0) as [Hir | Hir];
      [|lia].
    erewrite bind_run
      by (apply device_unregister_run; apply live_In; left; reflexivity).
    unfold released. change (id v) with i. rewrite Hdev. cbn [andb].
    erewrite bind_run
      by (apply vinput_unregister_vdevice_run; apply live_In; left; reflexivity).
    change (id v) with i. rewrite Hinp. cbn [andb].
    erewrite bind_run
      by (apply vinput_destroy_vdevice_run; apply live_In; left; reflexivity).
    eexists. split; [reflexivity|].
    unfold registries.
    cbn [vinput_ids vinput_devices vinput_vdevices list_del v created id].
    rewrite Z.eqb_refl.
    rewrite BitmapFacts.clear_set_bit by (try apply Hclear; lia).
    reflexivity.
Qed.

Lemma failed_registration_rolls_back_witness :
  on_registry ids_sound Sample.one_live
  /\ exists s',
       export_store Scenario.no_node "vkbd" 5 Sample.one_live
       = Done (if x_device_register Scenario.no_node <? 0
               then x_device_register Scenario.no_node
               else x_input_register_device Scenario.no_node, s')
       /\ registries s' = registries Sample.one_live.
Proof.
  assert (Hsound : on_registry ids_sound Sample.one_live).
  { split.
    - repeat constructor. intros [].
    - intros i Hi. vm_compute in Hi. destruct Hi as [<- | []].
      split; [unfold VINPUT_MINORS; lia | reflexivity]. }
  split; [exact Hsound|].
  apply (failed_registration_rolls_back Scenario.no_node "vkbd" 5
           Sample.one_live Sample.vkbd Hsound eq_refl eq_refl eq_refl).
  - vm_compute. reflexivity.
  - vm_compute. discriminate.
  - left. vm_compute. reflexivity.
  - reflexivity.
  - reflexivity.
Defined.

(** X17: when a registration fails and the driver core releases the
    node while [export_store] unwinds (the release hook is
    [vinput_release_dev], which destroys and frees the instance), the
    unwinding goes on to use the freed instance and to destroy it a
    second time: the run faults. *)
Theorem release_while_unwinding_faults :
  forall (x : extern) (buf : string) (len : Z) (s : kstate)
         (d : vinput_device),
    on_registry ids_sound s ->
    vinput_get_device_by_type buf s = inr d ->
    x_kzalloc_ok x = true ->
    x_input_allocate_ok x = true ->
    find_first_zero_bit (vinput_ids s) VINPUT_MINORS < VINPUT_MINORS ->
    0 <= init (ops d) (find_first_zero_bit (vinput_ids s) VINPUT_MINORS) ->
    (x_device_register x < 0
     /\ x_input_unregister_releases x
          (find_first_zero_bit (vinput_ids s) VINPUT_MINORS) = true)
    \/ (0 <= x_device_register x
        /\ x_input_register_device x < 0
        /\ (x_device_unregister_releases x
              (find_first_zero_bit (vinput_ids s) VINPUT_MINORS) = true
            \/ x_input_unregister_releases x
                 (find_first_zero_bit (vinput_ids s) VINPUT_MINORS) = true)) ->
    export_store x buf len s = Fault.
Proof.
  intros x buf len s d Hsound Hlook Hk Hin Hfree Hinit Hcases.
  set (i := find_first_zero_bit (vinput_ids s) VINPUT_MINORS) in *.
  pose proof (ids_sound_fresh s Hsound Hfree) as Hfresh. fold i in Hfresh.
  rewrite (export_store_up_to_init x buf len s d Hlook Hk Hin Hfree Hfresh).
  fold i. set (v := created d (vinput_dev s) i).
  assert (Hgone : forall s0, vinput_vdevices s0 = vinput_vdevices s ->
                    live v s0 = false).
  { intros s0 Hs0. apply not_live. rewrite Hs0. exact Hfresh. }
  destruct (Z.ltb_spec (init (ops d) i) 0) as [Hneg | _]; [lia|].
  rewrite (bind_run _ _ _ _ _ eq_refl). cbv beta.
  destruct Hcases as [[Hdr Hinp] | (Hdr & Hir & Hrel)].
  - destruct (Z.ltb_spec (x_device_register x) 0) as [_ | Hge]; [|lia].
    erewrite bind_run
      by (apply vinput_unregister_vdevice_run; apply live_In; left; reflexivity).
    change (id v) with i. rewrite Hinp. cbn [andb v created dev dev_release].
    unfold bind, vinput_destroy_vdevice.
    rewrite Hgone; [reflexivity|].
    cbn [vinput_vdevices list_del created id]. rewrite Z.eqb_refl.
    reflexivity.
  - destruct (Z.ltb_spec (x_device_register x) 0) as [Hlt | _]; [lia|].
    rewrite (bind_run _ _ _ _ _ eq_refl). cbv beta.
    destruct (Z.ltb_spec (x_input_register_device x) 0) as [_ | Hge]; [|lia].
    erewrite bind_run
      by (apply device_unregister_run; apply live_In; left; reflexivity).
    unfold released. change (id v) with i.
    destruct (x_device_unregister_releases x i) eqn:Hdev.
    + cbn [andb v created dev dev_release].
      unfold bind, vinput_unregister_vdevice.
      rewrite Hgone; [reflexivity|].
      cbn [vinput_vdevices list_del created id]. rewrite Z.eqb_refl.
      reflexivity.
    + destruct Hrel as [Habs | Hinp]; [discriminate|].
      cbn [andb].
      erewrite bind_run
        by (apply vinput_unregister_vdevice_run; apply live_In; left;
            reflexivity).
      change (id v) with i. rewrite Hinp. cbn [andb v created dev dev_release].
      unfold bind, vinput_destroy_vdevice.
      rewrite Hgone; [reflexivity|].
      cbn [vinput_vdevices list_del created id]. rewrite Z.eqb_refl.
      reflexivity.
Qed.

Lemma release_while_unwinding_faults_witness :
  on_registry ids_sound Sample.with_vkbd
  /\ export_store Scenario.no_input_node "vkbd" 5 Sample.with_vkbd = Fault.
Proof.
  assert (Hsound : on_registry ids_sound Sample.with_vkbd).
  { split; [constructor | intros i []]. }
  split; [exact Hsound|].
  apply (release_while_unwinding_faults Scenario.no_input_node "vkbd" 5
           Sample.with_vkbd Sample.vkbd Hsound eq_refl eq_refl eq_refl).
  - vm_compute. reflexivity.
  - vm_compute. discriminate.
  - right. split; [simpl; lia|]. split; [vm_compute; reflexivity|].
    left. reflexivity.
Defined.

(** ** Exhaustion of the ids *)

Section Exhaustion.
(** The three ways [vinput_alloc_vdevice] can end. *)
Lemma vinput_alloc_vdevice_cases x s r s' :
  vinput_alloc_vdevice x s = Done (r, s') ->
  let i := find_first_zero_bit (vinput_ids s) VINPUT_MINORS in
  (r = ERR_PTR (- ENOBUFS) /\ VINPUT_MINORS <= i
   /\ vinput_ids s' = vinput_ids s
   /\ vinput_vdevices s' = vinput_vdevices s)
  \/ (r = ERR_PTR (- ENOMEM) /\ i < VINPUT_MINORS
      /\ x_input_allocate_ok x = false
      /\ vinput_ids s' = set_bit i (vinput_ids s)
      /\ map id (vinput_vdevices s') = map id (vinput_vdevices s))
  \/ (exists v, r = inr v /\ i < VINPUT_MINORS /\ id v = i
      /\ vinput_ids s' = set_bit i (vinput_ids s)
      /\ map id (vinput_vdevices s') = i :: map id (vinput_vdevices s)).
Proof.
  unfold vinput_alloc_vdevice. kunfold. cbn.
  destruct (x_kzalloc_ok x); cbn; [|discriminate].
  destruct (Z.geb_spec (find_first_zero_bit (vinput_ids s) VINPUT_MINORS)
                       VINPUT_MINORS) as [Hfull | Hfree].
  - intros H. injection H as <- <-. left. cbn. repeat split; lia.
  - destruct (x_input_allocate_ok x); cbn.
    + unfold store, live. cbn. rewrite Z.eqb_refl. cbn.
      intros H. injection H as <- <-. right. right. eexists.
      split; [reflexivity|]. cbn. rewrite Z.eqb_refl. cbn.
      repeat split; try lia. f_equal. rewrite map_map.
      apply map_ext. intros w.
      destruct (Z.eqb_spec (id w)
                  (find_first_zero_bit (vinput_ids s) VINPUT_MINORS));
        [symmetry; assumption | reflexivity].
    + intros H. injection H as <- <-. right. left. cbn.
      rewrite Z.eqb_refl. repeat split; lia.
Qed.

Lemma weight_from_of_full bits n : forall i,
  ffz_from bits i n = i + Z.of_nat n -> weight_from bits i n = n.
Proof.
  induction n as [| n IH]; intros i; cbn [ffz_from weight_from];
    [reflexivity|].
  pose proof (BitmapFacts.ffz_from_range bits n (i + 1)) as Hr.
  destruct (Z.testbit bits i); intros H.
  - rewrite IH by lia. reflexivity.
  - lia.
Qed.

Lemma bitmap_weight_of_full bits :
  VINPUT_MINORS <= find_first_zero_bit bits VINPUT_MINORS ->
  bitmap_weight bits VINPUT_MINORS = 32%nat.
Proof.
  intros H. unfold bitmap_weight, find_first_zero_bit in *.
  change (Z.to_nat VINPUT_MINORS) with 32%nat in *.
  pose proof (BitmapFacts.ffz_from_range bits 32 0) as Hr.
  apply weight_from_of_full. unfold VINPUT_MINORS in H. lia.
Qed.

Lemma lookup_by_type_same_devices buf s s0 :
  vinput_devices s = vinput_devices s0 ->
  vinput_get_device_by_type buf s = vinput_get_device_by_type buf s0.
Proof. unfold vinput_get_device_by_type. intros ->. reflexivity. Qed.

(** One create during which [input_allocate_device] fails. *)
Lemma export_store_leaks_or_is_full x buf len s d :
  vinput_get_device_by_type buf s = inr d ->
  x_kzalloc_ok x = true ->
  x_input_allocate_ok x = false ->
  exists r s',
    export_store x buf len s = Done (r, s')
    /\ (r = - ENOMEM \/ r = - ENOBUFS)
    /\ vinput_vdevices s' = vinput_vdevices s
    /\ vinput_devices s' = vinput_devices s
    /\ (bitmap_weight (vinput_ids s') VINPUT_MINORS = 32%nat
        \/ bitmap_weight (vinput_ids s') VINPUT_MINORS
           = S (bitmap_weight (vinput_ids s) VINPUT_MINORS)).
Proof.
  intros Hlook Hk Hin.
  destruct (Z_lt_le_dec (find_first_zero_bit (vinput_ids s) VINPUT_MINORS)
                        VINPUT_MINORS) as [Hfree | Hfull].
  - destruct (export_store_input_failure x buf len s d Hlook Hk Hin Hfree)
      as (s' & Hrun & Hvd & Hdevs & Hids & _).
    exists (- ENOMEM), s'. split; [exact Hrun|]. split; [left; reflexivity|].
    split; [exact Hvd|]. split; [exact Hdevs|]. right.
    rewrite Hids. apply BitmapFacts.bitmap_weight_set_free. exact Hfree.
  - assert (Heq : find_first_zero_bit (vinput_ids s) VINPUT_MINORS
                  = VINPUT_MINORS).
    { destruct (BitmapFacts.find_first_zero_bit_spec (vinput_ids s)
                  VINPUT_MINORS) as (Hr & _); [unfold VINPUT_MINORS|]; lia. }
    destruct (export_store_exhausted x buf len s Hk Heq)
      as (s' & Hrun & Hreg).
    rewrite Hlook in Hrun. unfold registries in Hreg.
    injection Hreg as Hids Hvd Hdevs.
    exists (- ENOBUFS), s'. split; [exact Hrun|]. split; [right; reflexivity|].
    split; [exact Hvd|]. split; [exact Hdevs|]. left.
    rewrite Hids. apply bitmap_weight_of_full. exact Hfull.
Qed.

Lemma failing_creates_run cs : forall s0 s,
  vinput_devices s = vinput_devices s0 ->
  Forall (fun c => exists x buf len d,
            c = Export x buf len
            /\ x_kzalloc_ok x = true
            /\ x_input_allocate_ok x = false
            /\ vinput_get_device_by_type buf s0 = inr d) cs ->
  exists rs s',
    run_commands cs s = Done (rs, s')
    /\ Forall (fun r => r = - ENOMEM \/ r = - ENOBUFS) rs
    /\ vinput_vdevices s' = vinput_vdevices s
    /\ vinput_devices s' = vinput_devices s0
    /\ (bitmap_weight (vinput_ids s') VINPUT_MINORS = 32%nat
        \/ bitmap_weight (vinput_ids s') VINPUT_MINORS
           = (bitmap_weight (vinput_ids s) VINPUT_MINORS + List.length cs)%nat).
Proof.
  induction cs as [| c cs IH]; intros s0 s Hdevs Hall.
  - exists [], s. split; [reflexivity|]. split; [constructor|].
    split; [reflexivity|]. split; [exact Hdevs|]. right. cbn. lia.
  - inversion Hall as [| c' cs' (x & buf & len & d & -> & Hk & Hin & Hlook)
                         Hrest]; subst.
    rewrite <- (lookup_by_type_same_devices buf s s0 Hdevs) in Hlook.
    destruct (export_store_leaks_or_is_full x buf len s d Hlook Hk Hin)
      as (r & s1 & Hrun & Hr & Hvd & Hdevs1 & Hw).
    destruct (IH s0 s1 (eq_trans Hdevs1 Hdevs) Hrest)
      as (rs & s' & Hruns & Hrs & Hvd' & Hdevs' & Hw').
    exists (r :: rs), s'. split.
    { cbn [run_commands run_command].
      rewrite (bind_run _ _ _ _ _ Hrun), (bind_run _ _ _ _ _ Hruns).
      reflexivity. }
    split; [constructor; assumption|].
    split; [congruence|]. split; [exact Hdevs'|].
    pose proof (BitmapFacts.weight_from_le (vinput_ids s') 32 0) as Hle.
    unfold bitmap_weight in *.
    change (Z.to_nat VINPUT_MINORS) with 32%nat in *.
    cbn [List.length]. lia.
Qed.
End Exhaustion.

(** X18: [vinput_alloc_vdevice] returns [ERR_PTR (-ENOBUFS)] exactly
    when all 32 bits of the bitmap are set, and then it changes neither
    the bitmap nor the instance list. *)
Theorem alloc_reports_exhaustion_exactly_when_full :
  forall (x : extern) (s : kstate) (r : ptr_or_err vinput) (s' : kstate),
    vinput_alloc_vdevice x s = Done (r, s') ->
    (r = ERR_PTR (- ENOBUFS)
     <-> forall i, 0 <= i < VINPUT_MINORS -> Z.testbit (vinput_ids s) i = true)
    /\ (r = ERR_PTR (- ENOBUFS) ->
        vinput_ids s' = vinput_ids s
        /\ vinput_vdevices s' = vinput_vdevices s).
Proof.
  intros x s r s' Hrun.
  destruct (BitmapFacts.find_first_zero_bit_spec (vinput_ids s) VINPUT_MINORS)
    as (Hrange & Hclear & Hlow); [unfold VINPUT_MINORS; lia|].
  destruct (vinput_alloc_vdevice_cases x s r s' Hrun)
    as [(-> & Hfull & Hids & Hvd)
        | [(-> & Hfree & _) | (v & -> & Hfree & _)]].
  - split; [|intros _; split; assumption].
    split; [|reflexivity]. intros _ i Hi. apply Hlow. lia.
  - split; [|intros H; discriminate H].
    split; [intros H; discriminate H|].
    intros Hall. specialize (Hclear Hfree).
    rewrite Hall in Hclear by lia. discriminate.
  - split; [|intros H; discriminate H].
    split; [intros H; discriminate H|].
    intros Hall. specialize (Hclear Hfree).
    rewrite Hall in Hclear by lia. discriminate.
Qed.

Lemma alloc_reports_exhaustion_exactly_when_full_witness :
  vinput_alloc_vdevice Sample.all_ok Sample.full
  = Done (ERR_PTR (- ENOBUFS),
          Sample.state_of (vinput_alloc_vdevice Sample.all_ok Sample.full))
  /\ forall i, 0 <= i < VINPUT_MINORS ->
       Z.testbit (vinput_ids Sample.full) i = true.
Proof.
  assert (Hrun : vinput_alloc_vdevice Sample.all_ok Sample.full
                 = Done (ERR_PTR (- ENOBUFS),
                         Sample.state_of
                           (vinput_alloc_vdevice Sample.all_ok Sample.full)))
    by (vm_compute; reflexivity).
  split; [exact Hrun|].
  apply (proj1 (alloc_reports_exhaustion_exactly_when_full _ _ _ _ Hrun)).
  reflexivity.
Defined.

(** X19: ids lost by failed creates are not recovered: after 32
    creates during which [input_allocate_device] fails (each returns
    [-ENOMEM], or [-ENOBUFS] once the ids have run out) the instance
    list is what it was, yet no id is free, and every later create of a
    registered type returns [-ENOBUFS]. *)
Theorem failed_input_allocations_exhaust_ids :
  forall (cs : list command) (s0 : kstate),
    List.length cs = 32%nat ->
    Forall (fun c => exists x buf len d,
              c = Export x buf len
              /\ x_kzalloc_ok x = true
              /\ x_input_allocate_ok x = false
              /\ vinput_get_device_by_type buf s0 = inr d) cs ->
    exists rs s,
      run_commands cs s0 = Done (rs, s)
      /\ Forall (fun r => r = - ENOMEM \/ r = - ENOBUFS) rs
      /\ vinput_vdevices s = vinput_vdevices s0
      /\ find_first_zero_bit (vinput_ids s) VINPUT_MINORS = VINPUT_MINORS
      /\ forall x buf len d,
           x_kzalloc_ok x = true ->
           vinput_get_device_by_type buf s0 = inr d ->
           exists s', export_store x buf len s = Done (- ENOBUFS, s')
                      /\ registries s' = registries s.
Proof.
  intros cs s0 Hlen Hall.
  destruct (failing_creates_run cs s0 s0 eq_refl Hall)
    as (rs & s & Hrun & Hrs & Hvd & Hdevs & Hw).
  assert (Hfull : find_first_zero_bit (vinput_ids s) VINPUT_MINORS
                  = VINPUT_MINORS).
  { apply BitmapFacts.bitmap_weight_full.
    pose proof (BitmapFacts.weight_from_le (vinput_ids s) 32 0) as Hle.
    unfold bitmap_weight in *.
    change (Z.to_nat VINPUT_MINORS) with 32%nat in *. lia. }
  exists rs, s. repeat split; try assumption.
  intros x buf len d Hk Hlook.
  rewrite <- (lookup_by_type_same_devices buf s s0 Hdevs) in Hlook.
  destruct (export_store_exhausted x buf len s Hk Hfull) as (s' & Hrun' & Hreg).
  rewrite Hlook in Hrun'. exists s'. split; assumption.
Qed.

Lemma failed_input_allocations_exhaust_ids_witness :
  List.length Scenario.failing_creates = 32%nat
  /\ exists rs s,
       run_commands Scenario.failing_creates Sample.with_vkbd = Done (rs, s)
       /\ vinput_vdevices s = vinput_vdevices Sample.with_vkbd
       /\ find_first_zero_bit (vinput_ids s) VINPUT_MINORS = VINPUT_MINORS.
Proof.
  split; [reflexivity|].
  destruct (failed_input_allocations_exhaust_ids
              Scenario.failing_creates Sample.with_vkbd eq_refl)
    as (rs & s & Hrun & _ & Hvd & Hfull & _).
  - unfold Scenario.failing_creates. apply Forall_forall.
    intros c Hc. apply repeat_spec in Hc. subst c.
    exists Sample.no_input, "vkbd"%string, 5, Sample.vkbd.
    repeat split; reflexivity.
  - exists rs, s. repeat split; assumption.
Defined.

(** ** What every run keeps *)

Section Kept.
Variable Q : Z -> list Z -> Prop.
Variable allowed : extern -> Prop.

Hypothesis Q_add : forall bits l,
  Q bits l ->
  find_first_zero_bit bits VINPUT_MINORS < VINPUT_MINORS ->
  Q (set_bit (find_first_zero_bit bits VINPUT_MINORS) bits)
    (find_first_zero_bit bits VINPUT_MINORS :: l).

Hypothesis Q_del : forall bits l i,
  Q bits l -> Q (clear_bit i bits) (remove_first i l).

Hypothesis Q_leak : forall x bits l,
  allowed x ->
  x_input_allocate_ok x = false ->
  Q bits l ->
  find_first_zero_bit bits VINPUT_MINORS < VINPUT_MINORS ->
  Q (set_bit (find_first_zero_bit bits VINPUT_MINORS) bits) l.

Lemma preserves_ret {A} (a : A) : preserves (on_registry Q) (ret a).
Proof. intros s b s' HP H. apply ret_inv in H. destruct H as [_ ->]. exact HP. Qed.

Lemma preserves_bind {A B} (m : K A) (k : A -> K B) :
  preserves (on_registry Q) m ->
  (forall a, preserves (on_registry Q) (k a)) ->
  preserves (on_registry Q) (bind m k).
Proof.
  intros Hm Hk s b s' HP H.
  apply bind_inv in H. destruct H as (a & s1 & H1 & H2).
  eapply Hk; [|exact H2]. eapply Hm; eassumption.
Qed.

Lemma preserves_get : preserves (on_registry Q) get.
Proof. intros s a s' HP H. injection H as _ <-. exact HP. Qed.

Lemma preserves_log e : preserves (on_registry Q) (log e).
Proof. intros s a s' HP H. injection H as _ <-. exact HP. Qed.

Lemma preserves_store v : preserves (on_registry Q) (store v).
Proof.
  intros s a s' HP H. unfold on_registry in *.
  pose proof (store_ids _ _ _ _ H) as Hl.
  pose proof (store_frame _ _ _ _ H) as [Hb _].
  rewrite Hl, Hb. exact HP.
Qed.

Lemma preserves_set_devices f :
  preserves (on_registry Q) (modify (set_devices f)).
Proof. intros s a s' HP H. injection H as _ <-. exact HP. Qed.

Lemma preserves_destroy v :
  preserves (on_registry Q) (vinput_destroy_vdevice v).
Proof.
  intros s a s' HP H.
  destruct (live v s) eqn:Hlive.
  - rewrite vinput_destroy_vdevice_run in H by exact Hlive.
    injection H as _ <-. unfold on_registry in *.
    cbn [vinput_ids vinput_vdevices]. rewrite list_del_ids.
    apply Q_del. exact HP.
  - unfold vinput_destroy_vdevice in H. rewrite Hlive in H. discriminate.
Qed.

Lemma preserves_device_unregister x v :
  preserves (on_registry Q) (device_unregister x v).
Proof.
  intros s a s' HP H.
  destruct (live v s) eqn:Hlive.
  - rewrite device_unregister_run in H by exact Hlive.
    injection H as _ <-. unfold on_registry in *.
    destruct (released x v); cbn [vinput_ids vinput_vdevices];
      [rewrite list_del_ids; apply Q_del|]; exact HP.
  - unfold device_unregister in H. rewrite Hlive in H. discriminate.
Qed.

Lemma preserves_unregister_vdevice x v :
  preserves (on_registry Q) (vinput_unregister_vdevice x v).
Proof.
  intros s a s' HP H.
  destruct (live v s) eqn:Hlive.
  - rewrite vinput_unregister_vdevice_run in H by exact Hlive.
    injection H as _ <-. unfold on_registry in *.
    destruct (x_input_unregister_releases x (id v) && dev_release (dev v));
      cbn [vinput_ids vinput_vdevices];
      [rewrite list_del_ids; apply Q_del|]; exact HP.
  - unfold vinput_unregister_vdevice in H. rewrite Hlive in H. discriminate.
Qed.

Lemma preserves_register_vdevice v :
  preserves (on_registry Q) (vinput_register_vdevice v).
Proof.
  unfold vinput_register_vdevice.
  destruct (input v); [|intros s a s' _ H; discriminate H].
  destruct (type v); [|intros s a s' _ H; discriminate H].
  apply preserves_bind; [apply preserves_store|]. intros _.
  apply preserves_bind; [apply preserves_log|]. intros _.
  apply preserves_ret.
Qed.

Lemma preserves_alloc x :
  allowed x -> preserves (on_registry Q) (vinput_alloc_vdevice x).
Proof.
  intros Hx s r s' HP H. unfold on_registry in *.
  destruct (vinput_alloc_vdevice_cases x s r s' H)
    as [(_ & _ & Hids & Hvd)
        | [(_ & Hfree & Hin & Hids & Hvd) | (v & _ & Hfree & _ & Hids & Hvd)]].
  - rewrite Hids, Hvd. exact HP.
  - rewrite Hids, Hvd. apply (Q_leak x); assumption.
  - rewrite Hids, Hvd. apply Q_add; assumption.
Qed.

Lemma preserves_export x buf len :
  allowed x -> preserves (on_registry Q) (export_store x buf len).
Proof.
  intros Hx. unfold export_store.
  apply preserves_bind; [apply preserves_get|]. intros s0.
  destruct (vinput_get_device_by_type buf s0) as [err | d];
    [apply preserves_ret|].
  apply preserves_bind; [apply preserves_alloc; exact Hx|]. intros [err | v];
    [apply preserves_ret|].
  apply preserves_bind; [apply preserves_store|]. intros _.
  apply preserves_bind; [apply preserves_register_vdevice|]. intros [err v'].
  destruct (err <? 0).
  { apply preserves_bind; [apply preserves_destroy|]. intros _.
    apply preserves_ret. }
  apply preserves_bind.
  { unfold device_register.
    apply preserves_bind; [apply preserves_log|]. intros _.
    apply preserves_ret. }
  intros err1. destruct (err1 <? 0).
  { apply preserves_bind; [apply preserves_unregister_vdevice|]. intros _.
    apply preserves_bind; [apply preserves_destroy|]. intros _.
    apply preserves_ret. }
  apply preserves_bind.
  { unfold input_register_device.
    apply preserves_bind; [apply preserves_log|]. intros _.
    apply preserves_ret. }
  intros err2. destruct (err2 <? 0); [|apply preserves_ret].
  apply preserves_bind; [apply preserves_device_unregister|]. intros _.
  apply preserves_bind; [apply preserves_unregister_vdevice|]. intros _.
  apply preserves_bind; [apply preserves_destroy|]. intros _.
  apply preserves_ret.
Qed.

Lemma preserves_lookup_by_id i :
  preserves (on_registry Q) (vinput_get_vdevice_by_id i).
Proof.
  intros s r s' HP H. unfold vinput_get_vdevice_by_id in H.
  destruct (scan_by_id i (vinput_vdevices s) None) as [v|]; [|discriminate].
  destruct (id v =? i); injection H as _ <-; exact HP.
Qed.

Lemma preserves_unexport x parsed len :
  preserves (on_registry Q) (unexport_store x parsed len).
Proof.
  unfold unexport_store. destruct parsed as [i|]; [|apply preserves_ret].
  apply preserves_bind; [apply preserves_lookup_by_id|]. intros [err | v];
    [apply preserves_ret|].
  apply preserves_bind; [apply preserves_device_unregister|]. intros _.
  apply preserves_bind; [apply preserves_unregister_vdevice|]. intros _.
  apply preserves_ret.
Qed.

Lemma preserves_unregister_each x l :
  preserves (on_registry Q) (unregister_each x l).
Proof.
  induction l as [| v l IH]; cbn [unregister_each]; [apply preserves_ret|].
  apply preserves_bind; [apply preserves_device_unregister|]. intros _.
  exact IH.
Qed.

Lemma preserves_unregister x d :
  preserves (on_registry Q) (vinput_unregister x d).
Proof.
  unfold vinput_unregister.
  apply preserves_bind; [apply preserves_get|]. intros s0.
  destruct (negb (linked d s0)).
  { intros s r s' _ H. discriminate H. }
  apply preserves_bind; [apply preserves_set_devices|]. intros _.
  apply preserves_bind; [apply preserves_get|]. intros s1.
  apply preserves_unregister_each.
Qed.

Lemma preserves_register d : preserves (on_registry Q) (vinput_register d).
Proof.
  unfold vinput_register.
  apply preserves_bind; [apply preserves_set_devices|]. intros _.
  apply preserves_ret.
Qed.

Lemma preserves_run_commands cs :
  Forall (fun c => match c with
                   | Export x _ _ => allowed x
                   | _ => True
                   end) cs ->
  preserves (on_registry Q) (run_commands cs).
Proof.
  induction 1 as [| c cs Hc _ IH]; cbn [run_commands];
    [apply preserves_ret|].
  apply preserves_bind.
  { destruct c as [d | x d | x buf len | x parsed len]; cbn [run_command].
    - apply preserves_register.
    - apply preserves_bind; [apply preserves_unregister|]. intros _.
      apply preserves_ret.
    - apply preserves_export. exact Hc.
    - apply preserves_unexport. }
  intros r. apply preserves_bind; [exact IH|]. intros rs.
  apply preserves_ret.
Qed.
End Kept.

Section Soundness.
Lemma ids_exact_add bits l :
  ids_exact bits l ->
  find_first_zero_bit bits VINPUT_MINORS < VINPUT_MINORS ->
  ids_exact (set_bit (find_first_zero_bit bits VINPUT_MINORS) bits)
    (find_first_zero_bit bits VINPUT_MINORS :: l).
Proof.
  intros [Hnd Hex] Hfree.
  destruct (BitmapFacts.find_first_zero_bit_spec bits VINPUT_MINORS)
    as (Hrange & Hclear & _); [unfold VINPUT_MINORS; lia|].
  specialize (Hclear Hfree).
  set (i := find_first_zero_bit bits VINPUT_MINORS) in *.
  split.
  - constructor; [|exact Hnd]. intros Hin.
    apply Hex in Hin; [congruence | lia].
  - intros j Hj. rewrite BitmapFacts.testbit_set_bit by lia.
    rewrite orb_true_iff, Z.eqb_eq. cbn [In]. rewrite (Hex j Hj). tauto.
Qed.

Lemma ids_exact_del bits l i :
  ids_exact bits l -> ids_exact (clear_bit i bits) (remove_first i l).
Proof.
  intros [Hnd Hex]. split; [apply remove_first_NoDup; exact Hnd|].
  intros j Hj. rewrite BitmapFacts.testbit_clear_bit.
  rewrite andb_true_iff, negb_true_iff, Z.eqb_neq, (Hex j Hj).
  split.
  - intros [Hin Hne]. apply remove_first_other; [exact Hin | congruence].
  - intros Hin. split; [eapply remove_first_In, Hin|].
    intros ->. exact (remove_first_gone j l Hnd Hin).
Qed.

Lemma ids_exact_registry s :
  on_registry ids_exact s
  <-> NoDup (map id (vinput_vdevices s)) /\ registry_matches_bitmap s.
Proof.
  unfold on_registry, ids_exact, registry_matches_bitmap, allocated.
  split; intros [Hnd H]; (split; [exact Hnd|]); intros i Hi;
    specialize (H i Hi); rewrite reachable_ids in *; exact H.
Qed.

(** Ids that are distinct and below [VINPUT_MINORS] are at most 32. *)
Lemma ids_sound_length bits l : ids_sound bits l -> (List.length l <= 32)%nat.
Proof.
  intros [Hnd Hbits].
  assert (Hincl : incl l (map Z.of_nat (seq 0 32))).
  { intros i Hi. destruct (Hbits i Hi) as [Hr _].
    apply in_map_iff. exists (Z.to_nat i). split; [lia|].
    apply in_seq. unfold VINPUT_MINORS in Hr. lia. }
  pose proof (NoDup_incl_length Hnd Hincl) as Hlen.
  rewrite length_map, length_seq in Hlen. exact Hlen.
Qed.
End Soundness.

(** X20: whatever sequence of register, unregister, create and destroy
    commands runs, with whatever outcomes of the outside calls, and
    whichever of them fail: in the state it ends in no two instances on
    the list share an id, every id on the list is below 32 and marked
    in the bitmap, and at most 32 instances are on the list. *)
Theorem ids_stay_distinct_on_every_run :
  forall (cs : list command) (s0 : kstate) (rs : list Z) (s : kstate),
    on_registry ids_sound s0 ->
    run_commands cs s0 = Done (rs, s) ->
    NoDup (map id (vinput_vdevices s))
    /\ (forall v, In v (vinput_vdevices s) ->
          0 <= id v < VINPUT_MINORS
          /\ Z.testbit (vinput_ids s) (id v) = true)
    /\ (List.length (vinput_vdevices s) <= 32)%nat.
Proof.
  intros cs s0 rs s Hsound Hrun.
  assert (Hkept : on_registry ids_sound s).
  { refine (preserves_run_commands ids_sound (fun _ => True)
              _ _ _ cs _ s0 rs s Hsound Hrun).
    - intros bits l. apply ids_sound_add.
    - intros bits l i. apply ids_sound_del.
    - intros x bits l _ _ HQ Hfree.
      destruct (BitmapFacts.find_first_zero_bit_spec bits VINPUT_MINORS)
        as (Hrange & _); [unfold VINPUT_MINORS; lia|].
      apply ids_sound_leak; [lia | exact HQ].
    - apply Forall_forall. intros c _. destruct c; exact I. }
  pose proof (ids_sound_length _ _ Hkept) as Hlen.
  rewrite length_map in Hlen.
  destruct Hkept as [Hnd Hbits].
  split; [exact Hnd|]. split; [|exact Hlen].
  intros v Hv. apply Hbits. apply in_map. exact Hv.
Qed.

Lemma ids_stay_distinct_on_every_run_witness :
  on_registry ids_sound (boot 250)
  /\ run_commands Scenario.a_session (boot 250)
     = Done ([0; 5; 5; 2; - ENOMEM; 5; 0], Scenario.after_session)
  /\ NoDup (map id (vinput_vdevices Scenario.after_session))
  /\ (forall v, In v (vinput_vdevices Scenario.after_session) ->
        0 <= id v < VINPUT_MINORS
        /\ Z.testbit (vinput_ids Scenario.after_session) (id v) = true)
  /\ (List.length (vinput_vdevices Scenario.after_session) <= 32)%nat.
Proof.
  assert (Hsound : on_registry ids_sound (boot 250)).
  { split; [constructor | intros i []]. }
  assert (Hrun : run_commands Scenario.a_session (boot 250)
                 = Done ([0; 5; 5; 2; - ENOMEM; 5; 0], Scenario.after_session))
    by (vm_compute; reflexivity).
  split; [exact Hsound|]. split; [exact Hrun|].
  exact (ids_stay_distinct_on_every_run _ _ _ _ Hsound Hrun).
Defined.

(** X21: on every run of commands during which
    [input_allocate_device] does not fail, the bitmap and the instance
    list stay in agreement: in the state the run ends in, an id below
    32 is marked in the bitmap exactly when an instance with that id is
    on the list. *)
Theorem bitmap_matches_list_while_input_allocates :
  forall (cs : list command) (s0 : kstate) (rs : list Z) (s : kstate),
    NoDup (map id (vinput_vdevices s0)) ->
    registry_matches_bitmap s0 ->
    Forall input_allocated cs ->
    run_commands cs s0 = Done (rs, s) ->
    NoDup (map id (vinput_vdevices s)) /\ registry_matches_bitmap s.
Proof.
  intros cs s0 rs s Hnd Hinv Hall Hrun.
  apply ids_exact_registry.
  refine (preserves_run_commands ids_exact
            (fun x => x_input_allocate_ok x = true)
            _ _ _ cs _ s0 rs s _ Hrun).
  - intros bits l. apply ids_exact_add.
  - intros bits l i. apply ids_exact_del.
  - intros x bits l Hok Hfail. congruence.
  - eapply Forall_impl; [|exact Hall].
    intros c Hc. destruct c; exact Hc || exact I.
  - apply ids_exact_registry. split; assumption.
Qed.

Lemma bitmap_matches_list_while_input_allocates_witness :
  NoDup (map id (vinput_vdevices (boot 250)))
  /\ registry_matches_bitmap (boot 250)
  /\ Forall input_allocated Scenario.a_clean_session
  /\ run_commands Scenario.a_clean_session (boot 250)
     = Done ([0; 5; 5; 2; 5], Scenario.after_clean_session)
  /\ NoDup (map id (vinput_vdevices Scenario.after_clean_session))
  /\ registry_matches_bitmap Scenario.after_clean_session.
Proof.
  assert (Hnd : NoDup (map id (vinput_vdevices (boot 250)))) by constructor.
  assert (Hinv : registry_matches_bitmap (boot 250)).
  { intros i Hi. unfold allocated, reachable. cbn.
    rewrite Z.bits_0. split; [discriminate | intros (v & [] & _)]. }
  assert (Hall : Forall input_allocated Scenario.a_clean_session).
  { repeat constructor. }
  assert (Hrun : run_commands Scenario.a_clean_session (boot 250)
                 = Done ([0; 5; 5; 2; 5], Scenario.after_clean_session))
    by (vm_compute; reflexivity).
  split; [exact Hnd|]. split; [exact Hinv|]. split; [exact Hall|].
  split; [exact Hrun|].
  exact (bitmap_matches_list_while_input_allocates _ _ _ _
           Hnd Hinv Hall Hrun).
Defined.

(** ** After a provider has gone *)

Section Gone.
Lemma linked_In d s : In d (vinput_devices s) -> linked d s = true.
Proof.
  intros Hin. unfold linked. apply existsb_exists.
  exists d. split; [exact Hin | apply Z.eqb_refl].
Qed.

Lemma list_del_device_In d d' l :
  In d' (list_del_device d l) -> In d' l.
Proof.
  induction l as [| a l IH]; cbn; [tauto|].
  destruct (node a =? node d); cbn; tauto.
Qed.

Lemma list_del_device_other d d' l :
  In d' l -> node d' <> node d -> In d' (list_del_device d l).
Proof.
  induction l as [| a l IH]; cbn; [tauto|].
  intros [-> | Hin] Hne.
  - destruct (Z.eqb_spec (node d') (node d));
      [contradiction | left; reflexivity].
  - destruct (node a =? node d);
      [exact Hin | right; apply IH; assumption].
Qed.

(** When no node is linked twice, the node handed to [list_del] is on
    the list no more. *)
Lemma list_del_device_gone d d' l :
  NoDup (map node l) ->
  In d' (list_del_device d l) -> node d' <> node d.
Proof.
  induction l as [| a l IH]; cbn; [tauto|].
  intros Hnd Hin. inversion Hnd as [| ? ? Ha Hnd']; subst.
  destruct (Z.eqb_spec (node a) (node d)) as [Heq | Hne].
  - intros Hd'. apply Ha. rewrite Heq, <- Hd'. apply in_map. exact Hin.
  - destruct Hin as [<- | Hin]; [exact Hne | exact (IH Hnd' Hin)].
Qed.
End Gone.

(** X22: [d] is a registered provider, no struct is linked twice and no
    two registered providers share a name.  Then [vinput_unregister d]
    takes [d] off the list: no provider with the name of [d] is left,
    and every provider with another name stays; a text that only the
    name of [d] starts then resolves to no provider ([-ENODEV]). *)
Theorem unregistered_provider_is_not_found :
  forall (x : extern) (d : vinput_device) (s : kstate) (query : string),
    Forall (fun d' => no_nul (name d') = true) (vinput_devices s) ->
    NoDup (map name (vinput_devices s)) ->
    NoDup (map node (vinput_devices s)) ->
    NoDup (map id (vinput_vdevices s)) ->
    In d (vinput_devices s) ->
    (forall d', In d' (vinput_devices s) ->
       String.prefix (name d') query = true -> name d' = name d) ->
    exists s',
      vinput_unregister x d s = Done (tt, s')
      /\ ~ In d (vinput_devices s')
      /\ (forall d', In d' (vinput_devices s') -> name d' <> name d)
      /\ (forall d', In d' (vinput_devices s) -> name d' <> name d ->
            In d' (vinput_devices s'))
      /\ vinput_get_device_by_type query s' = ERR_PTR (- ENODEV).
Proof.
  intros x d s query Hnames Hnd Hnodes Hids Hd Honly.
  rewrite (vinput_unregister_linked x d s (linked_In d s Hd)).
  destruct (unregister_each_run x (vinput_vdevices s) []
              (set_devices (list_del_device d) s) eq_refl Hids)
    as (s' & Hrun & _ & _ & Hdevs & _).
  exists s'. split; [exact Hrun|].
  cbn [set_devices vinput_devices] in Hdevs.
  assert (Hnode : forall d', In d' (vinput_devices s') -> node d' <> node d).
  { intros d' Hin. rewrite Hdevs in Hin.
    exact (list_del_device_gone d d' _ Hnodes Hin). }
  assert (Hgone : forall d', In d' (vinput_devices s') -> name d' <> name d).
  { intros d' Hin Hname. apply (Hnode d' Hin).
    rewrite Hdevs in Hin. apply list_del_device_In in Hin.
    rewrite (same_key_same_entry name _ d' d Hnd Hin Hd Hname).
    reflexivity. }
  split; [intros Hin; exact (Hnode d Hin eq_refl)|].
  split; [exact Hgone|]. split.
  - intros d' Hin Hne. rewrite Hdevs.
    apply list_del_device_other; [exact Hin|].
    intros Hsame. apply Hne.
    rewrite (same_key_same_entry node _ d' d Hnodes Hin Hd Hsame).
    reflexivity.
  - unfold vinput_get_device_by_type.
    rewrite scan_by_type_find.
    + rewrite find_all_false; [reflexivity|].
      intros d' Hin.
      destruct (String.prefix (name d') query) eqn:Hpre; [|reflexivity].
      exfalso. apply (Hgone d' Hin). apply Honly; [|exact Hpre].
      rewrite Hdevs in Hin. eapply list_del_device_In, Hin.
    + rewrite Hdevs. apply Forall_forall. intros d' Hin.
      rewrite Forall_forall in Hnames. apply Hnames.
      eapply list_del_device_In, Hin.
Qed.

Lemma unregistered_provider_is_not_found_witness :
  Forall (fun d' => no_nul (name d') = true)
         (vinput_devices Sample.three_live)
  /\ NoDup (map name (vinput_devices Sample.three_live))
  /\ NoDup (map node (vinput_devices Sample.three_live))
  /\ NoDup (map id (vinput_vdevices Sample.three_live))
  /\ In Sample.vts (vinput_devices Sample.three_live)
  /\ exists s',
       vinput_unregister Sample.all_ok Sample.vts Sample.three_live
       = Done (tt, s')
       /\ ~ In Sample.vts (vinput_devices s')
       /\ vinput_get_device_by_type "vts" s' = ERR_PTR (- ENODEV).
Proof.
  assert (H1 : Forall (fun d' => no_nul (name d') = true)
                      (vinput_devices Sample.three_live))
    by (repeat constructor).
  assert (H2 : NoDup (map name (vinput_devices Sample.three_live))).
  { vm_compute. repeat constructor; simpl; intuition discriminate. }
  assert (H3 : NoDup (map node (vinput_devices Sample.three_live))).
  { vm_compute. repeat constructor; simpl; intuition discriminate. }
  assert (H4 : NoDup (map id (vinput_vdevices Sample.three_live))).
  { vm_compute. repeat constructor; simpl; intuition discriminate. }
  assert (H5 : In Sample.vts (vinput_devices Sample.three_live))
    by (left; reflexivity).
  split; [exact H1|]. split; [exact H2|]. split; [exact H3|].
  split; [exact H4|]. split; [exact H5|].
  destruct (unregistered_provider_is_not_found
              Sample.all_ok Sample.vts Sample.three_live "vts"
              H1 H2 H3 H4 H5)
    as (s' & Hrun & Hout & _ & _ & Hlook).
  - intros d' Hin Hpre. vm_compute in Hin.
    destruct Hin as [<- | [<- | []]]; [reflexivity | discriminate Hpre].
  - exists s'. split; [exact Hrun|]. split; assumption.
Defined.

(** X23: after a create that succeeds, an open of the minor equal to
    the new id binds the file to the new instance, and reads and writes
    on that file go to the operations of the provider the create
    resolved: [read] is called for the instance, and a write within the
    limit returns what that provider's [send] returns. *)
Theorem io_reaches_provider_of_created_instance :
  forall (VINPUT_MAX_LEN : Z) (x : extern) (buf : string) (len : Z)
         (s : kstate) (d : vinput_device) (f : file),
    on_registry ids_sound s ->
    vinput_get_device_by_type buf s = inr d ->
    x_kzalloc_ok x = true ->
    x_input_allocate_ok x = true ->
    0 <= x_device_register x ->
    0 <= x_input_register_device x ->
    find_first_zero_bit (vinput_ids s) VINPUT_MINORS < VINPUT_MINORS ->
    0 <= init (ops d) (find_first_zero_bit (vinput_ids s) VINPUT_MINORS) ->
    0 <= VINPUT_MAX_LEN < two64 ->
    exists s' f',
      export_store x buf len s = Done (len, s')
      /\ vinput_open (find_first_zero_bit (vinput_ids s) VINPUT_MINORS) f s'
         = Done ((0, f'), s')
      /\ (forall src count offset,
            0 <= count <= VINPUT_MAX_LEN ->
            count <= Z.of_nat (List.length src) ->
            exists buff,
              vinput_write VINPUT_MAX_LEN f' src count offset
              = Done {| wr_ret :=
                          send (ops d)
                            (find_first_zero_bit (vinput_ids s) VINPUT_MINORS)
                            buff count;
                        wr_log :=
                          [EvCopyFromUser count;
                           EvOpsSend (name d)
                             (find_first_zero_bit (vinput_ids s) VINPUT_MINORS)
                             buff count] |})
      /\ (forall writable count offset,
            exists r,
              vinput_read VINPUT_MAX_LEN f' writable count offset = Done r
              /\ In (EvOpsRead (name d)
                       (find_first_zero_bit (vinput_ids s) VINPUT_MINORS)
                       count) (rd_log r)).
Proof.
  intros M x buf len s d f Hsound Hlook Hk Hin Hdr Hir Hfree Hinit HM.
  set (i := find_first_zero_bit (vinput_ids s) VINPUT_MINORS) in *.
  pose proof (ids_sound_fresh s Hsound Hfree) as Hfresh. fold i in Hfresh.
  eexists. exists {| private_data := Some (created d (vinput_dev s) i) |}.
  split.
  { apply (export_store_all_steps x buf len s d Hlook Hk Hin Hfree
             Hfresh Hinit Hdr Hir). }
  fold i. split.
  { unfold vinput_open, bind, vinput_get_vdevice_by_id.
    cbn [vinput_vdevices scan_by_id created id]. rewrite !Z.eqb_refl.
    reflexivity. }
  split.
  - intros src count offset Hcount Hsrc.
    exists (staged M src count). unfold vinput_write.
    cbn [private_data created type id].
    rewrite (WordFacts.u64_small M) by exact HM.
    destruct (Z.gtb_spec count M); [lia|].
    unfold copy_from_user.
    destruct (Z.leb_spec count (Z.of_nat (List.length src))); [|lia].
    reflexivity.
  - intros writable count offset. unfold vinput_read.
    cbn [private_data created type id]. eexists. split; [reflexivity|].
    left. reflexivity.
Qed.

Lemma io_reaches_provider_of_created_instance_witness :
  on_registry ids_sound Sample.with_vkbd
  /\ exists s' f',
       export_store Sample.all_ok "vkbd" 5 Sample.with_vkbd = Done (5, s')
       /\ vinput_open 0 {| private_data := None |} s' = Done ((0, f'), s')
       /\ exists buff,
            vinput_write 8 f' [x61; x62] 2 0
            = Done {| wr_ret := send (ops Sample.vkbd) 0 buff 2;
                      wr_log := [EvCopyFromUser 2;
                                 EvOpsSend (name Sample.vkbd) 0 buff 2] |}.
Proof.
  assert (Hsound : on_registry ids_sound Sample.with_vkbd).
  { split; [constructor | intros i []]. }
  split; [exact Hsound|].
  destruct (io_reaches_provider_of_created_instance
              8 Sample.all_ok "vkbd" 5 Sample.with_vkbd Sample.vkbd
              {| private_data := None |} Hsound eq_refl eq_refl eq_refl)
    as (s' & f' & Hrun & Hopen & Hwrite & _).
  - simpl. lia.
  - simpl. lia.
  - vm_compute. reflexivity.
  - vm_compute. discriminate.
  - unfold two64. lia.
  - exists s', f'. split; [exact Hrun|]. split; [exact Hopen|].
    apply (Hwrite [x61; x62] 2 0); simpl; lia.
Defined.
